(** * chat4all: the asynchronous message pipeline, embedded and verified

    A shallow embedding of the Python services of the repository:
    the metadata repository (sequencer, identities), the protobuf
    converter, the Kafka consumer wrappers and the ingestion, fan-out,
    delivery and status workers.  Relational tables are finite maps or
    row lists, Python [str] is [string], Python [int] is [Z], a raised
    exception is the [Err] branch of [result]. *)

From Stdlib Require Import ZArith String Ascii List Bool.
From stdpp Require Import base tactics option list gmap strings sorting.

Local Open Scope string_scope.
Local Open Scope Z_scope.

(** ** Python values shared by all services *)

(** The outcome of a call that may raise: [Ok v] is a normal return,
    [Err e] is the exception [e] propagating to the caller. *)
Inductive result (E A : Type) : Type :=
  | Ok (v : A)
  | Err (e : E).
Arguments Ok {E A} v.
Arguments Err {E A} e.

Definition is_ok {E A} (r : result E A) : bool :=
  match r with Ok _ => true | Err _ => false end.

(** Truthiness of a Python [str]: the empty string is falsy. *)
Definition str_truthy (s : string) : bool :=
  match s with EmptyString => false | String _ _ => true end.

(** [s.startswith(p)]. *)
Definition startswith (s p : string) : bool := String.prefix p s.

(** [s.split(sep)] for a one-character separator: the pieces between
    the occurrences of [sep], in order; never the empty list. *)
Fixpoint split (sep : ascii) (s : string) : list string :=
  match s with
  | EmptyString => [EmptyString]
  | String c r =>
      if Ascii.eqb c sep then EmptyString :: split sep r
      else match split sep r with
           | p :: ps => String c p :: ps
           | [] => [String c EmptyString]
           end
  end.

(** [s[:n]]: the first [n] characters (all of [s] when it is shorter). *)
Fixpoint str_take (n : nat) (s : string) : string :=
  match n, s with
  | S k, String c r => String c (str_take k r)
  | _, _ => EmptyString
  end.

(** ** Metadata service: repository.py, main.py, consumer.py *)

Module Metadata.

(** Exceptions of repository.py. *)
Inductive repo_exn :=
  | ConversationNotFoundError
  | RepositoryError.

(** A row of table [conversations], keyed by [conversation_id]. *)
Record conversation := Conversation {
  conv_type : string;
  last_sequence_number : Z;
  conv_metadata : gmap string string
}.

(** A row of table [users_directory], keyed by [user_id]. *)
Record directory_row := DirectoryRow {
  dir_username : string;
  dir_name : string;
  dir_avatar_url : string
}.

(** Modelled from the spec: the SQL schema of the metadata database
    is not among the sources.  The keys of the tables follow the data
    model (a conversation is found by its identifier, the sequence log
    maps a message id to a conversation and a number, an identity is
    bound per user and channel) and the [ON CONFLICT] clauses of the
    statements.
    - [conversations]: primary key [conversation_id];
    - [conversation_members]: rows [(conversation_id, user_id)];
    - [message_sequences_log]: [message_id] to
      [(conversation_id, sequence_number)];
    - [user_identities]: key [(user_id, channel)], kept as a map per
      user of [channel] to [external_id];
    - [users_directory]: primary key [user_id]. *)
Record db := Db {
  conversations : gmap string conversation;
  conversation_members : list (string * string);
  message_sequences_log : gmap string (string * Z);
  user_identities : gmap string (gmap string string);
  users_directory : gmap string directory_row
}.

Definition empty_db : db := Db ∅ [] ∅ ∅ ∅.

Definition set_conversations (f : gmap string conversation → gmap string conversation)
    (s : db) : db :=
  Db (f (conversations s)) (conversation_members s) (message_sequences_log s)
     (user_identities s) (users_directory s).

Definition set_members (f : list (string * string) → list (string * string))
    (s : db) : db :=
  Db (conversations s) (f (conversation_members s)) (message_sequences_log s)
     (user_identities s) (users_directory s).

Definition set_log (f : gmap string (string * Z) → gmap string (string * Z))
    (s : db) : db :=
  Db (conversations s) (conversation_members s) (f (message_sequences_log s))
     (user_identities s) (users_directory s).

Definition set_identities
    (f : gmap string (gmap string string) → gmap string (gmap string string))
    (s : db) : db :=
  Db (conversations s) (conversation_members s) (message_sequences_log s)
     (f (user_identities s)) (users_directory s).

Definition set_directory (f : gmap string directory_row → gmap string directory_row)
    (s : db) : db :=
  Db (conversations s) (conversation_members s) (message_sequences_log s)
     (user_identities s) (f (users_directory s)).

(** [find_private_conversation]: the self-join of the membership rows
    on [conversation_id], restricted to conversations of type
    ['private'], [LIMIT 1]. *)
Definition is_private (s : db) (cid : string) : bool :=
  match conversations s !! cid with
  | Some c => String.eqb (conv_type c) "private"
  | None => false
  end.

Definition has_member (s : db) (cid uid : string) : bool :=
  bool_decide ((cid, uid) ∈ conversation_members s).

Definition find_private_conversation (member_a member_b : string) (s : db)
    : option string :=
  head (filter (λ cid, is_private s cid && has_member s cid member_b = true)
          (fst <$> filter (λ r, r.2 = member_a) (conversation_members s))).

(** [create_conversation]: an existing private chat of the two members
    is returned as it is; otherwise the conversation row is inserted
    with [last_sequence_number] 0 and one membership row per distinct
    member ([list(set(members))]; no statement depends on the order of
    the rows).  An [INSERT] on a taken [conversation_id] is a database
    error: the transaction is rolled back and [RepositoryError] raised. *)
Definition insert_conversation (conversation_id type : string)
    (members : list string) (metadata : gmap string string) (s : db)
    : result repo_exn string * db :=
  match conversations s !! conversation_id with
  | Some _ => (Err RepositoryError, s)
  | None =>
      let unique_members := remove_dups members in
      let member_data := (λ uid, (conversation_id, uid)) <$> unique_members in
      (Ok conversation_id,
       set_members (λ rows, (rows ++ member_data)%list)
         (set_conversations <[conversation_id := Conversation type 0 metadata]> s))
  end.

Definition create_conversation (conversation_id type : string)
    (members : list string) (metadata : gmap string string) (s : db)
    : result repo_exn string * db :=
  match members with
  | [a; b] =>
      if String.eqb type "private" then
        match find_private_conversation a b s with
        | Some existing_id =>
            if str_truthy existing_id then (Ok existing_id, s)
            else insert_conversation conversation_id type members metadata s
        | None => insert_conversation conversation_id type members metadata s
        end
      else insert_conversation conversation_id type members metadata s
  | _ => insert_conversation conversation_id type members metadata s
  end.

(** [get_members]. *)
Definition get_members (conversation_id : string) (s : db) : list string :=
  snd <$> filter (λ r, r.1 = conversation_id) (conversation_members s).

(** [get_or_create_sequence]: the log is looked up by [message_id]
    alone; a hit returns the stored number and touches nothing.  On a
    miss the [UPDATE ... RETURNING] increments the conversation's
    counter; no row updated means the conversation is missing, the
    exception rolls the transaction back.  Otherwise the log row is
    inserted and the transaction committed. *)
Definition get_or_create_sequence (conversation_id message_id : string) (s : db)
    : result repo_exn Z * db :=
  match message_sequences_log s !! message_id with
  | Some existing => (Ok existing.2, s)
  | None =>
      match conversations s !! conversation_id with
      | None => (Err ConversationNotFoundError, s)
      | Some c =>
          let new_sequence := last_sequence_number c + 1 in
          (Ok new_sequence,
           set_log <[message_id := (conversation_id, new_sequence)]>
             (set_conversations
                <[conversation_id :=
                    Conversation (conv_type c) new_sequence (conv_metadata c)]> s))
      end
  end.

(** [get_user_identities]: the rows of one user as a dictionary. *)
Definition get_user_identities (user_id : string) (s : db) : gmap string string :=
  default ∅ (user_identities s !! user_id).

(** [add_identity]: upsert on [(user_id, channel)]. *)
Definition add_identity (user_id channel external_id : string) (s : db) : db :=
  set_identities
    <[user_id := <[channel := external_id]> (get_user_identities user_id s)]> s.

(** [INSERT ... ON CONFLICT (user_id, channel) DO NOTHING]. *)
Definition insert_identity_do_nothing (user_id channel external_id : string)
    (s : db) : db :=
  match get_user_identities user_id s !! channel with
  | Some _ => s
  | None => add_identity user_id channel external_id s
  end.

(** The user-created event (common/schemas/events.py). *)
Record UserCreatedEvent := {
  uc_event_id : string;
  uc_user_id : string;
  uc_username : string;
  uc_email : string;
  uc_name : string;
  uc_timestamp : string
}.

(** [username.split(":")[1]]; the index exists whenever the user name
    starts with a prefix that ends in a colon. *)
Definition second_piece (username : string) : string :=
  default "" (split ":" username !! 1%nat).

(** [process_user_created] (consumer.py).  [None] stands for bytes
    that do not parse: the message is dropped and nothing is written.
    Otherwise the directory row is upserted, the ['delivery'] identity
    bound to the user's own id unless the pair is already bound, and a
    [whatsapp:] or [instagram:] user name also binds that channel. *)
Definition upsert_directory (ev : UserCreatedEvent) (s : db) : db :=
  let avatar := "https://api.dicebear.com/7.x/initials/svg?seed=" +:+ uc_username ev in
  set_directory
    (λ d, match d !! uc_user_id ev with
          | Some old =>
              <[uc_user_id ev := DirectoryRow (dir_username old) (uc_name ev) avatar]> d
          | None =>
              <[uc_user_id ev := DirectoryRow (uc_username ev) (uc_name ev) avatar]> d
          end) s.

Definition process_user_created (parsed : option UserCreatedEvent) (s : db) : db :=
  match parsed with
  | None => s
  | Some ev =>
      let s1 := upsert_directory ev s in
      let s2 := insert_identity_do_nothing (uc_user_id ev) "delivery" (uc_user_id ev) s1 in
      if startswith (uc_username ev) "whatsapp:" then
        insert_identity_do_nothing (uc_user_id ev) "whatsapp"
          (second_piece (uc_username ev)) s2
      else if startswith (uc_username ev) "instagram:" then
        insert_identity_do_nothing (uc_user_id ev) "instagram"
          (second_piece (uc_username ev)) s2
      else s2
  end.

(** gRPC status codes set by the servicer (main.py). *)
Inductive status_code := OK | NOT_FOUND | INTERNAL | INVALID_ARGUMENT | UNAVAILABLE.

(** [MetadataService.GetNextSequenceNumber]: the status code and the
    [sequence_number] field of the response (0 in an empty response). *)
Definition GetNextSequenceNumber (conversation_id message_id : string) (s : db)
    : (status_code * Z) * db :=
  match get_or_create_sequence conversation_id message_id s with
  | (Ok new_sequence, s') => ((OK, new_sequence), s')
  | (Err ConversationNotFoundError, s') => ((NOT_FOUND, 0), s')
  | (Err RepositoryError, s') => ((INTERNAL, 0), s')
  end.

(** [MetadataClient.get_next_sequence]: a status other than [OK]
    reaches the caller as a raised [grpc.RpcError]. *)
Definition get_next_sequence (conversation_id message_id : string) (s : db)
    : result status_code Z * db :=
  match GetNextSequenceNumber conversation_id message_id s with
  | ((OK, n), s') => (Ok n, s')
  | ((code, _), s') => (Err code, s')
  end.

(** [link_identity] (api-service, routers/users.py): only the three
    external channels can be bound through the API. *)
Definition link_identity (current_user_id channel external_id : string) (s : db)
    : result nat unit * db :=
  if bool_decide (channel ∈ ["whatsapp"; "instagram"; "telegram"]) then
    (Ok (), add_identity current_user_id channel external_id s)
  else (Err 400%nat, s).

(** The calls that write the metadata database. *)
Inductive call :=
  | CreateConversation (conversation_id type : string) (members : list string)
      (metadata : gmap string string)
  | NextSequence (conversation_id message_id : string)
  | UserCreated (parsed : option UserCreatedEvent)
  | LinkIdentity (user_id channel external_id : string).

Definition exec (c : call) (s : db) : db :=
  match c with
  | CreateConversation cid ty ms md => (create_conversation cid ty ms md s).2
  | NextSequence cid mid => (get_or_create_sequence cid mid s).2
  | UserCreated parsed => process_user_created parsed s
  | LinkIdentity u ch x => (link_identity u ch x s).2
  end.

(** The database after a history of calls, oldest first. *)
Definition run (cs : list call) (s : db) : db := foldl (λ s c, exec c s) s cs.

End Metadata.

(** ** Name-based UUIDs (Python's [uuid.uuid5]) *)

Module Uuid.

(** A UUID is its 128-bit integer ([UUID.int]). *)
Definition uuid := Z.

Definition mask32 : Z := 0xFFFFFFFF.
Definition add32 (x y : Z) : Z := Z.land (x + y) mask32.
Definition rol32 (n x : Z) : Z :=
  Z.land (Z.lor (Z.shiftl x n) (Z.shiftr x (32 - n))) mask32.

(** Big-endian bytes of a [w]-byte integer, and back. *)
Fixpoint be_bytes (w : nat) (x : Z) : list Z :=
  match w with
  | O => []
  | S k => (Z.land (Z.shiftr x (8 * Z.of_nat k)) 0xFF :: be_bytes k x)%list
  end.

Definition be_int (bs : list Z) : Z := foldl (λ acc b, Z.lor (Z.shiftl acc 8) b) 0 bs.

(** [str.encode('utf-8')] on characters below 256. *)
Definition utf8_char (c : ascii) : list Z :=
  let n := Z.of_N (N_of_ascii c) in
  if n <? 128 then [n]
  else [Z.lor 0xC0 (Z.shiftr n 6); Z.lor 0x80 (Z.land n 0x3F)].

Fixpoint utf8 (s : string) : list Z :=
  match s with
  | EmptyString => []
  | String c r => (utf8_char c ++ utf8 r)%list
  end.

(** SHA-1 padding: a one bit, zeros up to 56 modulo 64, then the bit
    length on eight bytes. *)
Definition sha1_pad (msg : list Z) : list Z :=
  let len := Z.of_nat (length msg) in
  let zeros := Z.to_nat ((55 - len) mod 64) in
  (msg ++ 0x80 :: replicate zeros 0 ++ be_bytes 8 (8 * len))%list.

(** The 80-word message schedule of one block, newest word first. *)
Fixpoint schedule (n : nat) (w : list Z) : list Z :=
  match n with
  | O => w
  | S k =>
      let x := Z.lxor (Z.lxor (nth 2 w 0) (nth 7 w 0))
                      (Z.lxor (nth 13 w 0) (nth 15 w 0)) in
      schedule k (rol32 1 x :: w)
  end.

Fixpoint words (n : nat) (bs : list Z) : list Z :=
  match n with
  | O => []
  | S k => (be_int (take 4 bs) :: words k (drop 4 bs))%list
  end.

Record sha1_state := Sha1 { h0 : Z; h1 : Z; h2 : Z; h3 : Z; h4 : Z }.

Definition sha1_init : sha1_state :=
  Sha1 0x67452301 0xEFCDAB89 0x98BADCFE 0x10325476 0xC3D2E1F0.

Definition sha1_round (i : Z) (st : sha1_state) (wi : Z) : sha1_state :=
  let '(Sha1 a b c d e) := st in
  let '(f, k) :=
    if i <? 20 then (Z.lor (Z.land b c) (Z.land (Z.lxor b mask32) d), 0x5A827999)
    else if i <? 40 then (Z.lxor (Z.lxor b c) d, 0x6ED9EBA1)
    else if i <? 60 then
      (Z.lor (Z.lor (Z.land b c) (Z.land b d)) (Z.land c d), 0x8F1BBCDC)
    else (Z.lxor (Z.lxor b c) d, 0xCA62C1D6) in
  let temp := add32 (add32 (add32 (add32 (rol32 5 a) f) e) k) wi in
  Sha1 temp a (rol32 30 b) c d.

Fixpoint sha1_rounds (i : Z) (ws : list Z) (st : sha1_state) : sha1_state :=
  match ws with
  | [] => st
  | (wi :: rest)%list => sha1_rounds (i + 1) rest (sha1_round i st wi)
  end.

Definition sha1_block (st : sha1_state) (block : list Z) : sha1_state :=
  let w := rev (schedule 64 (rev (words 16 block))) in
  let '(Sha1 a b c d e) := sha1_rounds 0 w st in
  Sha1 (add32 (h0 st) a) (add32 (h1 st) b) (add32 (h2 st) c)
       (add32 (h3 st) d) (add32 (h4 st) e).

Fixpoint sha1_blocks (n : nat) (st : sha1_state) (bs : list Z) : sha1_state :=
  match n with
  | O => st
  | S k => sha1_blocks k (sha1_block st (take 64 bs)) (drop 64 bs)
  end.

(** [hashlib.sha1(msg).digest()]: twenty bytes. *)
Definition sha1 (msg : list Z) : list Z :=
  let padded := sha1_pad msg in
  let '(Sha1 a b c d e) := sha1_blocks (length padded / 64) sha1_init padded in
  (be_bytes 4 a ++ be_bytes 4 b ++ be_bytes 4 c ++ be_bytes 4 d ++ be_bytes 4 e)%list.

(** [uuid.NAMESPACE_DNS], 6ba7b810-9dad-11d1-80b4-00c04fd430c8. *)
Definition NAMESPACE_DNS : uuid := 0x6ba7b8109dad11d180b400c04fd430c8.

(** [uuid.uuid5(namespace, name)]: the first sixteen bytes of the
    SHA-1 of the namespace bytes followed by the UTF-8 name, with the
    variant bits set to RFC 4122 and the version to 5. *)
Definition uuid5 (namespace : uuid) (name : string) : uuid :=
  let hash := sha1 (be_bytes 16 namespace ++ utf8 name)%list in
  let int := be_int (take 16 hash) in
  let int := Z.land int (Z.lnot (Z.shiftl 0xc000 48)) in
  let int := Z.lor int (Z.shiftl 0x8000 48) in
  let int := Z.land int (Z.lnot (Z.shiftl 0xf000 64)) in
  Z.lor int (Z.shiftl 5 76).

Definition hex_digit (d : Z) : ascii :=
  ascii_of_N (Z.to_N (if d <? 10 then 48 + d else 87 + d)).

(** The [n] low hexadecimal digits of [x], most significant first. *)
Fixpoint hex (n : nat) (x : Z) : string :=
  match n with
  | O => EmptyString
  | S k => String (hex_digit (Z.land (Z.shiftr x (4 * Z.of_nat k)) 0xF)) (hex k x)
  end.

(** [str(u)]: 8-4-4-4-12 lower-case hexadecimal digits. *)
Definition uuid_str (u : uuid) : string :=
  hex 8 (Z.shiftr u 96) +:+ "-" +:+ hex 4 (Z.shiftr u 80) +:+ "-" +:+
  hex 4 (Z.shiftr u 64) +:+ "-" +:+ hex 4 (Z.shiftr u 48) +:+ "-" +:+ hex 12 u.

End Uuid.

(** ** Library functions the services call *)

(** The Python libraries behind the converter and the workers, over a
    type [Any] of dictionary values.  [json_loads] is [None] where
    [json.loads] raises or the document is not a dictionary (the
    pydantic model then rejects it); [UUID] is [None] where the
    constructor [uuid.UUID(val)] raises [ValueError], [fromisoformat]
    where [datetime.fromisoformat] does.  The two laws are
    those of the [json] module on dictionaries: a dumped dictionary
    loads back to itself, and its text is never empty (it starts with a
    brace). *)
Class PyLib (Any : Type) := {
  py_str : string → Any;
  json_dumps : gmap string Any → string;
  json_loads : string → option (gmap string Any);
  UUID : string → option Uuid.uuid;
  fromisoformat : string → option Z;
  json_loads_dumps : ∀ d, json_loads (json_dumps d) = Some d;
  json_dumps_truthy : ∀ d, str_truthy (json_dumps d) = true
}.

(** Truthiness of a dictionary: the empty one is falsy. *)
Definition dict_truthy {A} (d : gmap string A) : bool := bool_decide (d ≠ ∅).

(** A reference instance, with string values: a dictionary is dumped
    as a brace followed by the binary digits of its code, a UUID text
    is read from its hexadecimal digits with the hyphens dropped, and a
    time stamp from its decimal digits. *)
Module RefLib.

Fixpoint pos_str (p : positive) : string :=
  match p with
  | xH => EmptyString
  | xO q => String "0" (pos_str q)
  | xI q => String "1" (pos_str q)
  end.

Fixpoint str_pos (s : string) : option positive :=
  match s with
  | EmptyString => Some xH
  | String c r =>
      if Ascii.eqb c "0" then xO <$> str_pos r
      else if Ascii.eqb c "1" then xI <$> str_pos r
      else None
  end.

Definition dumps (d : gmap string string) : string :=
  String "{" (pos_str (encode d)).

Definition loads (s : string) : option (gmap string string) :=
  match s with
  | String c r => if Ascii.eqb c "{" then str_pos r ≫= decode else None
  | EmptyString => None
  end.

Definition hex_val (c : ascii) : option Z :=
  let n := Z.of_N (N_of_ascii c) in
  if (48 <=? n) && (n <=? 57) then Some (n - 48)
  else if (97 <=? n) && (n <=? 102) then Some (n - 87)
  else if (65 <=? n) && (n <=? 70) then Some (n - 55)
  else None.

Fixpoint parse_hex (s : string) (digits : nat) (acc : Z) : option (nat * Z) :=
  match s with
  | EmptyString => Some (digits, acc)
  | String c r =>
      if Ascii.eqb c "-" then parse_hex r digits acc
      else d ← hex_val c; parse_hex r (S digits) (16 * acc + d)
  end.

Definition parse_uuid (s : string) : option Uuid.uuid :=
  '(digits, v) ← parse_hex s 0 0;
  if Nat.eqb digits 32 then Some v else None.

Fixpoint parse_digits (s : string) (acc : Z) : Z :=
  match s with
  | EmptyString => acc
  | String c r =>
      let n := Z.of_N (N_of_ascii c) in
      if (48 <=? n) && (n <=? 57) then parse_digits r (10 * acc + (n - 48))
      else parse_digits r acc
  end.

Definition parse_time (s : string) : option Z :=
  if str_truthy s then Some (parse_digits s 0) else None.

Lemma str_pos_str (p : positive) : str_pos (pos_str p) = Some p.
Proof. induction p as [q IH|q IH|]; cbn; by rewrite ?IH. Qed.

Lemma loads_dumps (d : gmap string string) : loads (dumps d) = Some d.
Proof. unfold loads, dumps. cbn. rewrite str_pos_str. cbn. apply decode_encode. Qed.

#[global] Instance ref_pylib : PyLib string := {|
  py_str := id;
  json_dumps := dumps;
  json_loads := loads;
  UUID := parse_uuid;
  fromisoformat := parse_time;
  json_loads_dumps := loads_dumps;
  json_dumps_truthy := λ _, eq_refl
|}.

End RefLib.

(** ** Events and their protobuf form: events.py, proto_converter.py *)

Module Events.
Section Events.
Context {Any : Type} `{PyLib Any}.

Record MessageSentEvent := {
  message_id : string;
  conversation_id : string;
  sender_id : string;
  timestamp : string;
  message_type : string;
  content : string;
  attachments : option (gmap string Any);
  status : string;
  sequence_number : option Z;
  target_channels : list string
}.

(** Modelled from the spec: the generated protobuf classes
    ([common.generated]) are not among the sources.  The fields are
    those the converter reads and writes; protobuf has no optional
    value here: an unset string is empty, an unset integer is 0, an
    unset repeated field is empty. *)
Record MessageSentEventProto := {
  p_message_id : string;
  p_conversation_id : string;
  p_sender_id : string;
  p_timestamp : string;
  p_message_type : string;
  p_content : string;
  p_attachments_json : string;
  p_status : string;
  p_sequence_number : Z;
  p_target_channels : list string
}.

Definition set_sequence_number (n : Z) (p : MessageSentEventProto)
    : MessageSentEventProto :=
  {| p_message_id := p_message_id p; p_conversation_id := p_conversation_id p;
     p_sender_id := p_sender_id p; p_timestamp := p_timestamp p;
     p_message_type := p_message_type p; p_content := p_content p;
     p_attachments_json := p_attachments_json p; p_status := p_status p;
     p_sequence_number := n; p_target_channels := p_target_channels p |}.

Definition message_sent_to_proto (event : MessageSentEvent) : MessageSentEventProto :=
  {| p_message_id := message_id event;
     p_conversation_id := conversation_id event;
     p_sender_id := sender_id event;
     p_timestamp := timestamp event;
     p_message_type := message_type event;
     p_content := content event;
     p_attachments_json :=
       match attachments event with
       | Some d => if dict_truthy d then json_dumps d else ""
       | None => ""
       end;
     p_status := status event;
     p_sequence_number :=
       match sequence_number event with Some n => n | None => 0 end;
     p_target_channels := target_channels event |}.

(** [None] is the exception raised when [attachments_json] does not
    load as a dictionary. *)
Definition message_sent_from_proto (proto : MessageSentEventProto)
    : option MessageSentEvent :=
  att ← (if str_truthy (p_attachments_json proto)
         then Some <$> json_loads (p_attachments_json proto)
         else Some None);
  Some {| message_id := p_message_id proto;
          conversation_id := p_conversation_id proto;
          sender_id := p_sender_id proto;
          timestamp := p_timestamp proto;
          message_type := p_message_type proto;
          content := p_content proto;
          attachments := att;
          status := p_status proto;
          sequence_number :=
            if 0 <? p_sequence_number proto then Some (p_sequence_number proto)
            else None;
          target_channels := p_target_channels proto |}.

Record DeliveryJobEvent := {
  job_id : string;
  j_message_id : string;
  j_conversation_id : string;
  recipient_id : string;
  channel : string;
  payload : MessageSentEvent
}.

(** Modelled from the spec: the protobuf form of a delivery job, with
    the fields the converter and the dispatcher use. *)
Record DeliveryJobEventProto := {
  pj_job_id : string;
  pj_message_id : string;
  pj_conversation_id : string;
  pj_recipient_id : string;
  pj_channel : string;
  pj_payload : MessageSentEventProto
}.

Definition delivery_job_from_proto (proto : DeliveryJobEventProto)
    : option DeliveryJobEvent :=
  payload_pydantic ← message_sent_from_proto (pj_payload proto);
  Some {| job_id := pj_job_id proto;
          j_message_id := pj_message_id proto;
          j_conversation_id := pj_conversation_id proto;
          recipient_id := pj_recipient_id proto;
          channel := pj_channel proto;
          payload := payload_pydantic |}.

(** Modelled from the spec: the protobuf form of a status event. *)
Record MessageStatusEventProto := {
  ps_event_id : string;
  ps_message_id : string;
  ps_sequence_number : Z;
  ps_conversation_id : string;
  ps_user_id : string;
  ps_sender_id : string;
  ps_status : string;
  ps_timestamp : string
}.

Record PushNotificationEvent := {
  notification_id : string;
  n_user_id : string;
  title : string;
  body : string;
  data : option (gmap string Any);
  n_timestamp : string
}.

(** Modelled from the spec: the protobuf form of a push notification. *)
Record PushNotificationEventProto := {
  pn_notification_id : string;
  pn_user_id : string;
  pn_title : string;
  pn_body : string;
  pn_data_json : string;
  pn_timestamp : string
}.

Definition push_notification_to_proto (event : PushNotificationEvent)
    : PushNotificationEventProto :=
  {| pn_notification_id := notification_id event;
     pn_user_id := n_user_id event;
     pn_title := title event;
     pn_body := body event;
     pn_data_json :=
       match data event with
       | Some d => if dict_truthy d then json_dumps d else ""
       | None => ""
       end;
     pn_timestamp := n_timestamp event |}.

End Events.
Arguments MessageSentEvent Any : clear implicits.
Arguments DeliveryJobEvent Any : clear implicits.
Arguments PushNotificationEvent Any : clear implicits.
End Events.

(** ** The message log: scylla_client.py *)

Module Scylla.

(** The non-key columns of table [messages]; a column never written is
    null. *)
Record message_row := MessageRow {
  r_message_id : option Uuid.uuid;
  r_sender_id : option Uuid.uuid;
  r_content : option string;
  r_message_type : option string;
  r_status : option string;
  r_timestamp : option Z;
  r_attachments : option string
}.

Definition null_row : message_row := MessageRow None None None None None None None.

(** Table [messages], primary key [(conversation_id, sequence_number)]. *)
Abbreviation messages_table := (gmap (Uuid.uuid * Z) message_row).

(** A row of table [user_inbox]; [created_at] is the server's clock. *)
Record inbox_row := InboxRow {
  i_user_id : Uuid.uuid;
  i_created_at : Z;
  i_conversation_id : Uuid.uuid;
  i_message_id : Uuid.uuid;
  i_sequence_number : Z;
  i_content : string;
  i_sender_id : Uuid.uuid;
  i_status : string
}.

Section Scylla.
Context {Any : Type} `{PyLib Any}.
Import Events.

(** [_to_uuid]: a text that is no UUID falls back to the name-based
    UUID of the text. *)
Definition _to_uuid (val : string) : Uuid.uuid :=
  match UUID val with
  | Some u => u
  | None => Uuid.uuid5 Uuid.NAMESPACE_DNS val
  end.

(** [s.replace('Z', '+00:00')]. *)
Fixpoint replace_Z (s : string) : string :=
  match s with
  | EmptyString => EmptyString
  | String c r =>
      if Ascii.eqb c "Z" then "+00:00" +:+ replace_Z r else String c (replace_Z r)
  end.

(** [save_message] on a protobuf event.  [up] tells whether the
    session executes the statement; a time stamp that does not parse
    and a failed statement both raise.  The [INSERT] overwrites the row
    of the same key. *)
Definition save_message (up : bool) (event_obj : MessageSentEventProto)
    (sequence_number : Z) (t : messages_table) : result unit bool * messages_table :=
  let att_str :=
    if str_truthy (p_attachments_json event_obj)
    then Some (p_attachments_json event_obj) else None in
  let uuid_conv := _to_uuid (p_conversation_id event_obj) in
  let uuid_msg := _to_uuid (p_message_id event_obj) in
  let uuid_sender := _to_uuid (p_sender_id event_obj) in
  match fromisoformat (replace_Z (p_timestamp event_obj)) with
  | None => (Err (), t)
  | Some ts_obj =>
      if up then
        (Ok true,
         <[(uuid_conv, sequence_number) :=
             MessageRow (Some uuid_msg) (Some uuid_sender) (Some (p_content event_obj))
               (Some (p_message_type event_obj)) (Some (p_status event_obj))
               (Some ts_obj) att_str]> t)
      else (Err (), t)
  end.

(** [UPDATE messages SET status = ... WHERE conversation_id = ... AND
    sequence_number = ...]: the status column of the row is
    overwritten; a row that does not exist is created with the other
    columns null. *)
Definition set_status (new_status : string) (r : message_row) : message_row :=
  MessageRow (r_message_id r) (r_sender_id r) (r_content r) (r_message_type r)
    (Some new_status) (r_timestamp r) (r_attachments r).

Definition update_status (conversation_id : Uuid.uuid) (sequence_number : Z)
    (new_status : string) (t : messages_table) : messages_table :=
  <[(conversation_id, sequence_number) :=
      set_status new_status (default null_row (t !! (conversation_id, sequence_number)))]> t.

(** The stored status of a row, if any. *)
Definition stored_status (conversation_id : Uuid.uuid) (sequence_number : Z)
    (t : messages_table) : option string :=
  t !! (conversation_id, sequence_number) ≫= r_status.

End Scylla.
End Scylla.

(** ** The Kafka wrappers: kafka_client.py *)

Module Kafka.

(** A record handed to a consumer: its offset in the partition and its
    value. *)
Record message (V : Type) := Message { offset : Z; value : V }.
Arguments Message {V} offset value.
Arguments offset {V} m.
Arguments value {V} m.

(** [consumer.commit()]: the committed position becomes the offset
    after the record just consumed. *)
Definition commit {V} (m : message V) : Z := offset m + 1.

(** [ConsumerWrapper.consume] driving a [for] loop.  The generator
    yields the value; the loop body runs; when the body ends (by
    reaching its end or by [continue]) the generator is resumed and
    commits.  An exception that escapes the body ends the loop and the
    generator is not resumed.  The state [W] is the worker's, the
    second component the committed position. *)
Fixpoint consume {V W E} (body : V → W → result E unit * W)
    (msgs : list (message V)) (w : W) (committed : Z) : W * Z :=
  match msgs with
  | [] => (w, committed)
  | m :: rest =>
      match body (value m) w with
      | (Ok _, w') => consume body rest w' (commit m)
      | (Err _, w') => (w', committed)
      end
  end.

(** [AsyncConsumerWrapper.consume]: the callback is awaited, then the
    offset committed; an exception of the callback is logged, the
    commit is skipped and the loop goes on with the next record. *)
Fixpoint consume_async {V W E} (callback : V → W → result E unit * W)
    (msgs : list (message V)) (w : W) (committed : Z) : W * Z :=
  match msgs with
  | [] => (w, committed)
  | m :: rest =>
      match callback (value m) w with
      | (Ok _, w') => consume_async callback rest w' (commit m)
      | (Err _, w') => consume_async callback rest w' committed
      end
  end.

(** A record sent by a producer: topic, key, value. *)
Record sent (V : Type) := Sent { s_topic : string; s_key : string; s_value : V }.
Arguments Sent {V} s_topic s_key s_value.
Arguments s_topic {V} s.
Arguments s_key {V} s.
Arguments s_value {V} s.

End Kafka.

(** ** The ingestion worker: ingestion-service/src/main.py *)

Module Ingestion.
Section Ingestion.
Context {Any : Type} `{PyLib Any}.
Import Events Scylla Kafka.

(** The topic the worker produces to ([os.getenv("TOPIC_PRODUCE")]). *)
Variable TOPIC_PRODUCE : string.

(** What the surroundings do while one record is handled: whether the
    metadata service answers, whether the message log executes the
    statement, whether the producer accepts the record. *)
Record env := Env { rpc_up : bool; scylla_up : bool; kafka_up : bool }.

Inductive exn :=
  | DecodeError
  | RpcError (code : Metadata.status_code)
  | ScyllaError
  | KafkaError.

(** The stores the worker writes, its dedup cache, the records handed
    to the producer and the errors it logged. *)
Record world := World {
  meta : Metadata.db;
  messages : messages_table;
  processed_ids_cache : list string;
  produced : list (sent MessageSentEventProto);
  logged : list exn
}.

(** [deque(maxlen=10000).append]: a full deque drops its oldest entry. *)
Definition cache_append (x : string) (cache : list string) : list string :=
  let cache' := (cache ++ [x])%list in
  drop (length cache' - Z.to_nat 10000)%nat cache'.

(** [metadata_client.get_next_sequence] over the wire. *)
Definition get_next_sequence (up : bool) (conversation_id message_id : string)
    (db : Metadata.db) : result exn Z * Metadata.db :=
  if up then
    match Metadata.get_next_sequence conversation_id message_id db with
    | (Ok n, db') => (Ok n, db')
    | (Err code, db') => (Err (RpcError code), db')
    end
  else (Err (RpcError Metadata.UNAVAILABLE), db).

(** The [try] block of the loop body.  [None] stands for bytes that do
    not parse.  A message id found in the cache ends the iteration
    ([continue]).  The id is appended to the cache before the record
    is sent on. *)
Definition process (e : env) (parsed : option MessageSentEventProto) (w : world)
    : result exn unit * world :=
  match parsed with
  | None => (Err DecodeError, w)
  | Some event_proto =>
      if bool_decide (p_message_id event_proto ∈ processed_ids_cache w) then (Ok (), w)
      else
        match get_next_sequence (rpc_up e) (p_conversation_id event_proto)
                (p_message_id event_proto) (meta w) with
        | (Err x, db') =>
            (Err x, World db' (messages w) (processed_ids_cache w) (produced w) (logged w))
        | (Ok seq_num, db') =>
            match save_message (scylla_up e) event_proto seq_num (messages w) with
            | (Err _, t') =>
                (Err ScyllaError,
                 World db' t' (processed_ids_cache w) (produced w) (logged w))
            | (Ok _, t') =>
                let cache' := cache_append (p_message_id event_proto)
                                (processed_ids_cache w) in
                let event_proto' := set_sequence_number seq_num event_proto in
                if kafka_up e then
                  (Ok (),
                   World db' t' cache'
                     (produced w ++ [Sent TOPIC_PRODUCE (p_conversation_id event_proto)
                                       event_proto'])%list
                     (logged w))
                else (Err KafkaError, World db' t' cache' (produced w) (logged w))
            end
        end
  end.

(** The loop body: the [try] block with its [except Exception], which
    logs the error and lets the iteration end normally. *)
Definition loop_body (v : env * option MessageSentEventProto) (w : world)
    : result exn unit * world :=
  match process v.1 v.2 w with
  | (Ok _, w') => (Ok (), w')
  | (Err x, w') =>
      (Ok (), World (meta w') (messages w') (processed_ids_cache w') (produced w')
                (logged w' ++ [x])%list)
  end.

(** [run]: the loop over the consumer's generator. *)
Definition run (msgs : list (message (env * option MessageSentEventProto)))
    (w : world) (committed : Z) : world * Z :=
  consume loop_body msgs w committed.

End Ingestion.
End Ingestion.

(** ** The fan-out dispatcher: fanout-service/src/main.py *)

(** The iteration order of a Python [set] built from a list: some
    enumeration of its elements without repetition.  The order itself
    is not specified by the language. *)
Class SetOrder := {
  set_iter : list string → list string;
  set_iter_NoDup : ∀ l, NoDup (set_iter l);
  set_iter_elem : ∀ l x, x ∈ set_iter l ↔ x ∈ l
}.

(** One admissible order: the distinct elements, in list order. *)
#[global] Instance first_occurrence_order : SetOrder := {|
  set_iter := remove_dups;
  set_iter_NoDup := NoDup_remove_dups;
  set_iter_elem := λ l x, elem_of_remove_dups l x
|}.

Module Fanout.
Section Fanout.
Context {Any : Type} `{PyLib Any} {order : SetOrder}.
Import Events Kafka.

(** The three topic names read from the environment at import time. *)
Record config := Config {
  TOPIC_PRODUCE_DELIVERY : string;
  TOPIC_PRODUCE_WHATSAPP : string;
  TOPIC_PRODUCE_INSTAGRAM : string
}.

(** The defaults of [os.getenv]. *)
Definition default_config : config :=
  Config "connector.delivery.outbound.v1" "connector.whatsapp.outbound.v1"
         "connector.instagram.outbound.v1".

Definition CHANNEL_TOPIC_MAP (cfg : config) : gmap string string :=
  <["delivery" := TOPIC_PRODUCE_DELIVERY cfg]>
    (<["whatsapp" := TOPIC_PRODUCE_WHATSAPP cfg]>
       (<["instagram" := TOPIC_PRODUCE_INSTAGRAM cfg]> ∅)).

(** [resolve_target_channels]: the routing dictionary, as the list of
    its items in insertion order.  The target set is the identities'
    keys when ["all"] is requested, the requested channels otherwise;
    a channel the user has no identity for is skipped. *)
Definition resolve_target_channels (requested_channels : list string)
    (available_identities : gmap string string) : list (string * string) :=
  let target_set :=
    if bool_decide ("all" ∈ requested_channels)
    then set_iter (map_to_list available_identities).*1
    else set_iter requested_channels in
  omap (λ channel, (λ x, (channel, x)) <$> available_identities !! channel) target_set.

(** The job built for one route. *)
Definition make_job (proto_event : MessageSentEventProto) (member_id channel : string)
    : DeliveryJobEventProto :=
  let job_uuid :=
    Uuid.uuid5 Uuid.NAMESPACE_DNS
      (p_message_id proto_event +:+ ":" +:+ member_id +:+ ":" +:+ channel) in
  {| pj_job_id := Uuid.uuid_str job_uuid;
     pj_message_id := p_message_id proto_event;
     pj_conversation_id := p_conversation_id proto_event;
     pj_recipient_id := member_id;
     pj_channel := channel;
     pj_payload := proto_event |}.

(** The records sent for one member, in order: none for the sender,
    for a member without identities or without a matching route; a
    channel with no topic, or an empty one, is skipped. *)
Definition member_jobs (cfg : config) (db : Metadata.db)
    (proto_event : MessageSentEventProto) (member_id : string)
    : list (sent DeliveryJobEventProto) :=
  if String.eqb member_id (p_sender_id proto_event) then []
  else
    let identities := Metadata.get_user_identities member_id db in
    if negb (dict_truthy identities) then []
    else
      let routes := resolve_target_channels (p_target_channels proto_event) identities in
      omap (λ route : string * string,
              match CHANNEL_TOPIC_MAP cfg !! route.1 with
              | Some target_topic =>
                  if str_truthy target_topic
                  then Some (Sent target_topic member_id
                               (make_job proto_event member_id route.1))
                  else None
              | None => None
              end) routes.

(** All the records of one persisted event, in sending order. *)
Definition event_jobs (cfg : config) (db : Metadata.db)
    (proto_event : MessageSentEventProto) : list (sent DeliveryJobEventProto) :=
  mjoin (member_jobs cfg db proto_event
           <$> Metadata.get_members (p_conversation_id proto_event) db).

(** What the surroundings do while one event is dispatched: whether
    the metadata service answers, and how many records the producer
    accepts before a send raises ([None]: all of them). *)
Record env := Env { rpc_up : bool; sends_accepted : option nat }.

Inductive exn := DecodeError | RpcError | KafkaError.

Record world := World {
  meta : Metadata.db;
  produced : list (sent DeliveryJobEventProto);
  logged : list exn
}.

(** The [try] block of the loop body: the sends happen in order until
    one raises. *)
Definition dispatch (cfg : config) (e : env) (parsed : option MessageSentEventProto)
    (w : world) : result exn unit * world :=
  match parsed with
  | None => (Err DecodeError, w)
  | Some proto_event =>
      if rpc_up e then
        let jobs := event_jobs cfg (meta w) proto_event in
        match sends_accepted e with
        | Some n =>
            if (n <? length jobs)%nat
            then (Err KafkaError,
                  World (meta w) (produced w ++ take n jobs)%list (logged w))
            else (Ok (), World (meta w) (produced w ++ jobs)%list (logged w))
        | None => (Ok (), World (meta w) (produced w ++ jobs)%list (logged w))
        end
      else (Err RpcError, w)
  end.

Definition loop_body (cfg : config) (v : env * option MessageSentEventProto) (w : world)
    : result exn unit * world :=
  match dispatch cfg v.1 v.2 w with
  | (Ok _, w') => (Ok (), w')
  | (Err x, w') => (Ok (), World (meta w') (produced w') (logged w' ++ [x])%list)
  end.

Definition run (cfg : config) (msgs : list (message (env * option MessageSentEventProto)))
    (w : world) (committed : Z) : world * Z :=
  consume (loop_body cfg) msgs w committed.

End Fanout.
End Fanout.

(** ** The delivery worker: delivery-worker/src/main.py *)

Module Delivery.
Section Delivery.
Context {Any : Type} `{PyLib Any}.
Import Events Scylla Kafka.

(** The topic of push notifications ([os.getenv("TOPIC_PRODUCE", ...)])
    and pydantic's [model_dump_json] on the payload. *)
Variable TOPIC_PUSH : string.
Variable model_dump_json : MessageSentEvent Any → string.

(** What the surroundings do while one job is handled: whether the
    message log executes the inbox insert and at what server time,
    what [PUBLISH] answers ([None]: the command raises, [Some n]: [n]
    subscribers received the payload), whether the producer accepts the
    push record, and the values [uuid4()] and [datetime.now()] give. *)
Record env := Env {
  scylla_up : bool;
  scylla_now : Z;
  redis_reply : option Z;
  kafka_up : bool;
  fresh_uuid4 : Uuid.uuid;
  now_iso : string
}.

Inductive exn := DecodeError | ScyllaError | RedisError | KafkaError.

(** The inbox table, the payloads published on pub/sub channels, the
    records sent to the push topic and the errors logged. *)
Record world := World {
  user_inbox : list inbox_row;
  published : list (string * string);
  pushed : list (sent PushNotificationEventProto);
  logged : list exn
}.

Definition log_error (x : exn) (w : world) : world :=
  World (user_inbox w) (published w) (pushed w) (logged w ++ [x])%list.

(** The push notification built when nobody is subscribed. *)
Definition push_event_for (e : env) (event : DeliveryJobEvent Any)
    : PushNotificationEvent Any :=
  let payload := payload event in
  {| notification_id := Uuid.uuid_str (fresh_uuid4 e);
     n_user_id := recipient_id event;
     title := "Nova mensagem de " +:+ sender_id payload;
     body := if str_truthy (content payload) then str_take 100 (content payload)
             else "Novo arquivo";
     data := Some (<["conversation_id" := py_str (j_conversation_id event)]>
                     (<["message_id" := py_str (j_message_id event)]> ∅));
     n_timestamp := now_iso e |}.

(** The body of the outer [try] of [process_delivery_job]. *)
Definition deliver (e : env) (parsed : option DeliveryJobEventProto) (w : world)
    : result exn unit * world :=
  match parsed ≫= delivery_job_from_proto with
  | None => (Err DecodeError, w)
  | Some event =>
      let payload := payload event in
      let seq_num := match sequence_number payload with Some n => n | None => -1 end in
      let content := if str_truthy (content payload) then content payload else "" in
      if scylla_up e then
        let w1 :=
          World (user_inbox w ++
                   [InboxRow (_to_uuid (recipient_id event)) (scylla_now e)
                      (_to_uuid (j_conversation_id event)) (_to_uuid (j_message_id event))
                      seq_num content (_to_uuid (sender_id payload)) "PENDING"])%list
                (published w) (pushed w) (logged w) in
        let redis_channel := "user:" +:+ recipient_id event in
        match redis_reply e with
        | None => (Err RedisError, w1)
        | Some subscribers_count =>
            let w2 :=
              World (user_inbox w1)
                    (published w1 ++ [(redis_channel, model_dump_json payload)])%list
                    (pushed w1) (logged w1) in
            if 0 <? subscribers_count then (Ok (), w2)
            else
              let push_event := push_event_for e event in
              let push_proto := push_notification_to_proto push_event in
              if kafka_up e then
                (Ok (),
                 World (user_inbox w2) (published w2)
                       (pushed w2 ++ [Sent TOPIC_PUSH (n_user_id push_event) push_proto])%list
                       (logged w2))
              else (Err KafkaError, w2)
        end
      else (Err ScyllaError, log_error ScyllaError w)
  end.

(** [process_delivery_job]: any exception of the body is logged and
    raised again. *)
Definition process_delivery_job (v : env * option DeliveryJobEventProto) (w : world)
    : result exn unit * world :=
  match deliver v.1 v.2 w with
  | (Ok _, w') => (Ok (), w')
  | (Err x, w') => (Err x, log_error x w')
  end.

(** [run]: the callback under the asynchronous consumer. *)
Definition run (msgs : list (message (env * option DeliveryJobEventProto)))
    (w : world) (committed : Z) : world * Z :=
  consume_async process_delivery_job msgs w committed.

End Delivery.
End Delivery.

(** ** The status processor: status-service/src/main.py *)

Module Status.
Section Status.
Context {Any : Type} `{PyLib Any}.
Import Events Scylla Kafka.

Record env := Env { scylla_up : bool; redis_up : bool }.

Inductive exn := DecodeError | ScyllaError | RedisError.

Record world := World {
  messages : messages_table;
  published : list (string * string);
  logged : list exn
}.

(** The notification sent to the author of the message. *)
Definition notification (proto_event : MessageStatusEventProto) : gmap string Any :=
  <["type" := py_str "STATUS_UPDATE"]>
    (<["conversation_id" := py_str (ps_conversation_id proto_event)]>
       (<["message_id" := py_str (ps_message_id proto_event)]>
          (<["status" := py_str (ps_status proto_event)]>
             (<["read_by" := py_str (ps_user_id proto_event)]>
                (<["timestamp" := py_str (ps_timestamp proto_event)]> ∅))))).

(** The [try] block of [process_event]: the status column is written
    with the status of the event, then the author is notified unless
    the author is the reader. *)
Definition update_and_notify (e : env) (proto_event : MessageStatusEventProto)
    (w : world) : result exn unit * world :=
  if scylla_up e then
    let t' := update_status (_to_uuid (ps_conversation_id proto_event))
                (ps_sequence_number proto_event) (ps_status proto_event) (messages w) in
    if negb (String.eqb (ps_sender_id proto_event) (ps_user_id proto_event)) then
      let redis_channel := "user:" +:+ ps_sender_id proto_event in
      if redis_up e then
        (Ok (),
         World t' (published w ++ [(redis_channel, json_dumps (notification proto_event))])%list
               (logged w))
      else (Err RedisError, World t' (published w) (logged w))
    else (Ok (), World t' (published w) (logged w))
  else (Err ScyllaError, w).

(** [process_event]: an exception is logged and not raised again. *)
Definition process_event (e : env) (proto_event : MessageStatusEventProto) (w : world)
    : world :=
  match update_and_notify e proto_event w with
  | (Ok _, w') => w'
  | (Err x, w') => World (messages w') (published w') (logged w' ++ [x])%list
  end.

(** [handler]: bytes that do not parse are logged too. *)
Definition handler (v : env * option MessageStatusEventProto) (w : world)
    : result exn unit * world :=
  match v.2 with
  | Some proto => (Ok (), process_event v.1 proto w)
  | None => (Ok (), World (messages w) (published w) (logged w ++ [DecodeError])%list)
  end.

Definition run (msgs : list (message (env * option MessageStatusEventProto)))
    (w : world) (committed : Z) : world * Z :=
  consume_async handler msgs w committed.

(** The order SENT < DELIVERED < READ on status texts. *)
Definition status_rank (s : string) : option Z :=
  if String.eqb s "SENT" then Some 0
  else if String.eqb s "DELIVERED" then Some 1
  else if String.eqb s "READ" then Some 2
  else None.

End Status.
End Status.

(** ** The ingest API: api-service/src/routers/messages.py *)

Module Api.
Section Api.
Context {Any : Type} `{PyLib Any}.
Import Events.

Record CreateMessageRequest := {
  idempotency_key : Uuid.uuid;
  rq_conversation_id : Uuid.uuid;
  rq_message_type : string;
  rq_content : string;
  rq_attachments : option (gmap string Any);
  rq_target_channels : option (list string)
}.

(** Truthiness of an optional list: [None] and the empty list are
    falsy. *)
Definition channels_of (requested : option (list string)) : list string :=
  match requested with
  | Some (c :: cs) => c :: cs
  | _ => ["delivery"]
  end.

(** The event [send_message] builds and publishes for the request of
    user [user_id] at time [now]. *)
Definition send_message (request : CreateMessageRequest) (user_id now : string)
    : MessageSentEventProto :=
  let channels := channels_of (rq_target_channels request) in
  message_sent_to_proto
    {| message_id := Uuid.uuid_str (idempotency_key request);
       conversation_id := Uuid.uuid_str (rq_conversation_id request);
       sender_id := user_id;
       timestamp := now;
       message_type := rq_message_type request;
       content := rq_content request;
       attachments := rq_attachments request;
       status := "SENT";
       sequence_number := None;
       target_channels := channels |}.

End Api.
End Api.

(** ** More of the metadata service and its API callers *)

Module MetadataApi.
Section MetadataApi.
Context {order : SetOrder}.
Import Metadata.

(** A row of [get_user_conversations]. *)
Record summary := Summary {
  sm_conversation_id : string;
  sm_type : string;
  sm_metadata : gmap string string;
  sm_last_sequence_number : Z
}.

(** [get_user_conversations]: the membership rows of the user joined
    with the conversations on [conversation_id]. *)
Definition get_user_conversations (user_id : string) (s : db) : list summary :=
  omap (λ r : string * string,
          if decide (r.2 = user_id) then
            (λ c, Summary r.1 (conv_type c) (conv_metadata c) (last_sequence_number c))
              <$> conversations s !! r.1
          else None)
       (conversation_members s).

(** [MetadataService.CreateConversation]: [generated_id] is the value
    of [uuid.uuid4()].  A request without members is refused; any
    exception of the repository gives [INTERNAL]. *)
Definition CreateConversation (generated_id : Uuid.uuid) (type : string)
    (member_ids : list string) (metadata : gmap string string) (s : db)
    : (status_code * string) * db :=
  match member_ids with
  | [] => ((INVALID_ARGUMENT, ""), s)
  | _ :: _ =>
      match create_conversation (Uuid.uuid_str generated_id) type member_ids metadata s with
      | (Ok final_id, s') => ((OK, final_id), s')
      | (Err _, s') => ((INTERNAL, ""), s')
      end
  end.

(** [MetadataClient.create_conversation]. *)
Definition client_create_conversation (generated_id : Uuid.uuid) (type : string)
    (members : list string) (metadata : option (gmap string string)) (s : db)
    : result status_code string * db :=
  match CreateConversation generated_id type members (default ∅ metadata) s with
  | ((OK, conversation_id), s') => (Ok conversation_id, s')
  | ((code, _), s') => (Err code, s')
  end.

(** [create_conversation] of the API (routers/conversations.py): the
    caller is added to the members; any failure is HTTP 500. *)
Definition api_create_conversation (generated_id : Uuid.uuid) (type : string)
    (request_members : list string) (metadata : option (gmap string string))
    (user_id : string) (s : db) : result nat string * db :=
  let members := set_iter (request_members ++ [user_id])%list in
  match client_create_conversation generated_id type members metadata s with
  | (Ok conversation_id, s') => (Ok conversation_id, s')
  | (Err _, s') => (Err 500%nat, s')
  end.

End MetadataApi.
End MetadataApi.

(** ** The other converters of proto_converter.py *)

Module Converter.
Section Converter.
Context {Any : Type} `{PyLib Any}.
Import Events.



End Converter.
End Converter.

(** ** The socket gateway's connection registry: socket-gateway/src/main.py *)

Module Gateway.

(** A websocket is identified by a number (the identity of the object). *)
Definition websocket := nat.

(** [ConnectionManager.active_connections]: the sessions of each
    connected user, oldest first. *)
Abbreviation connections := (gmap string (list websocket)).

(** [connect]: the session is appended to the user's list, which is
    created when the user has none. *)
Definition connect (user_id : string) (ws : websocket) (active : connections)
    : connections :=
  <[user_id := (default [] (active !! user_id) ++ [ws])%list]> active.

(** [list.remove(x)]: the first occurrence is removed. *)
Fixpoint remove_first (ws : websocket) (l : list websocket) : list websocket :=
  match l with
  | [] => []
  | x :: r => if decide (x = ws) then r else x :: remove_first ws r
  end.

(** [disconnect]: the session is removed from the user's list if it is
    there, and the user's entry is deleted when the list is left
    empty; an unknown user changes nothing. *)
Definition disconnect (user_id : string) (ws : websocket) (active : connections)
    : connections :=
  match active !! user_id with
  | None => active
  | Some l =>
      let l' := if bool_decide (ws ∈ l) then remove_first ws l else l in
      match l' with
      | [] => delete user_id active
      | _ :: _ => <[user_id := l']> active
      end
  end.

(** The ["connections"] figure of [/health]: the number of entries. *)
Definition health (active : connections) : nat := size active.

(** The calls on the registry: a session opens, a session closes. *)
Inductive call := Connect (user_id : string) (ws : websocket)
                | Disconnect (user_id : string) (ws : websocket).

Definition exec (c : call) (active : connections) : connections :=
  match c with
  | Connect u ws => connect u ws active
  | Disconnect u ws => disconnect u ws active
  end.

Definition run (cs : list call) (active : connections) : connections :=
  foldl (λ a c, exec c a) active cs.

End Gateway.

(* ================================================================== *)
(** * Verified properties *)
(* ================================================================== *)

(** ** Name-based UUIDs against Python's values *)

Module UuidFacts.
Import Uuid.

Example sha1_abc :
  hex 40 (be_int (sha1 (utf8 "abc"))) = "a9993e364706816aba3e25717850c26c9cd0d89d".
Proof. vm_compute. reflexivity. Qed.

Example sha1_empty :
  hex 40 (be_int (sha1 [])) = "da39a3ee5e6b4b0d3255bfef95601890afd80709".
Proof. vm_compute. reflexivity. Qed.

Example sha1_two_blocks :
  hex 40 (be_int (sha1 (utf8 "abcdbcdecdefdefgefghfghighijhijkijkljklmklmnlmnomnopnopq")))
    = "84983e441c3bd26ebaae4aa1f95129e5e54670f1".
Proof. vm_compute. reflexivity. Qed.

(** A name with a character above 127 (U+00E9), two bytes in UTF-8. *)
Example uuid5_latin1 :
  uuid_str (uuid5 NAMESPACE_DNS ("caf" +:+ String (ascii_of_nat 233) ""))
    = "5e2e2331-a683-5e18-b56d-666e31574b41".
Proof. vm_compute. reflexivity. Qed.

Example uuid5_python_org :
  uuid_str (uuid5 NAMESPACE_DNS "python.org") = "886313e1-3b8a-5372-9b90-0c9aee199e5d".
Proof. vm_compute. reflexivity. Qed.

End UuidFacts.

(** ** The protobuf converter *)

Module ConverterFacts.
Import Events.
Section Converter.
Context {Any : Type} `{PyLib Any}.




End Converter.



End ConverterFacts.

(** ** The ingestion worker *)

Module IngestionFacts.
Import Events Scylla Kafka Ingestion.

(** Whatever happens in the body, the iteration ends normally. *)
Lemma loop_body_never_raises {Any} `{PyLib Any} (topic : string)
    (v : env * option (@MessageSentEventProto)) (w : world) :
  (loop_body topic v w).1 = Ok ().
Proof. unfold loop_body. by destruct (process topic v.1 v.2 w) as [[[]|x] w']. Qed.

(** So the generator is resumed after every record and commits it:
    after a run the committed position is past the last record
    consumed, failed or not. *)
Lemma run_commits_every_record {Any} `{PyLib Any} (topic : string)
    (msgs : list (message (env * option (@MessageSentEventProto))))
    (w : world) (committed : Z) :
  (run topic msgs w committed).2 = default committed (commit <$> last msgs).
Proof.
  revert w committed. induction msgs as [|m rest IH]; intros w committed; [done|].
  unfold run in *. cbn [consume].
  pose proof (loop_body_never_raises topic (value m) w) as Hok.
  destruct (loop_body topic (value m) w) as [[[]|x] w']; [|done].
  rewrite IH. rewrite last_cons. by destruct (last rest).
Qed.

(** A submitted message for a conversation that does not exist, at
    offset 7 of its partition; every service is up. *)
Definition orphan : MessageSentEventProto :=
  {| p_message_id := "m9"; p_conversation_id := "c-missing"; p_sender_id := "alice";
     p_timestamp := "2025-01-01T00:00:00Z"; p_message_type := "text";
     p_content := "hi"; p_attachments_json := ""; p_status := "SENT";
     p_sequence_number := 0; p_target_channels := ["delivery"] |}.

Definition world0 : world := World Metadata.empty_db ∅ [] [] [].

(** The same message for a conversation that exists. *)
Definition greeting : MessageSentEventProto :=
  {| p_message_id := "m1"; p_conversation_id := "c1"; p_sender_id := "alice";
     p_timestamp := "2025-01-01T00:00:00Z"; p_message_type := "text";
     p_content := "hi"; p_attachments_json := ""; p_status := "SENT";
     p_sequence_number := 0; p_target_channels := ["delivery"] |}.

Definition world1 : world :=
  World (Metadata.exec (Metadata.CreateConversation "c1" "private" ["alice"; "bob"] ∅)
           Metadata.empty_db) ∅ [] [] [].

(** Scenario S3, a message submitted twice: one row at sequence 1, the
    counter of the conversation at 1, one record forwarded (the second
    copy is dropped by the cache), both offsets committed. *)
Example resubmit_same_message :
  let r := run "persisted" [Message 0 (Env true true true, Some greeting);
                            Message 1 (Env true true true, Some greeting)] world1 0 in
  (Metadata.last_sequence_number <$> Metadata.conversations (meta r.1) !! "c1",
   fst <$> map_to_list (messages r.1),
   p_sequence_number ∘ s_value <$> produced r.1,
   r.2)
  = (Some 1, [(_to_uuid "c1", 1)], [1], 2).
Proof. vm_compute. reflexivity. Qed.

(** C3 (the code at the failing input): sequence assignment raises
    (the conversation is missing, [NOT_FOUND]), the worker logs the
    error, nothing is persisted or published, and the offset is
    committed all the same: the position moves from 7 to 8.  The same
    happens when the message-log append raises and when the publish to
    the persisted topic raises. *)
Theorem ingestion_failure_is_committed :
  process "persisted" (Env true true true) (Some orphan) world0
    = (Err (RpcError Metadata.NOT_FOUND), world0) ∧
  run "persisted" [Message 7 (Env true true true, Some orphan)] world0 7
    = (World Metadata.empty_db ∅ [] [] [RpcError Metadata.NOT_FOUND], 8) ∧
  (process "persisted" (Env true false true) (Some greeting) world1).1 = Err ScyllaError ∧
  (run "persisted" [Message 7 (Env true false true, Some greeting)] world1 7).2 = 8 ∧
  (process "persisted" (Env true true false) (Some greeting) world1).1 = Err KafkaError ∧
  (run "persisted" [Message 7 (Env true true false, Some greeting)] world1 7).2 = 8.
Proof. vm_compute. done. Qed.

End IngestionFacts.

(** ** The sequencer and the identities *)

Module MetadataFacts.
Import Metadata.

(** A small history used to exercise the sequencer: one group
    conversation with two messages sequenced. *)
Definition history1 : list call :=
  [ CreateConversation "c1" "group" ["alice"; "bob"] ∅;
    NextSequence "c1" "m1";
    NextSequence "c1" "m2" ].

Definition db1 : db := run history1 empty_db.

Example db1_first_again : (get_or_create_sequence "c1" "m1" db1).1 = Ok 1.
Proof. vm_compute. reflexivity. Qed.

Example db1_fresh : (get_or_create_sequence "c1" "m3" db1).1 = Ok 3.
Proof. vm_compute. reflexivity. Qed.

(** A logged message is answered from the log, whatever conversation
    is named in the call. *)
Lemma sequence_hit (C M : string) (s : db) (p : string * Z) :
  message_sequences_log s !! M = Some p →
  get_or_create_sequence C M s = (Ok p.2, s).
Proof. intros H. unfold get_or_create_sequence. by rewrite H. Qed.

Lemma sequence_miss_missing (C M : string) (s : db) :
  message_sequences_log s !! M = None →
  conversations s !! C = None →
  get_or_create_sequence C M s = (Err ConversationNotFoundError, s).
Proof. intros H1 H2. unfold get_or_create_sequence. by rewrite H1, H2. Qed.

Lemma sequence_miss_found (C M : string) (s : db) (c : conversation) :
  message_sequences_log s !! M = None →
  conversations s !! C = Some c →
  get_or_create_sequence C M s =
    (Ok (last_sequence_number c + 1),
     set_log <[M := (C, last_sequence_number c + 1)]>
       (set_conversations
          <[C := Conversation (conv_type c) (last_sequence_number c + 1)
                   (conv_metadata c)]> s)).
Proof. intros H1 H2. unfold get_or_create_sequence. by rewrite H1, H2. Qed.

(** After a successful call the message is in the log with the
    returned number. *)
Lemma sequence_ok_logged (C M : string) (s s' : db) (n : Z) :
  get_or_create_sequence C M s = (Ok n, s') →
  ∃ C', message_sequences_log s' !! M = Some (C', n).
Proof.
  unfold get_or_create_sequence.
  destruct (message_sequences_log s !! M) as [[C' k]|] eqn:Hlog.
  - intros [= <- <-]. by exists C'.
  - destruct (conversations s !! C) as [c|]; [|done].
    intros [= <- <-]. exists C. cbn. by rewrite lookup_insert_eq.
Qed.

(** C1 (as stated, refuted): the conversation ["c2"] does not exist in
    [db1], yet asking a number for the logged message ["m1"] under it
    returns the stored sequence 1 with status [OK], not [NOT_FOUND]. *)
Lemma next_sequence_missing_conversation_not_always_notfound :
  conversations db1 !! "c2" = None ∧
  get_or_create_sequence "c2" "m1" db1 = (Ok 1, db1) ∧
  GetNextSequenceNumber "c2" "m1" db1 = ((OK, 1), db1).
Proof. vm_compute. done. Qed.

(** C1 (amended): [get_or_create_sequence C M] is idempotent.  If the
    log holds [M] the stored number is returned and the database is
    unchanged, whether or not [C] exists.  If the log does not hold [M]
    and [C] exists, the counter of [C] is incremented by one, the row
    [(M, C, new)] is added to the log, nothing else changes and the new
    number is returned.  If the log does not hold [M] and [C] does not
    exist, the call fails with [ConversationNotFoundError] (gRPC
    [NOT_FOUND]) and the database is unchanged.  A second call with the
    same arguments returns the number of the first and changes
    nothing. *)
Theorem next_sequence_idempotent (C M : string) (s : db) :
  (∀ p, message_sequences_log s !! M = Some p →
        get_or_create_sequence C M s = (Ok p.2, s)) ∧
  (∀ c, message_sequences_log s !! M = None →
        conversations s !! C = Some c →
        ∃ s', get_or_create_sequence C M s = (Ok (last_sequence_number c + 1), s') ∧
              (last_sequence_number <$> conversations s' !! C)
                = Some (last_sequence_number c + 1) ∧
              message_sequences_log s'
                = <[M := (C, last_sequence_number c + 1)]> (message_sequences_log s) ∧
              (∀ C', C' ≠ C → conversations s' !! C' = conversations s !! C') ∧
              conversation_members s' = conversation_members s ∧
              user_identities s' = user_identities s) ∧
  (message_sequences_log s !! M = None →
   conversations s !! C = None →
   get_or_create_sequence C M s = (Err ConversationNotFoundError, s) ∧
   GetNextSequenceNumber C M s = ((NOT_FOUND, 0), s)) ∧
  (∀ n s', get_or_create_sequence C M s = (Ok n, s') →
           get_or_create_sequence C M s' = (Ok n, s')).
Proof.
  repeat split.
  - intros p Hp. by apply sequence_hit.
  - intros c Hlog Hc. eexists. split; [by apply sequence_miss_found|].
    cbn. rewrite lookup_insert_eq. repeat split; try done.
    intros C' HC'. by rewrite lookup_insert_ne.
  - by apply sequence_miss_missing.
  - unfold GetNextSequenceNumber. by rewrite sequence_miss_missing.
  - intros n s' Hcall. destruct (sequence_ok_logged _ _ _ _ _ Hcall) as [C' HC'].
    by rewrite (sequence_hit C M s' _ HC').
Qed.

Lemma next_sequence_idempotent_witness :
  get_or_create_sequence "c1" "m1" db1 = (Ok 1, db1) ∧
  (get_or_create_sequence "c1" "m3" db1).1 = Ok 3 ∧
  get_or_create_sequence "c9" "m3" db1 = (Err ConversationNotFoundError, db1) ∧
  get_or_create_sequence "c1" "m3" (get_or_create_sequence "c1" "m3" db1).2
    = (Ok 3, (get_or_create_sequence "c1" "m3" db1).2).
Proof.
  destruct (next_sequence_idempotent "c1" "m1" db1) as (Hhit & _).
  destruct (next_sequence_idempotent "c1" "m3" db1) as (_ & Hnew & _ & Htwice).
  destruct (next_sequence_idempotent "c9" "m3" db1) as (_ & _ & Hmiss & _).
  split; [exact (Hhit ("c1", 1) eq_refl)|].
  split.
  { destruct (Hnew (Conversation "group" 2 ∅) eq_refl eq_refl) as (s' & -> & _).
    reflexivity. }
  split; [exact (proj1 (Hmiss eq_refl eq_refl))|].
  apply Htwice. vm_compute. reflexivity.
Defined.

(** *** Dense per-conversation numbering *)

(** The invariant of the sequence log: every logged number belongs to
    an existing conversation and lies between 1 and its counter; every
    number in that range is logged; within a conversation a number is
    held by one message only; counters are not negative. *)
Record log_inv (s : db) : Prop := LogInv {
  inv_nonneg : ∀ (C : string) c, conversations s !! C = Some c →
      0 ≤ last_sequence_number c;
  inv_range : ∀ (M C : string) (n : Z), message_sequences_log s !! M = Some (C, n) →
      ∃ c, conversations s !! C = Some c ∧ 1 ≤ n ≤ last_sequence_number c;
  inv_dense : ∀ (C : string) c (n : Z), conversations s !! C = Some c →
      1 ≤ n ≤ last_sequence_number c →
      ∃ M, message_sequences_log s !! M = Some (C, n);
  inv_inj : ∀ (M1 M2 C : string) (n : Z), message_sequences_log s !! M1 = Some (C, n) →
      message_sequences_log s !! M2 = Some (C, n) → M1 = M2
}.

Lemma log_inv_empty : log_inv empty_db.
Proof. split; cbn; intros *; rewrite ?lookup_empty; done. Qed.

Lemma log_inv_same_tables (s s' : db) :
  conversations s' = conversations s →
  message_sequences_log s' = message_sequences_log s →
  log_inv s → log_inv s'.
Proof.
  intros Hc Hl [H0 H1 H2 H3]. split; rewrite ?Hc, ?Hl; eauto.
Qed.

Lemma log_inv_insert_conversation cid ty ms md (s : db) :
  log_inv s → log_inv (insert_conversation cid ty ms md s).2.
Proof.
  intros Hinv. unfold insert_conversation.
  destruct (conversations s !! cid) as [c0|] eqn:Hcid; [done|].
  destruct Hinv as [H0 H1 H2 H3]. split; cbn.
  - intros C c. destruct (decide (cid = C)) as [<-|Hne].
    + rewrite lookup_insert_eq. by intros [= <-].
    + rewrite lookup_insert_ne by done. eauto.
  - intros M C n HM. destruct (H1 _ _ _ HM) as (c & Hc & Hn).
    exists c. split; [|done].
    rewrite lookup_insert_ne; [done|]. intros <-. congruence.
  - intros C c n. destruct (decide (cid = C)) as [<-|Hne].
    + rewrite lookup_insert_eq. intros [= <-]. cbn. lia.
    + rewrite lookup_insert_ne by done. eauto.
  - eauto.
Qed.

Lemma log_inv_create_conversation cid ty ms md (s : db) :
  log_inv s → log_inv (create_conversation cid ty ms md s).2.
Proof.
  intros Hinv. unfold create_conversation.
  repeat case_match; try done; by apply log_inv_insert_conversation.
Qed.

Lemma log_inv_get_or_create_sequence C M (s : db) :
  log_inv s → log_inv (get_or_create_sequence C M s).2.
Proof.
  intros Hinv. unfold get_or_create_sequence.
  destruct (message_sequences_log s !! M) as [p|] eqn:Hlog; [done|].
  destruct (conversations s !! C) as [c|] eqn:Hc; [|done].
  destruct Hinv as [H0 H1 H2 H3]. pose proof (H0 _ _ Hc) as Hpos. split; cbn.
  - intros C' c'. destruct (decide (C = C')) as [<-|HneC].
    + rewrite lookup_insert_eq. intros [= <-]. cbn. lia.
    + rewrite lookup_insert_ne by done. eauto.
  - intros M' C' n. destruct (decide (M = M')) as [<-|HneM].
    + rewrite lookup_insert_eq. intros [= <- <-].
      rewrite lookup_insert_eq. eexists. split; [done|]. cbn. lia.
    + rewrite lookup_insert_ne by done. intros HM'.
      destruct (H1 _ _ _ HM') as (c' & Hc' & Hn).
      destruct (decide (C = C')) as [<-|HneC].
      * rewrite lookup_insert_eq. eexists. split; [done|]. cbn.
        assert (c' = c) as -> by congruence. lia.
      * rewrite lookup_insert_ne by done. eauto.
  - intros C' c' n. destruct (decide (C = C')) as [<-|HneC].
    + rewrite lookup_insert_eq. intros [= <-]. cbn. intros Hn.
      destruct (decide (n = last_sequence_number c + 1)) as [->|Hlast].
      * exists M. by rewrite lookup_insert_eq.
      * destruct (H2 C c n Hc) as [M0 HM0]; [lia|].
        exists M0. rewrite lookup_insert_ne; [done|]. intros <-. congruence.
    + rewrite lookup_insert_ne by done. intros Hc' Hn.
      destruct (H2 C' c' n Hc' Hn) as [M0 HM0].
      exists M0. rewrite lookup_insert_ne; [done|]. intros <-. congruence.
  - intros M1 M2 C' n.
    destruct (decide (M = M1)) as [<-|Hne1]; destruct (decide (M = M2)) as [<-|Hne2];
      rewrite ?lookup_insert_eq, ?lookup_insert_ne by done; try done.
    + intros [= <- <-] HM2. destruct (H1 _ _ _ HM2) as (c' & Hc' & Hn).
      assert (c' = c) as -> by congruence. lia.
    + intros HM1 [= <- <-]. destruct (H1 _ _ _ HM1) as (c' & Hc' & Hn).
      assert (c' = c) as -> by congruence. lia.
    + eauto.
Qed.

Lemma identity_calls_keep_tables (s : db) :
  (∀ parsed, conversations (process_user_created parsed s) = conversations s ∧
     message_sequences_log (process_user_created parsed s) = message_sequences_log s) ∧
  (∀ u ch x, conversations (link_identity u ch x s).2 = conversations s ∧
     message_sequences_log (link_identity u ch x s).2 = message_sequences_log s).
Proof.
  split.
  - intros [ev|]; [|done]. unfold process_user_created, insert_identity_do_nothing.
    repeat case_match; done.
  - intros u ch x. unfold link_identity. by case_bool_decide.
Qed.

Lemma log_inv_exec (c : call) (s : db) : log_inv s → log_inv (exec c s).
Proof.
  destruct c as [cid ty ms md|C M|parsed|u ch x]; cbn.
  - apply log_inv_create_conversation.
  - apply log_inv_get_or_create_sequence.
  - apply log_inv_same_tables; apply identity_calls_keep_tables.
  - apply log_inv_same_tables; apply identity_calls_keep_tables.
Qed.

Lemma log_inv_run (cs : list call) (s : db) : log_inv s → log_inv (run cs s).
Proof.
  revert s. induction cs as [|c cs IH]; intros s Hs; [done|].
  cbn. apply IH. by apply log_inv_exec.
Qed.

(** C2: in every database reached from the empty one by a history of
    calls (conversations are created with counter 0), the numbers the
    log records for a conversation are exactly 1, 2, ..., its
    [last_sequence_number], and two messages of the conversation with
    the same number are the same message. *)
Theorem sequence_log_contiguous (cs : list call) (C : string) (c : conversation) :
  conversations (run cs empty_db) !! C = Some c →
  (∀ n, (∃ M, message_sequences_log (run cs empty_db) !! M = Some (C, n))
        ↔ 1 ≤ n ≤ last_sequence_number c) ∧
  (∀ M1 M2 n, message_sequences_log (run cs empty_db) !! M1 = Some (C, n) →
              message_sequences_log (run cs empty_db) !! M2 = Some (C, n) →
              M1 = M2).
Proof.
  intros Hc. destruct (log_inv_run cs empty_db log_inv_empty) as [_ H1 H2 H3].
  split.
  - intros n. split.
    + intros [M HM]. destruct (H1 _ _ _ HM) as (c' & Hc' & Hn).
      assert (c' = c) as -> by congruence. done.
    + intros Hn. eauto.
  - intros M1 M2 n. apply H3.
Qed.

Lemma sequence_log_contiguous_witness :
  (∃ M, message_sequences_log db1 !! M = Some ("c1", 2)) ∧
  ¬ (∃ M, message_sequences_log db1 !! M = Some ("c1", 3)).
Proof.
  destruct (sequence_log_contiguous history1 "c1" (Conversation "group" 2 ∅) eq_refl)
    as [Hset _].
  split.
  - apply Hset. cbn. lia.
  - intros H. apply Hset in H. cbn in H. lia.
Defined.

(** *** Membership rows *)

(** The membership rows are pairwise distinct and name existing
    conversations. *)
Record members_inv (s : db) : Prop := MembersInv {
  members_NoDup : NoDup (conversation_members s);
  members_conv : ∀ cid uid : string, (cid, uid) ∈ conversation_members s →
      is_Some (conversations s !! cid)
}.

Lemma members_inv_insert_conversation cid ty ms md (s : db) :
  members_inv s → members_inv (insert_conversation cid ty ms md s).2.
Proof.
  intros [Hnd Hconv]. unfold insert_conversation.
  destruct (conversations s !! cid) as [c0|] eqn:Hcid; [done|].
  split; cbn.
  - apply NoDup_app. split_and!; [done| |].
    + intros [c u] Hold (u' & [= -> ->] & _)%list_elem_of_fmap.
      apply Hconv in Hold as [c Hc]. congruence.
    + apply NoDup_fmap_2; [by intros u u' [= ->]|]. apply NoDup_remove_dups.
  - intros c u [Hold|(u' & [= -> ->] & _)%list_elem_of_fmap]%elem_of_app.
    + apply lookup_insert_is_Some'. right. by eapply Hconv.
    + apply lookup_insert_is_Some'. by left.
Qed.

Lemma members_inv_exec (c : call) (s : db) : members_inv s → members_inv (exec c s).
Proof.
  intros Hinv. destruct c as [cid ty ms md|C M|parsed|u ch x]; cbn.
  - unfold create_conversation.
    repeat case_match; try done; by apply members_inv_insert_conversation.
  - unfold get_or_create_sequence. repeat case_match; try done.
    destruct Hinv as [Hnd Hconv]. split; cbn; [done|].
    intros cid uid Hin. apply lookup_insert_is_Some'. right. by eapply Hconv.
  - destruct Hinv as [Hnd Hconv].
    destruct parsed as [ev|]; [|done].
    unfold process_user_created, insert_identity_do_nothing.
    repeat case_match; split; cbn; done.
  - unfold link_identity. case_bool_decide; [|done].
    destruct Hinv as [Hnd Hconv]. by split.
Qed.

(** In a database reached from the empty one, nobody is listed twice
    among the members of a conversation. *)
Lemma get_members_NoDup (cs : list call) (cid : string) :
  NoDup (get_members cid (run cs empty_db)).
Proof.
  assert (members_inv (run cs empty_db)) as [Hnd _].
  { assert (∀ s, members_inv s → members_inv (run cs s)) as Hrun.
    { induction cs as [|c cs IH]; intros s Hs; [done|].
      cbn. apply IH. by apply members_inv_exec. }
    apply Hrun. split; cbn; [constructor|]. by intros ? ? ?%elem_of_nil. }
  unfold get_members. apply NoDup_fmap_2_strong; [|by apply NoDup_filter].
  intros [c1 u1] [c2 u2] [Hc1 _]%list_elem_of_filter [Hc2 _]%list_elem_of_filter Heq.
  cbn in *. congruence.
Qed.

(** *** The implicit ['delivery'] identity *)

(** A ['delivery'] binding, where there is one, names the user itself. *)
Definition delivery_is_self (s : db) : Prop :=
  ∀ (u x : string), get_user_identities u s !! "delivery" = Some x → x = u.

Definition has_delivery (u : string) (s : db) : Prop :=
  get_user_identities u s !! "delivery" = Some u.

Lemma get_add_identity (u v ch x : string) (s : db) :
  get_user_identities v (add_identity u ch x s) =
    if decide (u = v) then <[ch := x]> (get_user_identities u s)
    else get_user_identities v s.
Proof.
  unfold add_identity, get_user_identities at 1. cbn.
  case_decide as Huv.
  - subst. by rewrite lookup_insert_eq.
  - by rewrite lookup_insert_ne.
Qed.

Lemma lookup_add_identity (u v ch ch' x : string) (s : db) :
  get_user_identities v (add_identity u ch x s) !! ch' =
    if decide (u = v ∧ ch = ch') then Some x else get_user_identities v s !! ch'.
Proof.
  rewrite get_add_identity. case_decide as Huv.
  - subst v. case_decide as Hand.
    + destruct Hand as [_ <-]. by rewrite lookup_insert_eq.
    + rewrite lookup_insert_ne; [done|]. intros <-. by apply Hand.
  - case_decide as Hand; [by destruct Hand|done].
Qed.

Lemma lookup_insert_identity_do_nothing (u v ch ch' x : string) (s : db) :
  get_user_identities v (insert_identity_do_nothing u ch x s) !! ch' =
    if decide (u = v ∧ ch = ch') then
      Some (default x (get_user_identities u s !! ch))
    else get_user_identities v s !! ch'.
Proof.
  unfold insert_identity_do_nothing.
  destruct (get_user_identities u s !! ch) as [y|] eqn:Hy; cbn.
  - case_decide as Hand; [|done]. by destruct Hand as [<- <-].
  - by rewrite lookup_add_identity.
Qed.

Lemma get_upsert_directory ev (v : string) (s : db) :
  get_user_identities v (upsert_directory ev s) = get_user_identities v s.
Proof. done. Qed.

(** What [process_user_created] leaves under channel ['delivery']. *)
Lemma delivery_after_user_created ev (v : string) (s : db) :
  get_user_identities v (process_user_created (Some ev) s) !! "delivery" =
    if decide (uc_user_id ev = v) then
      Some (default v (get_user_identities v s !! "delivery"))
    else get_user_identities v s !! "delivery".
Proof.
  unfold process_user_created.
  repeat case_match;
    rewrite ?lookup_insert_identity_do_nothing;
    repeat (case_decide; try done; try (exfalso; intuition congruence)).
  all: subst; by rewrite get_upsert_directory.
Qed.

Lemma delivery_after_link_identity (u v ch x : string) (s : db) :
  get_user_identities v (link_identity u ch x s).2 !! "delivery" =
    get_user_identities v s !! "delivery".
Proof.
  unfold link_identity. destruct (bool_decide _) eqn:Hch; [|done]. cbn.
  rewrite lookup_add_identity.
  destruct (decide (u = v ∧ ch = "delivery")) as [[_ ->]|]; [|done].
  vm_compute in Hch. discriminate.
Qed.

Lemma delivery_after_exec (c : call) (v : string) (s : db) :
  get_user_identities v (exec c s) !! "delivery" =
    match c with
    | UserCreated (Some ev) =>
        if decide (uc_user_id ev = v) then
          Some (default v (get_user_identities v s !! "delivery"))
        else get_user_identities v s !! "delivery"
    | _ => get_user_identities v s !! "delivery"
    end.
Proof.
  destruct c as [cid ty ms md|C M|[ev|]|u ch x]; cbn [exec].
  - unfold create_conversation, insert_conversation. by repeat case_match.
  - unfold get_or_create_sequence. by repeat case_match.
  - apply delivery_after_user_created.
  - done.
  - apply delivery_after_link_identity.
Qed.

Lemma delivery_is_self_exec (c : call) (s : db) :
  delivery_is_self s → delivery_is_self (exec c s).
Proof.
  intros Hs v x. rewrite delivery_after_exec.
  destruct c as [| |[ev|]|]; try apply Hs.
  case_decide; [|apply Hs].
  destruct (get_user_identities v s !! "delivery") as [y|] eqn:Hy; cbn.
  - intros [= <-]. by apply Hs.
  - by intros [= <-].
Qed.

Lemma has_delivery_exec (c : call) (u : string) (s : db) :
  has_delivery u s → has_delivery u (exec c s).
Proof.
  unfold has_delivery. intros Hu. rewrite delivery_after_exec.
  destruct c as [| |[ev|]|]; try done.
  case_decide; [|done]. by rewrite Hu.
Qed.

Lemma delivery_is_self_run (cs : list call) (s : db) :
  delivery_is_self s → delivery_is_self (run cs s).
Proof.
  revert s. induction cs as [|c cs IH]; intros s Hs; [done|].
  cbn. apply IH. by apply delivery_is_self_exec.
Qed.

Lemma has_delivery_run (cs : list call) (u : string) (s : db) :
  has_delivery u s → has_delivery u (run cs s).
Proof.
  revert s. induction cs as [|c cs IH]; intros s Hs; [done|].
  cbn. apply IH. by apply has_delivery_exec.
Qed.

(** C9 (as stated, refuted): a user id for which no user-created event
    was processed has no identity rows, so the returned mapping is
    empty and holds no ['delivery'] entry. *)
Lemma get_identities_unknown_user_empty :
  get_user_identities "u1" db1 = ∅ ∧
  get_user_identities "u1" db1 !! "delivery" ≠ Some "u1".
Proof. vm_compute. done. Qed.

(** C9 (amended): once the user-created event of a user has been
    processed, in a database reached from the empty one by conversation
    creation, sequencing, user-created events and identities linked
    through the API, [get_user_identities] of that user contains
    ['delivery'] bound to the user's own id. *)
Theorem created_user_has_delivery (cs : list call) (ev : UserCreatedEvent) :
  UserCreated (Some ev) ∈ cs →
  get_user_identities (uc_user_id ev) (run cs empty_db) !! "delivery"
    = Some (uc_user_id ev).
Proof.
  assert (∀ s, delivery_is_self s →
     UserCreated (Some ev) ∈ cs → has_delivery (uc_user_id ev) (run cs s)) as Hgen.
  { induction cs as [|c cs IH]; intros s Hs Hin.
    - by apply elem_of_nil in Hin.
    - cbn. apply elem_of_cons in Hin as [<-|Hin].
      + apply has_delivery_run. unfold has_delivery.
        rewrite delivery_after_exec, decide_True by done.
        destruct (get_user_identities (uc_user_id ev) s !! "delivery") as [y|] eqn:Hy;
          [|done].
        cbn. by rewrite (Hs _ _ Hy).
      + apply IH; [|done]. by apply delivery_is_self_exec. }
  apply Hgen. intros u x. unfold get_user_identities. cbn.
  by rewrite lookup_empty.
Qed.

Definition bob_created : UserCreatedEvent :=
  {| uc_event_id := "e1"; uc_user_id := "bob"; uc_username := "whatsapp:5511999";
     uc_email := "bob@example.org"; uc_name := "Bob"; uc_timestamp := "t0" |}.

Lemma created_user_has_delivery_witness :
  get_user_identities "bob"
    (run [UserCreated (Some bob_created); LinkIdentity "bob" "instagram" "@bob"]
       empty_db) !! "delivery" = Some "bob".
Proof.
  apply (created_user_has_delivery
           [UserCreated (Some bob_created); LinkIdentity "bob" "instagram" "@bob"]
           bob_created).
  apply list_elem_of_here.
Defined.

Example bob_whatsapp :
  get_user_identities "bob" (exec (UserCreated (Some bob_created)) empty_db)
    !! "whatsapp" = Some "5511999".
Proof. vm_compute. reflexivity. Qed.

End MetadataFacts.

(** ** The fan-out dispatcher *)

Module FanoutFacts.
Import Events Kafka Fanout.

Section Routing.
Context {Any : Type} `{PyLib Any}.

Lemma set_iter_singleton {order : SetOrder} (a : string) : set_iter [a] = [a].
Proof.
  pose proof (set_iter_NoDup [a]) as Hnd. pose proof (set_iter_elem [a]) as Hel.
  destruct (set_iter [a]) as [|x l].
  - exfalso. apply (elem_of_nil a), Hel, list_elem_of_here.
  - assert (x = a) as -> by (apply list_elem_of_singleton, Hel; left).
    destruct l as [|y l]; [done|].
    assert (y = a) as -> by (apply list_elem_of_singleton, Hel; right; left).
    apply NoDup_cons in Hnd as [Hnotin _]. exfalso. apply Hnotin. left.
Qed.

Lemma set_iter_Permutation (o1 o2 : SetOrder) (l : list string) :
  @set_iter o1 l ≡ₚ @set_iter o2 l.
Proof.
  apply NoDup_Permutation; [apply set_iter_NoDup..|].
  intros x. by rewrite !set_iter_elem.
Qed.

Lemma resolve_Permutation (o1 o2 : SetOrder) (requested : list string)
    (identities : gmap string string) :
  resolve_target_channels (order := o1) requested identities
  ≡ₚ resolve_target_channels (order := o2) requested identities.
Proof.
  unfold resolve_target_channels.
  case_bool_decide; apply omap_Permutation, set_iter_Permutation.
Qed.

Lemma member_jobs_Permutation (o1 o2 : SetOrder) cfg db
    (ev : @MessageSentEventProto) (m : string) :
  member_jobs (order := o1) cfg db ev m ≡ₚ member_jobs (order := o2) cfg db ev m.
Proof.
  unfold member_jobs. repeat case_match; try done.
  apply omap_Permutation, resolve_Permutation.
Qed.

Lemma event_jobs_Permutation (o1 o2 : SetOrder) cfg db (ev : @MessageSentEventProto) :
  event_jobs (order := o1) cfg db ev ≡ₚ event_jobs (order := o2) cfg db ev.
Proof.
  unfold event_jobs.
  induction (Metadata.get_members (p_conversation_id ev) db) as [|m ms IH]; [done|].
  cbn. by rewrite IH, (member_jobs_Permutation o1 o2).
Qed.

(** Every record of [member_jobs] is addressed to the member, carries
    the event and is identified by the name-based UUID of
    message, member and channel. *)
Definition well_formed (ev : @MessageSentEventProto)
    (r : sent (@DeliveryJobEventProto)) : Prop :=
  s_value r = make_job ev (pj_recipient_id (s_value r)) (pj_channel (s_value r)) ∧
  s_key r = pj_recipient_id (s_value r).

Lemma member_jobs_well_formed {order : SetOrder} cfg db
    (ev : @MessageSentEventProto) (m : string) r :
  r ∈ member_jobs cfg db ev m →
  well_formed ev r ∧ pj_recipient_id (s_value r) = m.
Proof.
  unfold member_jobs. repeat case_match; try (by intros ?%elem_of_nil).
  intros ([c x] & _ & Hr)%list_elem_of_omap. cbn in Hr.
  repeat case_match; try done. by injection Hr as <-.
Qed.

Lemma event_jobs_well_formed {order : SetOrder} cfg db
    (ev : @MessageSentEventProto) r :
  r ∈ event_jobs cfg db ev → well_formed ev r.
Proof.
  unfold event_jobs. intros (l & Hr & (m & -> & _)%list_elem_of_fmap)%list_elem_of_join.
  by apply member_jobs_well_formed in Hr as [? _].
Qed.

Lemma set_iter_nil {order : SetOrder} : set_iter [] = [].
Proof.
  destruct (set_iter []) as [|x l] eqn:Hl; [done|].
  exfalso. apply (elem_of_nil x), set_iter_elem. rewrite Hl. left.
Qed.

Lemma member_jobs_no_channels {order : SetOrder} cfg db
    (ev : @MessageSentEventProto) (m : string) :
  p_target_channels ev = [] → member_jobs cfg db ev m = [].
Proof.
  intros Hnone. unfold member_jobs, resolve_target_channels. rewrite Hnone.
  rewrite bool_decide_eq_false_2 by apply not_elem_of_nil.
  rewrite set_iter_nil. by repeat case_match.
Qed.

Lemma member_jobs_delivery {order : SetOrder} cfg db
    (ev : @MessageSentEventProto) (m : string) :
  p_target_channels ev = ["delivery"] →
  str_truthy (TOPIC_PRODUCE_DELIVERY cfg) = true →
  m ≠ p_sender_id ev →
  is_Some (Metadata.get_user_identities m db !! "delivery") →
  member_jobs cfg db ev m
    = [Sent (TOPIC_PRODUCE_DELIVERY cfg) m (make_job ev m "delivery")].
Proof.
  intros Hch Htopic Hsender [x Hx]. unfold member_jobs, resolve_target_channels.
  rewrite (proj2 (String.eqb_neq _ _) Hsender), Hch.
  assert (dict_truthy (Metadata.get_user_identities m db) = true) as ->.
  { apply bool_decide_eq_true_2. intros Hempty. by rewrite Hempty, lookup_empty in Hx. }
  cbn [negb]. rewrite bool_decide_eq_false_2.
  2:{ intros Hall%list_elem_of_singleton. discriminate. }
  rewrite set_iter_singleton. cbn. rewrite Hx. cbn.
  unfold CHANNEL_TOPIC_MAP. rewrite lookup_insert_eq. by rewrite Htopic.
Qed.

Lemma filter_member_jobs_other {order : SetOrder} cfg db
    (ev : @MessageSentEventProto) (m m' : string) :
  m' ≠ m →
  filter (λ r, pj_recipient_id (s_value r) = m) (member_jobs cfg db ev m') = [].
Proof.
  intros Hne. apply elem_of_nil_inv.
  intros r [Hm [_ Hr]%member_jobs_well_formed]%list_elem_of_filter. congruence.
Qed.

Lemma filter_event_jobs_absent {order : SetOrder} cfg db
    (ev : @MessageSentEventProto) (m : string) (members : list string) :
  m ∉ members →
  filter (λ r, pj_recipient_id (s_value r) = m)
    (mjoin (member_jobs cfg db ev <$> members)) = [].
Proof.
  induction members as [|m' ms IH]; [done|].
  intros [Hne Hnotin]%not_elem_of_cons. cbn.
  rewrite filter_app, filter_member_jobs_other by done. by apply IH.
Qed.

Lemma filter_event_jobs_once {order : SetOrder} cfg db
    (ev : @MessageSentEventProto) (m : string) (members : list string) :
  p_target_channels ev = ["delivery"] →
  str_truthy (TOPIC_PRODUCE_DELIVERY cfg) = true →
  m ≠ p_sender_id ev →
  is_Some (Metadata.get_user_identities m db !! "delivery") →
  NoDup members → m ∈ members →
  filter (λ r, pj_recipient_id (s_value r) = m)
    (mjoin (member_jobs cfg db ev <$> members))
  = [Sent (TOPIC_PRODUCE_DELIVERY cfg) m (make_job ev m "delivery")].
Proof.
  intros Hch Htopic Hsender Hid. induction 1 as [|a l Hnotin Hnd IH]; intros Hin.
  - by apply elem_of_nil in Hin.
  - cbn. rewrite filter_app. destruct (decide (a = m)) as [->|Hne].
    + rewrite member_jobs_delivery, filter_event_jobs_absent by done.
      by rewrite filter_cons_True.
    + rewrite filter_member_jobs_other by done.
      apply elem_of_cons in Hin as [->|Hin]; [done|]. by apply IH.
Qed.

Lemma dispatch_sends_event_jobs {order : SetOrder} cfg (e : env)
    (ev : @MessageSentEventProto) (w : world) :
  ∃ k, produced (dispatch cfg e (Some ev) w).2
       = (produced w ++ take k (event_jobs cfg (meta w) ev))%list.
Proof.
  unfold dispatch. destruct (rpc_up e).
  - destruct (sends_accepted e) as [n|].
    + case_match; [by exists n|].
      exists (length (event_jobs cfg (meta w) ev)). by rewrite firstn_all.
    + exists (length (event_jobs cfg (meta w) ev)). by rewrite firstn_all.
  - exists 0%nat. cbn. by rewrite app_nil_r.
Qed.

(** C6: every record the dispatcher sends for a persisted event is one
    of [event_jobs]; each of those is the job built by [make_job] for
    its recipient and channel, so its [job_id] is the text of the
    UUIDv5 of the DNS namespace and ["M:m:c"], its other fields are
    those of the event, and its key is the recipient.  Replaying the
    event against the same metadata produces the same jobs, whatever
    order the channel set is iterated in. *)
Theorem fanout_job_id_deterministic (o1 o2 : SetOrder) cfg
    (ev : @MessageSentEventProto) (e : env) (w : world) :
  (∃ k, produced (dispatch (order := o1) cfg e (Some ev) w).2
        = (produced w ++ take k (event_jobs (order := o1) cfg (meta w) ev))%list) ∧
  (∀ r, r ∈ event_jobs (order := o1) cfg (meta w) ev →
        pj_job_id (s_value r)
          = Uuid.uuid_str
              (Uuid.uuid5 Uuid.NAMESPACE_DNS
                 (p_message_id ev +:+ ":" +:+ pj_recipient_id (s_value r)
                    +:+ ":" +:+ pj_channel (s_value r))) ∧
        pj_message_id (s_value r) = p_message_id ev ∧
        pj_conversation_id (s_value r) = p_conversation_id ev ∧
        pj_payload (s_value r) = ev ∧
        s_key r = pj_recipient_id (s_value r)) ∧
  event_jobs (order := o1) cfg (meta w) ev ≡ₚ event_jobs (order := o2) cfg (meta w) ev.
Proof.
  split; [apply dispatch_sends_event_jobs|]. split; [|apply event_jobs_Permutation].
  intros r [Hjob Hkey]%event_jobs_well_formed.
  split_and!; [by rewrite Hjob at 1..|done].
Qed.

(** C4 (amended): the substitution of [["delivery"]] for an empty or
    missing list of requested channels is made by the API's
    [send_message], before the event is published.  The dispatcher
    itself sends no job for a persisted event whose list is empty.
    For an event whose list is [["delivery"]] (and a non-empty delivery
    topic name), each member of the conversation other than the sender
    whose identities include the delivery channel receives exactly one
    job, on channel [delivery]. *)
Theorem fanout_default_channel {order : SetOrder} cfg (cs : list Metadata.call)
    (ev : @MessageSentEventProto) :
  (∀ (request : @Api.CreateMessageRequest Any) (user now : string),
      Api.rq_target_channels request = None ∨ Api.rq_target_channels request = Some [] →
      p_target_channels (Api.send_message request user now) = ["delivery"]) ∧
  (p_target_channels ev = [] →
   event_jobs cfg (Metadata.run cs Metadata.empty_db) ev = []) ∧
  (p_target_channels ev = ["delivery"] →
   str_truthy (TOPIC_PRODUCE_DELIVERY cfg) = true →
   ∀ m : string,
     m ∈ Metadata.get_members (p_conversation_id ev) (Metadata.run cs Metadata.empty_db) →
     m ≠ p_sender_id ev →
     is_Some (Metadata.get_user_identities m (Metadata.run cs Metadata.empty_db)
              !! "delivery") →
     filter (λ r, pj_recipient_id (s_value r) = m)
       (event_jobs cfg (Metadata.run cs Metadata.empty_db) ev)
     = [Sent (TOPIC_PRODUCE_DELIVERY cfg) m (make_job ev m "delivery")]).
Proof.
  split_and!.
  - intros request user now [Hnone|Hnone]; unfold Api.send_message; cbn;
      by rewrite Hnone.
  - intros Hnone. unfold event_jobs.
    induction (Metadata.get_members _ _) as [|m ms IH]; [done|].
    change (member_jobs cfg (Metadata.run cs Metadata.empty_db) ev m
            ++ mjoin (member_jobs cfg (Metadata.run cs Metadata.empty_db) ev <$> ms) = [])%list.
    by rewrite member_jobs_no_channels, IH.
  - intros Hch Htopic m Hin Hsender Hid. unfold event_jobs.
    apply filter_event_jobs_once; try done. apply MetadataFacts.get_members_NoDup.
Qed.

End Routing.

(** Alice and Bob in a private conversation; Bob registered with a
    WhatsApp user name, so he is bound on [delivery] and [whatsapp]. *)
Definition alice_created : Metadata.UserCreatedEvent :=
  {| Metadata.uc_event_id := "e0"; Metadata.uc_user_id := "alice";
     Metadata.uc_username := "alice"; Metadata.uc_email := "alice@example.org";
     Metadata.uc_name := "Alice"; Metadata.uc_timestamp := "t0" |}.

Definition db2 : Metadata.db :=
  Metadata.run
    [ Metadata.UserCreated (Some alice_created);
      Metadata.UserCreated (Some MetadataFacts.bob_created);
      Metadata.CreateConversation "c1" "private" ["alice"; "bob"] ∅ ]
    Metadata.empty_db.

Definition persisted (channels : list string) : MessageSentEventProto :=
  {| p_message_id := "m1"; p_conversation_id := "c1"; p_sender_id := "alice";
     p_timestamp := "2025-01-01T00:00:00Z"; p_message_type := "text";
     p_content := "hi"; p_attachments_json := ""; p_status := "SENT";
     p_sequence_number := 1; p_target_channels := channels |}.

Example routing_whatsapp_only :
  (λ r, (s_topic r, s_key r, pj_channel (s_value r), pj_job_id (s_value r)))
    <$> event_jobs default_config db2 (persisted ["whatsapp"; "instagram"])
  = [("connector.whatsapp.outbound.v1", "bob", "whatsapp",
      "7fb5f5b9-8977-5bd5-b1bf-9be3c5ac1361")].
Proof. vm_compute. reflexivity. Qed.

(** C4 (as stated, refuted): Bob is a member other than the sender
    and is bound on [delivery], yet a persisted event with an empty
    list of requested channels produces no job at all. *)
Lemma fanout_empty_channels_no_job :
  "bob" ∈ Metadata.get_members "c1" db2 ∧
  "bob" ≠ p_sender_id (persisted []) ∧
  Metadata.get_user_identities "bob" db2 !! "delivery" = Some "bob" ∧
  event_jobs default_config db2 (persisted []) = [].
Proof. vm_compute. split_and!; try done. repeat constructor. Qed.

Lemma fanout_default_channel_witness :
  filter (λ r, pj_recipient_id (s_value r) = "bob")
    (event_jobs default_config db2 (persisted ["delivery"]))
  = [Sent "connector.delivery.outbound.v1" "bob"
       (make_job (persisted ["delivery"]) "bob" "delivery")].
Proof.
  destruct (fanout_default_channel (Any := string) default_config
              [ Metadata.UserCreated (Some alice_created);
                Metadata.UserCreated (Some MetadataFacts.bob_created);
                Metadata.CreateConversation "c1" "private" ["alice"; "bob"] ∅ ]
              (persisted ["delivery"])) as (_ & _ & Hone).
  apply (Hone eq_refl eq_refl "bob").
  - vm_compute. repeat constructor.
  - discriminate.
  - vm_compute. by eexists.
Defined.

Example delivery_job_for_bob :
  pj_job_id (make_job (persisted ["delivery"]) "bob" "delivery")
    = "624ed292-8c2e-5434-ae63-0b97488e0ec4".
Proof. vm_compute. reflexivity. Qed.

Lemma fanout_job_id_deterministic_witness :
  pj_job_id (make_job (persisted ["all"]) "bob" "whatsapp")
    = "7fb5f5b9-8977-5bd5-b1bf-9be3c5ac1361".
Proof.
  destruct (fanout_job_id_deterministic first_occurrence_order first_occurrence_order
              default_config (persisted ["all"]) (Env true None) (World db2 [] []))
    as (_ & Hid & _).
  assert (Sent "connector.whatsapp.outbound.v1" "bob"
            (make_job (persisted ["all"]) "bob" "whatsapp")
          ∈ event_jobs default_config db2 (persisted ["all"])) as Hin.
  { vm_compute. repeat constructor. }
  etransitivity; [exact (proj1 (Hid _ Hin))|].
  vm_compute. reflexivity.
Defined.

End FanoutFacts.

(** ** The delivery worker *)

Module DeliveryFacts.
Import Events Scylla Kafka Delivery.

Section Worker.
Context {Any : Type} `{PyLib Any}.
Variable TOPIC_PUSH : string.
Variable model_dump_json : MessageSentEvent Any → string.

Abbreviation deliver := (deliver TOPIC_PUSH model_dump_json).
Abbreviation process_delivery_job := (process_delivery_job TOPIC_PUSH model_dump_json).
Abbreviation run := (run TOPIC_PUSH model_dump_json).

(** The outcome of the job decides the commit: an exception of the
    callback leaves the committed position where it was. *)
Lemma run_one (e : env) (parsed : option (@DeliveryJobEventProto)) (w : world)
    (off committed : Z) :
  (run [Message off (e, parsed)] w committed).2 =
    if is_ok (deliver e parsed w).1 then off + 1 else committed.
Proof.
  unfold Delivery.run, Delivery.process_delivery_job. cbn.
  by destruct (deliver e parsed w) as [[[]|x] w'].
Qed.

Lemma deliver_outcome (e : env) (job : @DeliveryJobEventProto) (w : world) :
  is_Some (delivery_job_from_proto job) →
  is_ok (deliver e (Some job) w).1 =
    scylla_up e &&
    match redis_reply e with
    | None => false
    | Some subscribers_count => (0 <? subscribers_count) || kafka_up e
    end.
Proof.
  intros [event Hevent]. unfold Delivery.deliver. cbn. rewrite Hevent.
  destruct (scylla_up e); [|done]. destruct (redis_reply e) as [n|]; [|done].
  cbn. destruct (0 <? n); [done|]. by destruct (kafka_up e).
Qed.

(** C7 (amended): a failure of any of the three steps aborts the job.
    The inbox write, the pub/sub publish and the push publish all
    raise out of [process_delivery_job] (logged, then raised again),
    and the consumer does not commit the offset of a job whose
    callback raised.  When the inbox write fails nothing is written or
    published.  The offset is committed exactly when the inbox write
    and the pub/sub publish succeed and either somebody was subscribed
    or the push publish succeeds. *)
Theorem delivery_any_failure_aborts (e : env) (job : @DeliveryJobEventProto)
    (w : world) (off committed : Z) :
  is_Some (delivery_job_from_proto job) →
  (scylla_up e = false →
     (run [Message off (e, Some job)] w committed).2 = committed ∧
     user_inbox (run [Message off (e, Some job)] w committed).1 = user_inbox w ∧
     published (run [Message off (e, Some job)] w committed).1 = published w ∧
     pushed (run [Message off (e, Some job)] w committed).1 = pushed w) ∧
  (redis_reply e = None →
     (run [Message off (e, Some job)] w committed).2 = committed) ∧
  (kafka_up e = false → (∀ n, redis_reply e = Some n → n ≤ 0) →
     (run [Message off (e, Some job)] w committed).2 = committed) ∧
  (scylla_up e = true →
   (∃ n, redis_reply e = Some n ∧ (0 < n ∨ kafka_up e = true)) →
     (run [Message off (e, Some job)] w committed).2 = off + 1).
Proof.
  intros Hjob. rewrite run_one, deliver_outcome by done. split_and!.
  - intros Hdown. rewrite Hdown. split; [done|].
    destruct Hjob as [event Hevent].
    unfold Delivery.run, Delivery.process_delivery_job, Delivery.deliver. cbn.
    by rewrite Hevent, Hdown.
  - intros ->. by rewrite andb_false_r.
  - intros -> Hnone. destruct (redis_reply e) as [n|]; [|by rewrite andb_false_r].
    rewrite orb_false_r, (proj2 (Z.ltb_ge 0 n)) by eauto. by rewrite andb_false_r.
  - intros -> (n & -> & [Hn| ->]).
    + by rewrite (proj2 (Z.ltb_lt 0 n) Hn).
    + by rewrite orb_true_r.
Qed.

(** C8 (amended): when the inbox write succeeded and [PUBLISH] answers
    zero subscribers, exactly one push record is sent (if the producer
    accepts it), keyed by the recipient, with the recipient as user,
    the first 100 characters of the content as body, or
    ["Novo arquivo"] when the content is empty, and the conversation
    and message ids as data; when the answer is positive no push
    record is sent. *)
Theorem delivery_push_fallback (e : env) (job : @DeliveryJobEventProto)
    (event : DeliveryJobEvent Any) (w : world) :
  delivery_job_from_proto job = Some event →
  scylla_up e = true →
  (redis_reply e = Some 0 → kafka_up e = true →
     ∃ push,
       pushed (process_delivery_job (e, Some job) w).2
         = (pushed w ++ [Sent TOPIC_PUSH (recipient_id event) push])%list ∧
       pn_user_id push = recipient_id event ∧
       pn_body push = (if str_truthy (content (payload event))
                       then str_take 100 (content (payload event))
                       else "Novo arquivo") ∧
       json_loads (pn_data_json push)
         = Some (<["conversation_id" := py_str (j_conversation_id event)]>
                   (<["message_id" := py_str (j_message_id event)]> ∅))) ∧
  (∀ n, redis_reply e = Some n → 0 < n →
     pushed (process_delivery_job (e, Some job) w).2 = pushed w).
Proof.
  intros Hevent Hup. split.
  - intros Hzero Hkafka. eexists.
    unfold Delivery.process_delivery_job, Delivery.deliver. cbn.
    rewrite Hevent, Hup, Hzero, Hkafka. cbn. split_and!; try done.
    unfold push_notification_to_proto, push_event_for, dict_truthy. cbn.
    rewrite bool_decide_eq_true_2 by apply insert_non_empty.
    apply json_loads_dumps.
  - intros n Hn Hpos.
    unfold Delivery.process_delivery_job, Delivery.deliver. cbn.
    rewrite Hevent, Hup, Hn. cbn. by rewrite (proj2 (Z.ltb_lt 0 n) Hpos).
Qed.

End Worker.

(** A job for Bob carrying a message with empty content, and one with
    a long content. *)
Definition job_for_bob (text : string) : DeliveryJobEventProto :=
  Fanout.make_job
    {| p_message_id := "m1"; p_conversation_id := "c1"; p_sender_id := "alice";
       p_timestamp := "2025-01-01T00:00:00Z"; p_message_type := "file";
       p_content := text; p_attachments_json := ""; p_status := "SENT";
       p_sequence_number := 1; p_target_channels := ["delivery"] |}
    "bob" "delivery".

Definition world0 : world := World [] [] [] [].

(** All services up, [PUBLISH] answering [subs] subscribers. *)
Definition env_up (subs : option Z) (kafka : bool) : env :=
  Env true 1735689600 subs kafka 0x0123456789ab4def8123456789abcdef
      "2025-01-01T00:00:01+00:00".

Definition dump (p : MessageSentEvent string) : string := content p.

(** C7 (as stated, refuted): the inbox write succeeds, the pub/sub
    publish raises; the job is aborted and the committed position
    stays at 3: the offset of the job is not committed. *)
Lemma delivery_publish_failure_not_committed :
  (deliver "push" dump (env_up None true) (Some (job_for_bob "hi")) world0).1
    = Err RedisError ∧
  (run "push" dump [Message 3 (env_up None true, Some (job_for_bob "hi"))] world0 3).2
    = 3 ∧
  (run "push" dump [Message 3 (env_up (Some 0) false, Some (job_for_bob "hi"))] world0 3).2
    = 3.
Proof. vm_compute. done. Qed.

(** A job whose callback raised is passed over by the commit of the
    next job that succeeds. *)
Example failed_job_then_good_job :
  (run "push" dump
     [Message 3 (env_up None true, Some (job_for_bob "hi"));
      Message 4 (env_up (Some 1) true, Some (job_for_bob "hi"))] world0 3).2 = 5.
Proof. vm_compute. reflexivity. Qed.

Lemma job_for_bob_converts : is_Some (delivery_job_from_proto (job_for_bob "hi")).
Proof. vm_compute. by eexists. Defined.

Lemma delivery_any_failure_aborts_witness :
  (run "push" dump [Message 3 (env_up (Some 2) true, Some (job_for_bob "hi"))] world0 3).2
    = 4 ∧
  (run "push" dump [Message 3 (env_up None true, Some (job_for_bob "hi"))] world0 3).2
    = 3 ∧
  (run "push" dump [Message 3 (env_up (Some 0) false, Some (job_for_bob "hi"))] world0 3).2
    = 3.
Proof.
  destruct (delivery_any_failure_aborts "push" dump (env_up (Some 2) true)
              (job_for_bob "hi") world0 3 3 job_for_bob_converts) as (_ & _ & _ & Hok).
  destruct (delivery_any_failure_aborts "push" dump (env_up None true)
              (job_for_bob "hi") world0 3 3 job_for_bob_converts) as (_ & Hredis & _).
  destruct (delivery_any_failure_aborts "push" dump (env_up (Some 0) false)
              (job_for_bob "hi") world0 3 3 job_for_bob_converts) as (_ & _ & Hkafka & _).
  split_and!.
  - apply Hok; [reflexivity|]. exists 2. split; [reflexivity|]. left. lia.
  - by apply Hredis.
  - apply Hkafka; [reflexivity|]. intros n [= <-]. lia.
Defined.

(** C8 (as stated, refuted): nobody is subscribed and the content is
    empty; the body of the push notification is ["Novo arquivo"], not
    ["New file"]. *)
Lemma delivery_push_body_empty_content :
  (λ r, (s_key r, pn_body (s_value r)))
    <$> pushed (process_delivery_job "push" dump
                  (env_up (Some 0) true, Some (job_for_bob "")) world0).2
  = [("bob", "Novo arquivo")] ∧
  "Novo arquivo" ≠ "New file".
Proof. vm_compute. done. Qed.

Definition bob_job_event (text : string) : DeliveryJobEvent string :=
  {| job_id := pj_job_id (job_for_bob text); j_message_id := "m1";
     j_conversation_id := "c1"; recipient_id := "bob"; channel := "delivery";
     payload := {| message_id := "m1"; conversation_id := "c1"; sender_id := "alice";
                   timestamp := "2025-01-01T00:00:00Z"; message_type := "file";
                   content := text; attachments := None; status := "SENT";
                   sequence_number := Some 1; target_channels := ["delivery"] |} |}.

Lemma delivery_push_fallback_witness :
  pushed (process_delivery_job "push" dump
            (env_up (Some 5) true, Some (job_for_bob "hi")) world0).2 = [] ∧
  ∃ push,
    pushed (process_delivery_job "push" dump
              (env_up (Some 0) true, Some (job_for_bob "hi")) world0).2
      = [Sent "push" "bob" push] ∧
    pn_body push = "hi".
Proof.
  destruct (delivery_push_fallback "push" dump (env_up (Some 5) true) (job_for_bob "hi")
              (bob_job_event "hi") world0 eq_refl eq_refl) as [_ Hpos].
  destruct (delivery_push_fallback "push" dump (env_up (Some 0) true) (job_for_bob "hi")
              (bob_job_event "hi") world0 eq_refl eq_refl) as [Hzero _].
  split.
  - apply (Hpos 5); [reflexivity|lia].
  - destruct (Hzero eq_refl eq_refl) as (push & Hpushed & _ & Hbody & _).
    exists push. by split.
Defined.

End DeliveryFacts.

(** ** The status processor *)

Module StatusFacts.
Import Events Scylla Kafka Status.

Section Processor.
Context {Any : Type} `{PyLib Any}.

Lemma stored_status_update (cid cid' : Uuid.uuid) (seq seq' : Z) (new_status : string)
    (t : messages_table) :
  stored_status cid' seq' (update_status cid seq new_status t) =
    if decide ((cid, seq) = (cid', seq')) then Some new_status
    else stored_status cid' seq' t.
Proof.
  unfold stored_status, update_status. case_decide as Hkey.
  - injection Hkey as <- <-. by rewrite lookup_insert_eq.
  - by rewrite lookup_insert_ne.
Qed.

Lemma messages_process_event (e : env) (ev : MessageStatusEventProto) (w : world) :
  messages (process_event e ev w) =
    if scylla_up e
    then update_status (_to_uuid (ps_conversation_id ev)) (ps_sequence_number ev)
           (ps_status ev) (messages w)
    else messages w.
Proof.
  unfold process_event, update_and_notify.
  destruct (scylla_up e); [|done].
  destruct (negb _); [destruct (redis_up e)|]; done.
Qed.

(** C5 (amended): processing a status event writes the status of the
    event over the stored one, whatever the stored one is: the update
    is a plain overwrite, not a maximum, and [READ] is not protected.
    The rows of other keys keep their status, and a failed write
    changes nothing.  Consequently the stored status does not go down
    when the status of the event is not below the stored one, which is
    what the per-conversation order of the status topic provides for
    receipts sent in order. *)
Theorem status_update_overwrites (e : env) (ev : MessageStatusEventProto) (w : world) :
  (scylla_up e = true →
     stored_status (_to_uuid (ps_conversation_id ev)) (ps_sequence_number ev)
       (messages (process_event e ev w)) = Some (ps_status ev)) ∧
  (∀ cid seq, (cid, seq) ≠ (_to_uuid (ps_conversation_id ev), ps_sequence_number ev) →
     stored_status cid seq (messages (process_event e ev w))
       = stored_status cid seq (messages w)) ∧
  (scylla_up e = false → messages (process_event e ev w) = messages w) ∧
  (∀ old a b, scylla_up e = true →
     stored_status (_to_uuid (ps_conversation_id ev)) (ps_sequence_number ev) (messages w)
       = Some old →
     status_rank old = Some a → status_rank (ps_status ev) = Some b → a ≤ b →
     ∃ new c,
       stored_status (_to_uuid (ps_conversation_id ev)) (ps_sequence_number ev)
         (messages (process_event e ev w)) = Some new ∧
       status_rank new = Some c ∧ a ≤ c).
Proof.
  rewrite messages_process_event. split_and!.
  - intros ->. rewrite stored_status_update. by rewrite decide_True.
  - intros cid seq Hne. destruct (scylla_up e); [|done].
    rewrite stored_status_update. by rewrite decide_False.
  - by intros ->.
  - intros old a b -> Hold Ha Hb Hab. exists (ps_status ev), b.
    rewrite stored_status_update. by rewrite decide_True.
Qed.

End Processor.

(** The row of message 1 of conversation ["c1"], stored as [SENT]. *)
Definition sent_row : messages_table :=
  (save_message true
     {| p_message_id := "m1"; p_conversation_id := "c1"; p_sender_id := "alice";
        p_timestamp := "2025-01-01T00:00:00Z"; p_message_type := "text";
        p_content := "hi"; p_attachments_json := ""; p_status := "SENT";
        p_sequence_number := 0; p_target_channels := ["delivery"] |} 1 ∅).2.

Definition receipt (new_status : string) : MessageStatusEventProto :=
  {| ps_event_id := "e1"; ps_message_id := "m1"; ps_sequence_number := 1;
     ps_conversation_id := "c1"; ps_user_id := "bob"; ps_sender_id := "alice";
     ps_status := new_status; ps_timestamp := "2025-01-01T00:00:05+00:00" |}.

Definition world1 : world := World sent_row [] [].

(** C5 (as stated, refuted): the row is [SENT]; a [READ] receipt makes
    it [READ]; a [DELIVERED] receipt processed afterwards lowers it to
    [DELIVERED]. *)
Lemma status_read_then_delivered_goes_down :
  stored_status (_to_uuid "c1") 1 (messages world1) = Some "SENT" ∧
  stored_status (_to_uuid "c1") 1
    (messages (process_event (Env true true) (receipt "READ") world1)) = Some "READ" ∧
  stored_status (_to_uuid "c1") 1
    (messages (process_event (Env true true) (receipt "DELIVERED")
                 (process_event (Env true true) (receipt "READ") world1)))
    = Some "DELIVERED" ∧
  (run [Message 0 (Env true true, Some (receipt "READ"));
        Message 1 (Env true true, Some (receipt "DELIVERED"))] world1 0).2 = 2.
Proof. vm_compute. done. Qed.

Lemma status_update_overwrites_witness :
  stored_status (_to_uuid "c1") 1
    (messages (process_event (Env true true) (receipt "READ") world1)) = Some "READ" ∧
  messages (process_event (Env false true) (receipt "READ") world1) = messages world1.
Proof.
  destruct (status_update_overwrites (Env true true) (receipt "READ") world1)
    as (Hwrite & _).
  destruct (status_update_overwrites (Env false true) (receipt "READ") world1)
    as (_ & _ & Hdown & _).
  split; [by apply Hwrite|by apply Hdown].
Defined.

End StatusFacts.

(** ** More on the metadata store *)

Module MetadataExtra.
Import Metadata.

Lemma exec_keeps_log (c : call) (s : db) (M : string) (p : string * Z) :
  message_sequences_log s !! M = Some p →
  message_sequences_log (exec c s) !! M = Some p.
Proof.
  intros HM. destruct c as [cid ty ms md|C' M'|[ev|]|u ch x]; cbn [exec].
  - unfold create_conversation, insert_conversation. by repeat case_match.
  - unfold get_or_create_sequence.
    destruct (message_sequences_log s !! M') as [q|] eqn:HM'; [done|].
    destruct (conversations s !! C') as [c|]; [|done]. cbn.
    rewrite lookup_insert_ne; [done|]. intros ->. congruence.
  - unfold process_user_created, insert_identity_do_nothing. by repeat case_match.
  - done.
  - unfold link_identity. by case_bool_decide.
Qed.

Lemma exec_keeps_conversation (call0 : call) (s : db) (C : string) (c : conversation) :
  conversations s !! C = Some c →
  ∃ c', conversations (exec call0 s) !! C = Some c' ∧
        last_sequence_number c ≤ last_sequence_number c' ∧
        conv_type c' = conv_type c ∧ conv_metadata c' = conv_metadata c.
Proof.
  intros HC. destruct call0 as [cid ty ms md|C' M'|[ev|]|u ch x]; cbn [exec].
  - unfold create_conversation, insert_conversation.
    repeat case_match; cbn; try (exists c; split_and!; done || lia).
    all: rewrite lookup_insert_ne by congruence; exists c; split_and!; done || lia.
  - unfold get_or_create_sequence.
    destruct (message_sequences_log s !! M') as [q|]; [exists c; split_and!; done || lia|].
    destruct (conversations s !! C') as [c0|] eqn:HC'; [|exists c; split_and!; done || lia].
    cbn. destruct (decide (C' = C)) as [->|Hne].
    + rewrite lookup_insert_eq. eexists. split; [done|]. cbn.
      assert (c0 = c) as -> by congruence. split_and!; done || lia.
    + rewrite lookup_insert_ne by done. exists c. split_and!; done || lia.
  - unfold process_user_created, insert_identity_do_nothing.
    repeat case_match; exists c; split_and!; done || lia.
  - exists c. split_and!; done || lia.
  - unfold link_identity. case_bool_decide; exists c; split_and!; done || lia.
Qed.

(** X1: nothing that writes the metadata database ever changes or
    removes an entry of the sequence log, lowers the counter of a
    conversation, changes its type or removes it.  So a message id
    that was given a number gets that number from every later call,
    under any conversation id. *)
Theorem assigned_sequence_is_permanent (cs : list call) (s : db) :
  (∀ M p, message_sequences_log s !! M = Some p →
          message_sequences_log (run cs s) !! M = Some p) ∧
  (∀ C c, conversations s !! C = Some c →
          ∃ c', conversations (run cs s) !! C = Some c' ∧
                last_sequence_number c ≤ last_sequence_number c' ∧
                conv_type c' = conv_type c) ∧
  (∀ C M n s0, get_or_create_sequence C M s0 = (Ok n, s) →
               ∀ C', get_or_create_sequence C' M (run cs s) = (Ok n, run cs s)).
Proof.
  assert (∀ M p, message_sequences_log s !! M = Some p →
                 message_sequences_log (run cs s) !! M = Some p) as Hlog.
  { revert s. induction cs as [|c cs IH]; intros s M p HM; [done|].
    cbn. apply IH. by apply exec_keeps_log. }
  split_and!; [done| |].
  - revert s Hlog. induction cs as [|call0 cs IH]; intros s _ C c HC.
    + exists c. split_and!; done || lia.
    + cbn. destruct (exec_keeps_conversation call0 s C c HC) as (c1 & Hc1 & Hle & Hty & _).
      destruct (IH (exec call0 s)) with (C := C) (c := c1) as (c2 & Hc2 & Hle2 & Hty2);
        [intros M p HM; clear -HM; revert HM; generalize (exec call0 s);
         induction cs as [|c' cs' IH']; intros s' HM; [done|];
         cbn; apply IH'; by apply exec_keeps_log
        |done|].
      exists c2. split_and!; [done|lia|congruence].
  - intros C M n s0 Hcall C'.
    destruct (MetadataFacts.sequence_ok_logged _ _ _ _ _ Hcall) as [C0 HM].
    apply Hlog in HM. by rewrite (MetadataFacts.sequence_hit C' M _ _ HM).
Qed.

Lemma assigned_sequence_is_permanent_witness :
  get_or_create_sequence "c7" "m1"
    (run [NextSequence "c1" "m3"; CreateConversation "c2" "group" ["bob"] ∅;
          NextSequence "c2" "m1"] MetadataFacts.db1)
  = (Ok 1, run [NextSequence "c1" "m3"; CreateConversation "c2" "group" ["bob"] ∅;
                NextSequence "c2" "m1"] MetadataFacts.db1).
Proof.
  destruct (assigned_sequence_is_permanent
              [NextSequence "c1" "m3"; CreateConversation "c2" "group" ["bob"] ∅;
               NextSequence "c2" "m1"] MetadataFacts.db1) as (_ & _ & Hsame).
  apply (Hsame "c1" "m1" 1 MetadataFacts.db1). vm_compute. reflexivity.
Defined.

(** X2: in a database reached from the empty one, a message that is
    not logged yet gets, in an existing conversation, a number above
    every number already given in that conversation and directly after
    the latest one: numbers follow the order in which messages are
    first sequenced. *)
Theorem new_message_gets_next_number (cs : list call) (C M : string) (n : Z) (s' : db) :
  message_sequences_log (run cs empty_db) !! M = None →
  get_or_create_sequence C M (run cs empty_db) = (Ok n, s') →
  (∀ M' n', message_sequences_log (run cs empty_db) !! M' = Some (C, n') → n' < n) ∧
  1 ≤ n ∧
  (n = 1 ∨ ∃ M', message_sequences_log (run cs empty_db) !! M' = Some (C, n - 1)).
Proof.
  pose proof (MetadataFacts.log_inv_run cs empty_db MetadataFacts.log_inv_empty)
    as [Hpos Hrange Hdense _].
  revert Hpos Hrange Hdense. generalize (run cs empty_db). intros s Hpos Hrange Hdense Hnew.
  unfold get_or_create_sequence. rewrite Hnew.
  destruct (conversations s !! C) as [c|] eqn:Hc; [|done]. intros [= <- _].
  pose proof (Hpos _ _ Hc) as Hc0. split_and!.
  - intros M' n' HM'. destruct (Hrange _ _ _ HM') as (c' & Hc' & Hn').
    assert (c' = c) as -> by congruence. lia.
  - lia.
  - destruct (decide (last_sequence_number c = 0)) as [->|Hne]; [by left|]. right.
    replace (last_sequence_number c + 1 - 1) with (last_sequence_number c) by lia.
    apply (Hdense C c); [done|lia].
Qed.

Lemma new_message_gets_next_number_witness :
  ∃ M', message_sequences_log MetadataFacts.db1 !! M' = Some ("c1", 3 - 1).
Proof.
  destruct (new_message_gets_next_number MetadataFacts.history1 "c1" "m3" 3
              (get_or_create_sequence "c1" "m3" MetadataFacts.db1).2 eq_refl)
    as (_ & _ & [Hone|Hprev]).
  - vm_compute. reflexivity.
  - discriminate.
  - exact Hprev.
Defined.

(** *** Private conversations *)

(** No private conversation lists both users. *)
Definition no_private_pair (s : db) (x y : string) : Prop :=
  ∀ e, (e, x) ∈ conversation_members s → (e, y) ∈ conversation_members s →
       is_private s e = true → False.

Lemma find_private_elem (a b e : string) (s : db) :
  e ∈ filter (λ cid, is_private s cid && has_member s cid b = true)
        (fst <$> filter (λ r, r.2 = a) (conversation_members s))
  ↔ is_private s e = true ∧ (e, a) ∈ conversation_members s ∧
    (e, b) ∈ conversation_members s.
Proof.
  rewrite list_elem_of_filter, list_elem_of_fmap, andb_true_iff.
  unfold has_member. rewrite bool_decide_eq_true. split.
  - intros [[Hp Hb] ([e' u] & -> & [Hu Hin]%list_elem_of_filter)]. cbn in *. by subst.
  - intros (Hp & Ha & Hb). split; [done|]. exists (e, a). split; [done|].
    by apply list_elem_of_filter.
Qed.

Lemma find_private_Some (a b e : string) (s : db) :
  find_private_conversation a b s = Some e →
  is_private s e = true ∧ (e, a) ∈ conversation_members s ∧
  (e, b) ∈ conversation_members s.
Proof.
  unfold find_private_conversation. intros Hhead. apply find_private_elem.
  destruct (filter _ _) as [|e' l]; [done|]. injection Hhead as ->. left.
Qed.

Lemma find_private_None (a b : string) (s : db) :
  find_private_conversation a b s = None → no_private_pair s a b.
Proof.
  unfold find_private_conversation. intros Hnil%head_None e Ha Hb Hp.
  apply (elem_of_nil e). rewrite <- Hnil. by apply find_private_elem.
Qed.

Lemma find_private_only (a b cid : string) (s : db) :
  (∀ e, is_private s e = true → (e, a) ∈ conversation_members s →
        (e, b) ∈ conversation_members s → e = cid) →
  is_private s cid = true → (cid, a) ∈ conversation_members s →
  (cid, b) ∈ conversation_members s →
  find_private_conversation a b s = Some cid.
Proof.
  intros Honly Hp Ha Hb. unfold find_private_conversation.
  destruct (filter _ _) as [|e l] eqn:Hl.
  - exfalso. apply (elem_of_nil cid). rewrite <- Hl. by apply find_private_elem.
  - cbn. f_equal. assert (e ∈ e :: l) as Hin by left. rewrite <- Hl in Hin.
    apply find_private_elem in Hin as (? & ? & ?). by apply Honly.
Qed.

Lemma find_private_after_insert (x y a b cid : string) md (s : db) :
  no_private_pair s x y →
  conversations s !! cid = None →
  x ∈ [a; b] → y ∈ [a; b] →
  find_private_conversation x y (insert_conversation cid "private" [a; b] md s).2
    = Some cid.
Proof.
  intros Hnone Hfresh Hx Hy. unfold insert_conversation. rewrite Hfresh.
  assert (∀ u, u ∈ [a; b] →
            (cid, u) ∈ (conversation_members s
                         ++ ((λ uid, (cid, uid)) <$> remove_dups [a; b]))%list) as Hnew.
  { intros u Hu. apply elem_of_app. right. apply list_elem_of_fmap.
    exists u. split; [done|]. by apply elem_of_remove_dups. }
  apply find_private_only; cbn.
  - intros e Hp He1 He2. destruct (decide (e = cid)) as [|Hne]; [done|]. exfalso.
    assert (∀ u, (e, u) ∈ (conversation_members s
                  ++ ((λ uid, (cid, uid)) <$> remove_dups [a; b]))%list →
                 (e, u) ∈ conversation_members s) as Hold.
    { intros u [Hin|(u' & [= ? ?] & _)%list_elem_of_fmap]%elem_of_app; [done|].
      congruence. }
    apply (Hnone e); [by apply Hold|by apply Hold|].
    unfold is_private in *. cbn in Hp. by rewrite lookup_insert_ne in Hp.
  - unfold is_private. cbn. by rewrite lookup_insert_eq.
  - by apply Hnew.
  - by apply Hnew.
Qed.

(** X3: creating a private conversation for the same two users again
    returns the conversation of the first call and writes nothing,
    whatever fresh id and metadata the second request carries; when
    the first call created the conversation, this also holds with the
    two users given in the other order.  (Conversation ids are
    non-empty texts.) *)
Theorem private_conversation_idempotent (cid cid' a b id : string)
    (md md' : gmap string string) (s s' : db) :
  conversations s !! "" = None →
  str_truthy cid = true →
  create_conversation cid "private" [a; b] md s = (Ok id, s') →
  create_conversation cid' "private" [a; b] md' s' = (Ok id, s') ∧
  (find_private_conversation a b s = None →
   create_conversation cid' "private" [b; a] md' s' = (Ok id, s')).
Proof.
  intros Hnoempty Hcid. unfold create_conversation at 1. cbn.
  destruct (find_private_conversation a b s) as [e|] eqn:Hfind.
  - assert (str_truthy e = true) as He.
    { apply find_private_Some in Hfind as (Hp & _). unfold is_private in Hp.
      destruct e; [by rewrite Hnoempty in Hp|done]. }
    rewrite He. intros [= <- <-]. split; [|done].
    unfold create_conversation. cbn. by rewrite Hfind, He.
  - intros Hins.
    assert (conversations s !! cid = None ∧ id = cid ∧
            s' = (insert_conversation cid "private" [a; b] md s).2) as (Hfresh & -> & ->).
    { unfold insert_conversation in *.
      destruct (conversations s !! cid); [done|]. by injection Hins as <- <-. }
    pose proof (find_private_None _ _ _ Hfind) as Hnone.
    assert (a ∈ [a; b] ∧ b ∈ [a; b]) as [Ha Hb] by (split; repeat constructor).
    split; [|intros _]; unfold create_conversation; cbn.
    + by rewrite (find_private_after_insert a b a b cid md s), Hcid.
    + rewrite (find_private_after_insert b a a b cid md s), Hcid; try done.
      intros e H1 H2. by apply Hnone.
Qed.

Lemma private_conversation_idempotent_witness :
  create_conversation "c2" "private" ["alice"; "bob"] ∅
    (create_conversation "c1" "private" ["alice"; "bob"] ∅ empty_db).2
  = (Ok "c1", (create_conversation "c1" "private" ["alice"; "bob"] ∅ empty_db).2) ∧
  create_conversation "c2" "private" ["bob"; "alice"] ∅
    (create_conversation "c1" "private" ["alice"; "bob"] ∅ empty_db).2
  = (Ok "c1", (create_conversation "c1" "private" ["alice"; "bob"] ∅ empty_db).2).
Proof.
  destruct (private_conversation_idempotent "c1" "c2" "alice" "bob" "c1" ∅ ∅ empty_db
              (create_conversation "c1" "private" ["alice"; "bob"] ∅ empty_db).2
              eq_refl eq_refl eq_refl) as [Hsame Hswap].
  split; [exact Hsame|]. apply Hswap. reflexivity.
Defined.

(** *** Members of a new conversation *)





(** *** Listing the conversations of a user *)

(** X5: the listing of a user's conversations and the member lists
    agree: a conversation is listed for a user exactly when it exists
    and the user is among its members, and each listed row carries the
    type, metadata and counter of that conversation. *)
Theorem user_conversations_agree_with_members (u : string) (s : db) :
  (∀ cid, (∃ sm, sm ∈ MetadataApi.get_user_conversations u s ∧
                 MetadataApi.sm_conversation_id sm = cid)
          ↔ u ∈ get_members cid s ∧ is_Some (conversations s !! cid)) ∧
  (∀ sm, sm ∈ MetadataApi.get_user_conversations u s →
         conversations s !! MetadataApi.sm_conversation_id sm
           = Some (Conversation (MetadataApi.sm_type sm) (MetadataApi.sm_last_sequence_number sm)
                     (MetadataApi.sm_metadata sm))).
Proof.
  unfold MetadataApi.get_user_conversations, get_members. split.
  - intros cid. split.
    + intros (sm & ([c v] & Hin & Hsm)%list_elem_of_omap & <-). cbn in Hsm.
      case_decide as Hv; [|done]. subst v.
      destruct (conversations s !! c) as [row|] eqn:Hrow; [|done].
      injection Hsm as <-. cbn. rewrite Hrow. split; [|done].
      apply list_elem_of_fmap. exists (c, u). split; [done|].
      by apply list_elem_of_filter.
    + intros [([c v] & -> & [Hc Hin]%list_elem_of_filter)%list_elem_of_fmap [row Hrow]].
      cbn in *. subst c. eexists. split.
      * apply list_elem_of_omap. exists (cid, v). split; [done|]. cbn.
        rewrite decide_True by done. by rewrite Hrow.
      * done.
  - intros sm ([c v] & Hin & Hsm)%list_elem_of_omap. cbn in Hsm.
    case_decide; [|done]. destruct (conversations s !! c) as [[ty n md]|] eqn:Hrow; [|done].
    by injection Hsm as <-.
Qed.

Lemma user_conversations_agree_with_members_witness :
  (MetadataApi.sm_conversation_id <$> MetadataApi.get_user_conversations "bob" MetadataFacts.db1)
    = ["c1"] ∧
  "bob" ∈ get_members "c1" MetadataFacts.db1.
Proof.
  destruct (user_conversations_agree_with_members "bob" MetadataFacts.db1) as [Hiff _].
  split; [reflexivity|].
  destruct (proj1 (Hiff "c1")) as [Hmember _]; [|exact Hmember].
  exists (MetadataApi.Summary "c1" "group" ∅ 2). split; [|reflexivity].
  vm_compute. left.
Defined.

(** *** The creator of a conversation *)

Lemma insert_conversation_member (cid ty u : string) (ms : list string)
    (md : gmap string string) (s s' : db) (id : string) :
  insert_conversation cid ty ms md s = (Ok id, s') → u ∈ ms →
  id = cid ∧ u ∈ get_members id s'.
Proof.
  unfold insert_conversation. destruct (conversations s !! cid); [done|].
  intros [= <- <-] Hu. split; [done|]. unfold get_members. cbn.
  apply list_elem_of_fmap. exists (cid, u). split; [done|].
  apply list_elem_of_filter. split; [done|]. apply elem_of_app. right.
  apply list_elem_of_fmap. exists u. split; [done|]. by apply elem_of_remove_dups.
Qed.

Lemma create_conversation_member (cid ty u : string) (ms : list string)
    (md : gmap string string) (s s' : db) (id : string) :
  create_conversation cid ty ms md s = (Ok id, s') → u ∈ ms → u ∈ get_members id s'.
Proof.
  intros Hcreate Hu. unfold create_conversation in Hcreate.
  destruct ms as [|a [|b [|c ms]]];
    try (by eapply insert_conversation_member).
  destruct (String.eqb ty "private"); [|by eapply insert_conversation_member].
  destruct (find_private_conversation a b s) as [e|] eqn:Hfind;
    [|by eapply insert_conversation_member].
  destruct (str_truthy e); [|by eapply insert_conversation_member].
  injection Hcreate as <- <-.
  apply find_private_Some in Hfind as (_ & Ha & Hb).
  unfold get_members. apply list_elem_of_fmap.
  apply elem_of_cons in Hu as [->|[->|[]%elem_of_nil]%elem_of_cons].
  - exists (e, a). split; [done|]. by apply list_elem_of_filter.
  - exists (e, b). split; [done|]. by apply list_elem_of_filter.
Qed.

(** X6: a conversation created through the API always has its creator
    among the members, whether it was inserted or an existing private
    conversation was returned; and the request is never refused for
    want of members: the only failure is HTTP 500, which leaves the
    database as it was. *)
Theorem api_creator_is_member {order : SetOrder} (gid : Uuid.uuid) (ty user : string)
    (req : list string) (md : option (gmap string string)) (s : db) :
  (∀ cid s', MetadataApi.api_create_conversation gid ty req md user s = (Ok cid, s') →
             user ∈ get_members cid s') ∧
  (∀ code s', MetadataApi.api_create_conversation gid ty req md user s = (Err code, s') →
              code = 500%nat ∧ s' = s ∧
              (MetadataApi.CreateConversation gid ty (set_iter (req ++ [user])%list)
                 (default ∅ md) s).1.1 = INTERNAL).
Proof.
  assert (user ∈ set_iter (req ++ [user])%list) as Huser.
  { apply set_iter_elem, elem_of_app. right. left. }
  unfold MetadataApi.api_create_conversation, MetadataApi.client_create_conversation,
    MetadataApi.CreateConversation.
  destruct (set_iter (req ++ [user])%list) as [|m ms] eqn:Hms;
    [by apply elem_of_nil in Huser|].
  destruct (create_conversation (Uuid.uuid_str gid) ty (m :: ms) (default ∅ md) s)
    as [[id|x] s1] eqn:Hcreate; cbn; split; try done.
  - intros cid s' [= <- <-]. by eapply create_conversation_member.
  - intros code s' [= <- <-]. split_and!; try done.
    unfold create_conversation, insert_conversation in Hcreate.
    repeat case_match; congruence.
Qed.

Lemma api_creator_is_member_witness :
  "alice" ∈ get_members "00000000-0000-0000-0000-00000000002a"
    (MetadataApi.api_create_conversation 42 "group" ["bob"] None "alice" empty_db).2.
Proof.
  destruct (api_creator_is_member 42 "group" "alice" ["bob"] None empty_db) as [Hmember _].
  apply Hmember. vm_compute. reflexivity.
Defined.

(** *** The user-created consumer *)

Lemma set_directory_same (f : gmap string directory_row → gmap string directory_row)
    (s : db) :
  f (users_directory s) = users_directory s → set_directory f s = s.
Proof. destruct s. unfold set_directory. cbn. by intros ->. Qed.

Lemma directory_insert_identity (u ch x : string) (s : db) :
  users_directory (insert_identity_do_nothing u ch x s) = users_directory s.
Proof. unfold insert_identity_do_nothing. by case_match. Qed.

Lemma insert_identity_bound (u ch x : string) (s : db) :
  is_Some (get_user_identities u s !! ch) → insert_identity_do_nothing u ch x s = s.
Proof. intros [y Hy]. unfold insert_identity_do_nothing. by rewrite Hy. Qed.

Lemma upsert_directory_twice ev (s : db) :
  (∃ un, users_directory s !! uc_user_id ev
         = Some (DirectoryRow un (uc_name ev)
                   ("https://api.dicebear.com/7.x/initials/svg?seed=" +:+ uc_username ev))) →
  upsert_directory ev s = s.
Proof.
  intros [un Hrow]. unfold upsert_directory. apply set_directory_same.
  rewrite Hrow. cbn. by apply insert_id.
Qed.

(** X7: the user-created consumer is idempotent: processing the same
    event a second time changes nothing. *)
Theorem user_created_idempotent (parsed : option UserCreatedEvent) (s : db) :
  process_user_created parsed (process_user_created parsed s)
    = process_user_created parsed s.
Proof.
  destruct parsed as [ev|]; [|done].
  set (s3 := process_user_created (Some ev) s).
  assert (upsert_directory ev s3 = s3) as Hdir.
  { apply upsert_directory_twice. unfold s3, process_user_created.
    assert (∃ un, users_directory (upsert_directory ev s) !! uc_user_id ev
                  = Some (DirectoryRow un (uc_name ev)
                            ("https://api.dicebear.com/7.x/initials/svg?seed="
                               +:+ uc_username ev))) as Hup.
    { unfold upsert_directory. cbn.
      destruct (users_directory s !! uc_user_id ev) as [old|];
        rewrite lookup_insert_eq; by eexists. }
    repeat case_match; by rewrite !directory_insert_identity. }
  assert (is_Some (get_user_identities (uc_user_id ev) s3 !! "delivery")) as Hdel.
  { unfold s3. rewrite MetadataFacts.delivery_after_user_created.
    by rewrite decide_True. }
  unfold process_user_created at 1. fold s3. rewrite Hdir.
  rewrite (insert_identity_bound _ "delivery" _ s3 Hdel).
  destruct (startswith (uc_username ev) "whatsapp:") eqn:Hwa;
    [|destruct (startswith (uc_username ev) "instagram:") eqn:Hig]; try done.
  - apply insert_identity_bound. unfold s3, process_user_created. rewrite Hwa.
    rewrite MetadataFacts.lookup_insert_identity_do_nothing.
    by rewrite decide_True.
  - apply insert_identity_bound. unfold s3, process_user_created. rewrite Hwa, Hig.
    rewrite MetadataFacts.lookup_insert_identity_do_nothing.
    by rewrite decide_True.
Qed.

(** *** Binding identities *)

Lemma insert_identity_keeps (u v ch ch' x y : string) (s : db) :
  get_user_identities v s !! ch' = Some y →
  get_user_identities v (insert_identity_do_nothing u ch x s) !! ch' = Some y.
Proof.
  intros Hy. rewrite MetadataFacts.lookup_insert_identity_do_nothing.
  case_decide as Hand; [|done]. destruct Hand as [-> ->]. by rewrite Hy.
Qed.

(** X8: the two ways of binding an identity differ on a pair that is
    already bound.  The user-created consumer never changes an existing
    binding of any user and channel.  [link_identity] on one of the
    three external channels replaces the binding of that user and
    channel and touches no other pair; on any other channel it answers
    400 and writes nothing. *)
Theorem binding_keep_or_replace (s : db) :
  (∀ parsed (v ch y : string),
      get_user_identities v s !! ch = Some y →
      get_user_identities v (process_user_created parsed s) !! ch = Some y) ∧
  (∀ u ch x : string, ch ∈ ["whatsapp"; "instagram"; "telegram"] →
      (link_identity u ch x s).1 = Ok () ∧
      get_user_identities u (link_identity u ch x s).2 !! ch = Some x ∧
      ∀ v ch', (v, ch') ≠ (u, ch) →
        get_user_identities v (link_identity u ch x s).2 !! ch'
          = get_user_identities v s !! ch') ∧
  (∀ u ch x : string, ch ∉ ["whatsapp"; "instagram"; "telegram"] →
      link_identity u ch x s = (Err 400%nat, s)).
Proof.
  split_and!.
  - intros [ev|] v ch y Hy; [|done]. unfold process_user_created.
    repeat case_match; repeat apply insert_identity_keeps; done.
  - intros u ch x Hch. unfold link_identity. rewrite bool_decide_eq_true_2 by done.
    cbn. split_and!; [done| |].
    + rewrite MetadataFacts.lookup_add_identity. by rewrite decide_True.
    + intros v ch' Hne. rewrite MetadataFacts.lookup_add_identity.
      rewrite decide_False; [done|]. intros [-> ->]. by apply Hne.
  - intros u ch x Hch. unfold link_identity. by rewrite bool_decide_eq_false_2.
Qed.

Lemma binding_keep_or_replace_witness :
  get_user_identities "bob"
    (process_user_created (Some MetadataFacts.bob_created)
       (link_identity "bob" "whatsapp" "+100" empty_db).2) !! "whatsapp" = Some "+100" ∧
  get_user_identities "bob"
    (link_identity "bob" "whatsapp" "+200"
       (link_identity "bob" "whatsapp" "+100" empty_db).2).2 !! "whatsapp" = Some "+200" ∧
  link_identity "bob" "delivery" "mallory" empty_db = (Err 400%nat, empty_db).
Proof.
  destruct (binding_keep_or_replace (link_identity "bob" "whatsapp" "+100" empty_db).2)
    as (Hkeep & Hreplace & _).
  destruct (binding_keep_or_replace empty_db) as (_ & _ & Hrefuse).
  split_and!.
  - apply Hkeep. vm_compute. reflexivity.
  - apply Hreplace. left.
  - apply Hrefuse. intros Hin. vm_compute in Hin.
    repeat (apply elem_of_cons in Hin as [Hin|Hin]; [discriminate|]).
    by apply elem_of_nil in Hin.
Defined.

(** *** The external id taken from a user name *)

(** No colon in the text. *)
Fixpoint colon_free (s : string) : bool :=
  match s with
  | EmptyString => true
  | String c r => negb (Ascii.eqb c ":") && colon_free r
  end.

Lemma split_String (sep c : ascii) (r : string) :
  split sep (String c r) =
    if Ascii.eqb c sep then EmptyString :: split sep r
    else match split sep r with
         | p :: ps => String c p :: ps
         | [] => [String c EmptyString]
         end.
Proof. reflexivity. Qed.

Lemma colon_free_String (c : ascii) (q : string) :
  colon_free (String c q) = true → Ascii.eqb c ":" = false ∧ colon_free q = true.
Proof.
  change (colon_free (String c q)) with (negb (Ascii.eqb c ":") && colon_free q).
  intros [Hc Hq]%andb_true_iff. by apply negb_true_iff in Hc.
Qed.

Lemma split_colon_free (q : string) : colon_free q = true → split ":" q = [q].
Proof.
  induction q as [|c q IH]; [done|]. intros [Hc Hq]%colon_free_String.
  by rewrite split_String, Hc, IH.
Qed.

Lemma split_at_colon (q r : string) :
  colon_free q = true → split ":" (q +:+ ":" +:+ r) = q :: split ":" r.
Proof.
  induction q as [|c q IH]; [done|]. intros [Hc Hq]%colon_free_String.
  change (String c q +:+ ":" +:+ r) with (String c (q +:+ ":" +:+ r)).
  by rewrite split_String, Hc, IH.
Qed.

(** X9: for a user name made of a prefix ending in a colon and a rest,
    the external id bound by the user-created consumer is the rest up
    to its first colon: the whole rest when it has no colon, and a
    rest with a further colon is cut there.  A new user named
    [whatsapp:<id>] is bound on channel [whatsapp] to that id. *)
Theorem external_id_stops_at_colon (prefix q r : string) :
  colon_free prefix = true → colon_free q = true →
  second_piece (prefix +:+ ":" +:+ q) = q ∧
  second_piece (prefix +:+ ":" +:+ q +:+ ":" +:+ r) = q ∧
  (∀ ev s, uc_username ev = "whatsapp:" +:+ q →
           user_identities s !! uc_user_id ev = None →
           get_user_identities (uc_user_id ev) (process_user_created (Some ev) s)
             !! "whatsapp" = Some q).
Proof.
  intros Hprefix Hq. unfold second_piece. split_and!.
  - by rewrite split_at_colon, split_colon_free.
  - by rewrite !split_at_colon.
  - intros ev s Hname Hnew. unfold process_user_created. rewrite Hname.
    assert (startswith ("whatsapp:" +:+ q) "whatsapp:" = true) as -> by by destruct q.
    rewrite MetadataFacts.lookup_insert_identity_do_nothing.
    rewrite decide_True by done. f_equal.
    rewrite MetadataFacts.lookup_insert_identity_do_nothing.
    rewrite decide_False by (intros [_ [=]]).
    unfold get_user_identities at 1. cbn. rewrite Hnew. cbn. rewrite lookup_empty. cbn.
    unfold second_piece.
    change ("whatsapp:" +:+ q) with ("whatsapp" +:+ ":" +:+ q).
    by rewrite split_at_colon, split_colon_free.
Qed.

Lemma external_id_stops_at_colon_witness :
  second_piece "whatsapp:5511:999" = "5511" ∧
  second_piece "instagram:@bob" = "@bob".
Proof.
  destruct (external_id_stops_at_colon "whatsapp" "5511" "999" eq_refl eq_refl)
    as (_ & Hcut & _).
  destruct (external_id_stops_at_colon "instagram" "@bob" "" eq_refl eq_refl)
    as (Hwhole & _).
  split; [exact Hcut|exact Hwhole].
Defined.

End MetadataExtra.

(** ** More on the fan-out dispatcher *)

Module FanoutExtra.
Import Events Kafka Fanout.

Section Routing.
Context {Any : Type} `{PyLib Any} {order : SetOrder}.

Lemma NoDup_fmap_omap {A B C} (G : A → option B) (k : A → C) (h : B → C) (l : list A) :
  (∀ a b, G a = Some b → h b = k a) → NoDup (k <$> l) → NoDup (h <$> omap G l).
Proof.
  intros Hkey. induction l as [|a l IH]; [constructor|].
  rewrite fmap_cons. intros [Hnotin Hnd]%NoDup_cons. cbn.
  destruct (G a) as [b|] eqn:Hb; [|by apply IH].
  rewrite fmap_cons. apply NoDup_cons. split; [|by apply IH].
  intros (b' & Heq & (a' & Ha' & Hb')%list_elem_of_omap)%list_elem_of_fmap.
  apply Hnotin. apply list_elem_of_fmap. exists a'. split; [|done].
  rewrite <- (Hkey _ _ Hb), <- (Hkey _ _ Hb'). done.
Qed.

Lemma resolve_elem (requested : list string) (identities : gmap string string)
    (c x : string) :
  (c, x) ∈ resolve_target_channels requested identities
  ↔ identities !! c = Some x ∧ ("all" ∈ requested ∨ c ∈ requested).
Proof.
  unfold resolve_target_channels. rewrite list_elem_of_omap.
  destruct (decide ("all" ∈ requested)) as [Hall|Hall];
    [rewrite bool_decide_eq_true_2 by done|rewrite bool_decide_eq_false_2 by done];
    split.
  - intros (ch & Hch & Hx).
    destruct (identities !! ch) as [y|] eqn:Hy; [|done]. injection Hx as <- <-.
    split; [done|]. by left.
  - intros [Hx Hreq]. exists c. rewrite Hx. split; [|done].
    apply set_iter_elem. apply list_elem_of_fmap. exists (c, x).
    split; [done|]. by apply elem_of_map_to_list.
  - intros (ch & Hch & Hx).
    destruct (identities !! ch) as [y|] eqn:Hy; [|done]. injection Hx as <- <-.
    split; [done|]. right. by apply set_iter_elem.
  - intros [Hx Hreq]. exists c. rewrite Hx. split; [|done].
    apply set_iter_elem. by destruct Hreq.
Qed.

Lemma resolve_NoDup (requested : list string) (identities : gmap string string) :
  NoDup (resolve_target_channels requested identities).*1.
Proof.
  unfold resolve_target_channels.
  apply (NoDup_fmap_omap _ id).
  - intros ch [c x] Hx. destruct (identities !! ch); [|done]. by injection Hx as <- _.
  - rewrite list_fmap_id. case_bool_decide; apply set_iter_NoDup.
Qed.

(** X10: the routing computed by [resolve_target_channels] is the part
    of the identities that was asked for: a channel is routed, with the
    external id the identities give it, exactly when the user has an
    identity on it and it is requested by name or ["all"] is requested;
    no channel is routed twice. *)
Theorem resolve_is_requested_identities (requested : list string)
    (identities : gmap string string) :
  (∀ c x, (c, x) ∈ resolve_target_channels requested identities
          ↔ identities !! c = Some x ∧ ("all" ∈ requested ∨ c ∈ requested)) ∧
  NoDup (resolve_target_channels requested identities).*1.
Proof. split; [apply resolve_elem|apply resolve_NoDup]. Qed.

Lemma member_jobs_elem cfg db (ev : @MessageSentEventProto) (m : string) r :
  r ∈ member_jobs cfg db ev m ↔
  m ≠ p_sender_id ev ∧
  ∃ c x topic,
    Metadata.get_user_identities m db !! c = Some x ∧
    ("all" ∈ p_target_channels ev ∨ c ∈ p_target_channels ev) ∧
    CHANNEL_TOPIC_MAP cfg !! c = Some topic ∧ str_truthy topic = true ∧
    r = Sent topic m (make_job ev m c).
Proof.
  unfold member_jobs. destruct (String.eqb_spec m (p_sender_id ev)) as [->|Hne].
  { split; [by intros ?%elem_of_nil|by intros [? _]]. }
  destruct (dict_truthy (Metadata.get_user_identities m db)) eqn:Hids; cbn [negb].
  - rewrite list_elem_of_omap. split.
    + intros ([c x] & Hroute & Hr). cbn in Hr.
      apply resolve_elem in Hroute as [Hx Hreq].
      destruct (CHANNEL_TOPIC_MAP cfg !! c) as [topic|] eqn:Htopic; [|done].
      destruct (str_truthy topic) eqn:Htruthy; [|done]. injection Hr as <-.
      split; [done|]. by exists c, x, topic.
    + intros [_ (c & x & topic & Hx & Hreq & Htopic & Htruthy & ->)].
      exists (c, x). split; [by apply resolve_elem|].
      cbn. by rewrite Htopic, Htruthy.
  - split; [by intros ?%elem_of_nil|].
    intros [_ (c & x & topic & Hx & _)]. exfalso.
    apply bool_decide_eq_false in Hids. apply Hids. intros Hempty.
    by rewrite Hempty, lookup_empty in Hx.
Qed.

Lemma event_jobs_elem cfg db (ev : @MessageSentEventProto) r :
  r ∈ event_jobs cfg db ev ↔
  ∃ m c x topic,
    m ∈ Metadata.get_members (p_conversation_id ev) db ∧
    m ≠ p_sender_id ev ∧
    Metadata.get_user_identities m db !! c = Some x ∧
    ("all" ∈ p_target_channels ev ∨ c ∈ p_target_channels ev) ∧
    CHANNEL_TOPIC_MAP cfg !! c = Some topic ∧ str_truthy topic = true ∧
    r = Sent topic m (make_job ev m c).
Proof.
  unfold event_jobs. rewrite list_elem_of_join. split.
  - intros (l & Hr & (m & -> & Hm)%list_elem_of_fmap).
    apply member_jobs_elem in Hr as (Hne & c & x & topic & Hx & Hreq & Ht & Htr & ->).
    by exists m, c, x, topic.
  - intros (m & c & x & topic & Hm & Hne & Hrest).
    exists (member_jobs cfg db ev m). split.
    + apply member_jobs_elem. split; [done|]. by exists c, x, topic.
    + apply list_elem_of_fmap. by exists m.
Qed.

(** X11: the jobs of a persisted event are exactly these: one record on
    the topic of channel [c], keyed by member [m] and carrying
    [make_job] of the event, [m] and [c], for every member [m] of the
    conversation other than the sender and every channel [c] on which
    [m] has an identity, that is requested (by name or through
    ["all"]) and that has a non-empty topic in [CHANNEL_TOPIC_MAP]. *)
Theorem fanout_jobs_exactly cfg db (ev : @MessageSentEventProto) r :
  r ∈ event_jobs cfg db ev ↔
  ∃ m c x topic,
    m ∈ Metadata.get_members (p_conversation_id ev) db ∧
    m ≠ p_sender_id ev ∧
    Metadata.get_user_identities m db !! c = Some x ∧
    ("all" ∈ p_target_channels ev ∨ c ∈ p_target_channels ev) ∧
    CHANNEL_TOPIC_MAP cfg !! c = Some topic ∧ str_truthy topic = true ∧
    r = Sent topic m (make_job ev m c).
Proof. apply event_jobs_elem. Qed.

(** X12: what the dispatcher never sends: a job to the sender of the
    message, a job to somebody who is not a member, a job on a channel
    other than [delivery], [whatsapp] and [instagram] (an identity
    linked on [telegram] is never served, not even under ["all"]), or
    a job on a channel the recipient has no identity for. *)
Theorem fanout_never_sends cfg db (ev : @MessageSentEventProto) r :
  r ∈ event_jobs cfg db ev →
  pj_recipient_id (s_value r) ≠ p_sender_id ev ∧
  pj_recipient_id (s_value r) ∈ Metadata.get_members (p_conversation_id ev) db ∧
  pj_channel (s_value r) ∈ ["delivery"; "whatsapp"; "instagram"] ∧
  is_Some (Metadata.get_user_identities (pj_recipient_id (s_value r)) db
           !! pj_channel (s_value r)).
Proof.
  intros (m & c & x & topic & Hm & Hne & Hx & _ & Htopic & _ & ->)%event_jobs_elem.
  cbn. split_and!; try done.
  unfold CHANNEL_TOPIC_MAP in Htopic.
  apply lookup_insert_Some in Htopic as [[<- _]|[_ Htopic]]; [repeat constructor|].
  apply lookup_insert_Some in Htopic as [[<- _]|[_ Htopic]]; [repeat constructor|].
  apply lookup_insert_Some in Htopic as [[<- _]|[_ Htopic]]; [repeat constructor|].
  by rewrite lookup_empty in Htopic.
Qed.

Lemma member_jobs_channels_NoDup cfg db (ev : @MessageSentEventProto) (m : string) :
  NoDup ((λ r, pj_channel (s_value r)) <$> member_jobs cfg db ev m).
Proof.
  unfold member_jobs. repeat case_match; try constructor.
  apply (NoDup_fmap_omap _ fst).
  - intros [c x] r Hr. cbn in Hr. repeat case_match; try done. by injection Hr as <-.
  - apply resolve_NoDup.
Qed.

(** X13: in a database reached from the empty one, the jobs of a
    persisted event are pairwise different in recipient and channel:
    nobody gets the same message twice on one channel, however often a
    channel is named in the request. *)
Theorem fanout_no_double_job cfg (cs : list Metadata.call) (ev : @MessageSentEventProto) :
  NoDup ((λ r, (pj_recipient_id (s_value r), pj_channel (s_value r)))
           <$> event_jobs cfg (Metadata.run cs Metadata.empty_db) ev).
Proof.
  unfold event_jobs.
  pose proof (MetadataFacts.get_members_NoDup cs (p_conversation_id ev)) as Hnd.
  induction Hnd as [|m ms Hnotin Hnd IH]; [constructor|].
  rewrite fmap_cons.
  change (mjoin (?l :: ?ls)) with (l ++ mjoin ls)%list.
  rewrite fmap_app. apply NoDup_app. split_and!; [| |done].
  - apply (NoDup_fmap_1 snd). rewrite <- list_fmap_compose.
    apply member_jobs_channels_NoDup.
  - intros [u c] (r & [= -> ->] & [_ Hr]%FanoutFacts.member_jobs_well_formed)%list_elem_of_fmap
      (r' & [= Hu _] & (l & Hr' & (m' & -> & Hm')%list_elem_of_fmap)%list_elem_of_join)%list_elem_of_fmap.
    apply FanoutFacts.member_jobs_well_formed in Hr' as [_ Hr'].
    apply Hnotin. congruence.
Qed.

End Routing.

Lemma fanout_never_sends_witness :
  "bob" ≠ "alice" ∧
  "whatsapp" ∈ ["delivery"; "whatsapp"; "instagram"].
Proof.
  destruct (fanout_never_sends default_config FanoutFacts.db2 (FanoutFacts.persisted ["all"])
              (Sent "connector.whatsapp.outbound.v1" "bob"
                 (make_job (FanoutFacts.persisted ["all"]) "bob" "whatsapp")))
    as (Hsender & _ & Hchannel & _).
  - vm_compute. repeat constructor.
  - split; [exact Hsender|exact Hchannel].
Defined.

(** Carol links a Telegram identity and nothing else: she gets no job
    even when every channel is requested. *)
Example telegram_only_member_gets_nothing :
  event_jobs default_config
    (Metadata.run
       [ Metadata.LinkIdentity "carol" "telegram" "@carol";
         Metadata.CreateConversation "c9" "group" ["alice"; "carol"] ∅ ]
       Metadata.empty_db)
    {| p_message_id := "m1"; p_conversation_id := "c9"; p_sender_id := "alice";
       p_timestamp := "t"; p_message_type := "text"; p_content := "hi";
       p_attachments_json := ""; p_status := "SENT"; p_sequence_number := 1;
       p_target_channels := ["all"] |} = [].
Proof. vm_compute. reflexivity. Qed.

End FanoutExtra.

(** ** More on the ingestion worker *)

Module IngestionExtra.
Import Events Scylla Kafka Ingestion.

Section Worker.
Context {Any : Type} `{PyLib Any}.
Variable TOPIC_PRODUCE : string.

Abbreviation process := (process TOPIC_PRODUCE).
Abbreviation run := (run TOPIC_PRODUCE).

Lemma cache_append_length (x : string) (cache : list string) :
  Z.of_nat (length (cache_append x cache)) = Z.min (Z.of_nat (length cache) + 1) 10000.
Proof. unfold cache_append. rewrite length_drop, length_app. cbn. lia. Qed.

Lemma cache_append_last (x : string) (cache : list string) :
  last (cache_append x cache) = Some x.
Proof.
  unfold cache_append.
  assert (length cache - (length (cache ++ [x]) - Z.to_nat 10000) =
          length (drop (length (cache ++ [x]) - Z.to_nat 10000) cache))%nat as Hlen.
  { rewrite length_drop, length_app. cbn. lia. }
  rewrite drop_app.
  assert (length (cache ++ [x]) - Z.to_nat 10000 - length cache = 0)%nat as ->.
  { rewrite length_app. cbn. lia. }
  cbn. by rewrite last_snoc.
Qed.

Lemma process_cache (e : env) (parsed : option (@MessageSentEventProto)) (w : world) :
  processed_ids_cache (process e parsed w).2 = processed_ids_cache w ∨
  ∃ x, processed_ids_cache (process e parsed w).2 = cache_append x (processed_ids_cache w).
Proof.
  unfold Ingestion.process. repeat case_match; cbn; eauto.
Qed.

(** X14: the dedup cache is a bounded FIFO: appending keeps at most the
    10000 most recent ids, the appended id being the newest; and along
    any run of the worker the cache never holds more than 10000 ids. *)
Theorem ingestion_cache_bounded
    (msgs : list (message (env * option (@MessageSentEventProto)))) (w : world)
    (committed : Z) :
  (∀ x cache, Z.of_nat (length (cache_append x cache))
                = Z.min (Z.of_nat (length cache) + 1) 10000 ∧
              last (cache_append x cache) = Some x ∧
              cache_append x cache `suffix_of` (cache ++ [x])%list) ∧
  (Z.of_nat (length (processed_ids_cache w)) ≤ 10000 →
   Z.of_nat (length (processed_ids_cache (run msgs w committed).1)) ≤ 10000).
Proof.
  split.
  - intros x cache. split_and!; [apply cache_append_length|apply cache_append_last|].
    apply suffix_drop.
  - revert w committed. induction msgs as [|m rest IH]; intros w committed Hw; [done|].
    unfold Ingestion.run in *. cbn [consume].
    pose proof (IngestionFacts.loop_body_never_raises TOPIC_PRODUCE (value m) w) as Hok.
    destruct (loop_body TOPIC_PRODUCE (value m) w) as [[[]|x] w'] eqn:Hbody; [|done].
    apply IH.
    assert (processed_ids_cache w' = processed_ids_cache (process (value m).1 (value m).2 w).2)
      as ->.
    { unfold loop_body in Hbody.
      destruct (Ingestion.process _ _ _ _) as [[[]|y] w'']; by injection Hbody as <-. }
    destruct (process_cache (value m).1 (value m).2 w) as [->|[y ->]]; [done|].
    rewrite cache_append_length. lia.
Qed.

Lemma get_next_sequence_up (C M : string) (db : Metadata.db) :
  get_next_sequence true C M db =
    match Metadata.get_or_create_sequence C M db with
    | (Ok n, db') => (Ok n, db')
    | (Err Metadata.ConversationNotFoundError, db') => (Err (RpcError Metadata.NOT_FOUND), db')
    | (Err Metadata.RepositoryError, db') => (Err (RpcError Metadata.INTERNAL), db')
    end.
Proof.
  unfold get_next_sequence, Metadata.get_next_sequence, Metadata.GetNextSequenceNumber.
  by destruct (Metadata.get_or_create_sequence C M db) as [[n|[]] db'].
Qed.

Lemma get_next_sequence_err (up : bool) (C M : string) (db db' : Metadata.db) (x : exn) :
  get_next_sequence up C M db = (Err x, db') → ∃ code, x = RpcError code.
Proof.
  unfold get_next_sequence. destruct up; [|intros [= <- _]; by eexists].
  destruct (Metadata.get_next_sequence C M db) as [[n|code] db1]; [done|].
  intros [= <- _]. by eexists.
Qed.

(** What a handled message leaves behind, every service being up. *)
Lemma process_ok_inv (e : env) (ev : @MessageSentEventProto) (w w1 : world) :
  p_message_id ev ∉ processed_ids_cache w →
  process e (Some ev) w = (Ok (), w1) →
  ∃ n ts,
    rpc_up e = true ∧ scylla_up e = true ∧ kafka_up e = true ∧
    fromisoformat (replace_Z (p_timestamp ev)) = Some ts ∧
    Metadata.get_or_create_sequence (p_conversation_id ev) (p_message_id ev) (meta w)
      = (Ok n, meta w1) ∧
    messages w1 =
      <[(_to_uuid (p_conversation_id ev), n) :=
          MessageRow (Some (_to_uuid (p_message_id ev))) (Some (_to_uuid (p_sender_id ev)))
            (Some (p_content ev)) (Some (p_message_type ev)) (Some (p_status ev)) (Some ts)
            (if str_truthy (p_attachments_json ev) then Some (p_attachments_json ev)
             else None)]> (messages w) ∧
    processed_ids_cache w1 = cache_append (p_message_id ev) (processed_ids_cache w) ∧
    produced w1 = (produced w ++ [Sent TOPIC_PRODUCE (p_conversation_id ev)
                                    (set_sequence_number n ev)])%list ∧
    logged w1 = logged w.
Proof.
  intros Hfresh. unfold Ingestion.process.
  rewrite bool_decide_eq_false_2 by done.
  destruct (rpc_up e); [|done]. rewrite get_next_sequence_up.
  destruct (Metadata.get_or_create_sequence _ _ _) as [[n|[]] db'] eqn:Hseq; [|done..].
  unfold save_message.
  destruct (fromisoformat (replace_Z (p_timestamp ev))) as [ts|] eqn:Hts; [|done].
  destruct (scylla_up e); [|done]. destruct (kafka_up e); [|done].
  intros [= <-]. cbn. by exists n, ts.
Qed.

(** X15: a message handled with every service up is numbered by the
    sequencer, stored under that number and forwarded with it, keyed by
    its conversation: the number in the forwarded record is the one the
    sequence log holds for the message id, and the row of the message
    sits in the log at that number. *)
Theorem ingestion_forwards_logged_number (e : env) (ev : @MessageSentEventProto)
    (w w1 : world) :
  p_message_id ev ∉ processed_ids_cache w →
  process e (Some ev) w = (Ok (), w1) →
  ∃ n C,
    Metadata.message_sequences_log (meta w1) !! p_message_id ev = Some (C, n) ∧
    produced w1 = (produced w ++ [Sent TOPIC_PRODUCE (p_conversation_id ev)
                                    (set_sequence_number n ev)])%list ∧
    (messages w1 !! (_to_uuid (p_conversation_id ev), n)) ≫= r_message_id
      = Some (_to_uuid (p_message_id ev)) ∧
    stored_status (_to_uuid (p_conversation_id ev)) n (messages w1) = Some (p_status ev).
Proof.
  intros Hfresh Hok.
  destruct (process_ok_inv e ev w w1 Hfresh Hok)
    as (n & ts & _ & _ & _ & _ & Hseq & Hmsgs & _ & Hprod & _).
  destruct (MetadataFacts.sequence_ok_logged _ _ _ _ _ Hseq) as [C HC].
  exists n, C. unfold stored_status. rewrite Hmsgs, lookup_insert_eq. by split_and!.
Qed.

(** X16: redelivery to a worker that has lost its cache (a restart) has
    exactly-once effects on the stores: handling the same message again
    leaves the metadata database and the message log as the first
    handling left them, and forwards the same record once more. *)
Theorem ingestion_redelivery_same_effects (e e' : env) (ev : @MessageSentEventProto)
    (w w1 w2 : world) :
  p_message_id ev ∉ processed_ids_cache w →
  process e (Some ev) w = (Ok (), w1) →
  process e' (Some ev)
    (World (meta w1) (messages w1) [] (produced w1) (logged w1)) = (Ok (), w2) →
  meta w2 = meta w1 ∧ messages w2 = messages w1 ∧
  ∃ record, produced w1 = (produced w ++ [record])%list ∧
            produced w2 = (produced w ++ [record; record])%list.
Proof.
  intros Hfresh Hok Hagain.
  destruct (process_ok_inv e ev w w1 Hfresh Hok)
    as (n & ts & _ & _ & _ & Hts & Hseq & Hmsgs & _ & Hprod & _).
  apply process_ok_inv in Hagain; [|apply not_elem_of_nil].
  destruct Hagain as (n' & ts' & _ & _ & _ & Hts' & Hseq' & Hmsgs' & _ & Hprod' & _).
  cbn in *.
  destruct (MetadataFacts.sequence_ok_logged _ _ _ _ _ Hseq) as [C HC].
  rewrite (MetadataFacts.sequence_hit _ _ _ _ HC) in Hseq'.
  injection Hseq' as <- Hmeta. cbn in *.
  assert (ts' = ts) as -> by congruence.
  split_and!; [done| |].
  - rewrite Hmsgs', Hmsgs. by rewrite insert_insert_eq.
  - eexists. split; [exact Hprod|]. rewrite Hprod', Hprod.
    by rewrite <- app_assoc.
Qed.

(** X17: the message id enters the cache before the record is sent on.
    So when the send raises, the message is already persisted and
    cached, and a redelivery to the same worker is dropped as a
    duplicate whatever the state of the services: it is never
    forwarded. *)
Theorem ingestion_failed_forward_is_dropped (e e' : env) (ev : @MessageSentEventProto)
    (w w1 : world) :
  process e (Some ev) w = (Err KafkaError, w1) →
  produced w1 = produced w ∧
  p_message_id ev ∈ processed_ids_cache w1 ∧
  process e' (Some ev) w1 = (Ok (), w1).
Proof.
  unfold Ingestion.process.
  destruct (bool_decide (p_message_id ev ∈ processed_ids_cache w)); [done|].
  destruct (get_next_sequence _ _ _ _) as [[n|x] db'] eqn:Hseq.
  2:{ apply get_next_sequence_err in Hseq as [code ->]. by intros [= ? ?]. }
  destruct (save_message _ _ _ _) as [[b|[]] t']; [|done].
  destruct (kafka_up e); [done|]. intros [= <-]. cbn.
  assert (p_message_id ev ∈ cache_append (p_message_id ev) (processed_ids_cache w)) as Hin.
  { pose proof (cache_append_last (p_message_id ev) (processed_ids_cache w)) as Hlast.
    apply last_Some in Hlast as [l' ->]. apply elem_of_app. right. left. }
  split_and!; [done..|]. by rewrite bool_decide_eq_true_2.
Qed.

End Worker.

Lemma ingestion_cache_bounded_witness :
  Z.of_nat (length (processed_ids_cache
    (Ingestion.run "persisted"
       [Message 0 (Env true true true, Some IngestionFacts.greeting)]
       IngestionFacts.world1 0).1)) ≤ 10000.
Proof.
  destruct (ingestion_cache_bounded "persisted"
              [Message 0 (Env true true true, Some IngestionFacts.greeting)]
              IngestionFacts.world1 0) as [_ Hbound].
  apply Hbound. cbn. lia.
Defined.

Lemma ingestion_forwards_logged_number_witness :
  ∃ n C,
    Metadata.message_sequences_log
      (meta (Ingestion.process "persisted" (Env true true true)
               (Some IngestionFacts.greeting) IngestionFacts.world1).2) !! "m1"
      = Some (C, n).
Proof.
  destruct (ingestion_forwards_logged_number "persisted" (Env true true true)
              IngestionFacts.greeting IngestionFacts.world1
              (Ingestion.process "persisted" (Env true true true)
                 (Some IngestionFacts.greeting) IngestionFacts.world1).2)
    as (n & C & Hlog & _).
  - apply not_elem_of_nil.
  - vm_compute. reflexivity.
  - by exists n, C.
Defined.

Lemma ingestion_redelivery_same_effects_witness :
  let w1 := (Ingestion.process "persisted" (Env true true true)
               (Some IngestionFacts.greeting) IngestionFacts.world1).2 in
  let w1' := World (meta w1) (messages w1) [] (produced w1) (logged w1) in
  messages (Ingestion.process "persisted" (Env true true true)
              (Some IngestionFacts.greeting) w1').2 = messages w1.
Proof.
  cbv zeta.
  destruct (ingestion_redelivery_same_effects "persisted" (Env true true true)
              (Env true true true) IngestionFacts.greeting IngestionFacts.world1
              (Ingestion.process "persisted" (Env true true true)
                 (Some IngestionFacts.greeting) IngestionFacts.world1).2
              (Ingestion.process "persisted" (Env true true true)
                 (Some IngestionFacts.greeting)
                 (World
                    (meta (Ingestion.process "persisted" (Env true true true)
                             (Some IngestionFacts.greeting) IngestionFacts.world1).2)
                    (messages (Ingestion.process "persisted" (Env true true true)
                                 (Some IngestionFacts.greeting) IngestionFacts.world1).2)
                    []
                    (produced (Ingestion.process "persisted" (Env true true true)
                                 (Some IngestionFacts.greeting) IngestionFacts.world1).2)
                    (logged (Ingestion.process "persisted" (Env true true true)
                               (Some IngestionFacts.greeting) IngestionFacts.world1).2))).2)
    as (_ & Hmessages & _).
  - apply not_elem_of_nil.
  - vm_compute. reflexivity.
  - vm_compute. reflexivity.
  - exact Hmessages.
Defined.

Lemma ingestion_failed_forward_is_dropped_witness :
  Ingestion.process "persisted" (Env true true true) (Some IngestionFacts.greeting)
    (Ingestion.process "persisted" (Env true true false) (Some IngestionFacts.greeting)
       IngestionFacts.world1).2
  = (Ok (),
     (Ingestion.process "persisted" (Env true true false) (Some IngestionFacts.greeting)
        IngestionFacts.world1).2).
Proof.
  destruct (ingestion_failed_forward_is_dropped "persisted" (Env true true false)
              (Env true true true) IngestionFacts.greeting IngestionFacts.world1
              (Ingestion.process "persisted" (Env true true false)
                 (Some IngestionFacts.greeting) IngestionFacts.world1).2)
    as (_ & _ & Hdropped).
  - vm_compute. reflexivity.
  - exact Hdropped.
Defined.

End IngestionExtra.

(** ** The consumer wrappers *)

Module KafkaExtra.
Import Kafka.

Section Wrappers.
Context {V W E : Type}.

Lemma consume_async_snoc (callback : V → W → result E unit * W)
    (msgs : list (message V)) (m : message V) (w : W) (committed : Z) :
  consume_async callback (msgs ++ [m]) w committed =
    match callback (value m) (consume_async callback msgs w committed).1 with
    | (Ok _, w') => (w', commit m)
    | (Err _, w') => (w', (consume_async callback msgs w committed).2)
    end.
Proof.
  revert w committed. induction msgs as [|m0 rest IH]; intros w committed.
  - cbn. by destruct (callback (value m) w) as [[[]|x] w'].
  - cbn [app consume_async]. by destruct (callback (value m0) w) as [[[]|x] w'].
Qed.

(** X18: how the two wrappers commit.  Under the generator
    [ConsumerWrapper.consume] a loop body that never lets an exception
    escape has every record committed.  Under
    [AsyncConsumerWrapper.consume] a record whose callback raises is
    not committed by itself, but the commit after the next record that
    succeeds moves the position past it: after a batch whose last
    callback succeeds the position is past the whole batch, whatever
    failed before; and when the last callback raises the position is
    the one reached before it. *)
Theorem wrappers_commit (handle : V → W → result E unit * W)
    (msgs : list (message V)) (m : message V) (w : W) (committed : Z) :
  ((∀ v w0, (handle v w0).1 = Ok ()) →
   (consume handle msgs w committed).2 = default committed (commit <$> last msgs)) ∧
  ((handle (value m) (consume_async handle msgs w committed).1).1 = Ok () →
   (consume_async handle (msgs ++ [m]) w committed).2 = offset m + 1) ∧
  (∀ x, (handle (value m) (consume_async handle msgs w committed).1).1 = Err x →
   (consume_async handle (msgs ++ [m]) w committed).2
     = (consume_async handle msgs w committed).2).
Proof.
  split_and!.
  - intros Hok. revert w committed.
    induction msgs as [|m0 rest IH]; intros w committed; [done|].
    cbn [consume]. pose proof (Hok (value m0) w) as Hm0.
    destruct (handle (value m0) w) as [[[]|x] w']; [|done].
    rewrite IH, last_cons. by destruct (last rest).
  - intros Hok. rewrite consume_async_snoc.
    by destruct (handle (value m) _) as [[[]|x] w'].
  - intros x Herr. rewrite consume_async_snoc.
    by destruct (handle (value m) _) as [[[]|y] w'].
Qed.

End Wrappers.

Lemma wrappers_commit_witness :
  (Delivery.run "push" DeliveryFacts.dump
     ([Message 3 (DeliveryFacts.env_up None true, Some (DeliveryFacts.job_for_bob "hi"))]
      ++ [Message 4 (DeliveryFacts.env_up (Some 1) true,
                     Some (DeliveryFacts.job_for_bob "hi"))])
     DeliveryFacts.world0 3).2 = 5.
Proof.
  destruct (wrappers_commit (Delivery.process_delivery_job "push" DeliveryFacts.dump)
              [Message 3 (DeliveryFacts.env_up None true,
                          Some (DeliveryFacts.job_for_bob "hi"))]
              (Message 4 (DeliveryFacts.env_up (Some 1) true,
                          Some (DeliveryFacts.job_for_bob "hi")))
              DeliveryFacts.world0 3) as (_ & Hpast & _).
  apply Hpast. vm_compute. reflexivity.
Defined.

End KafkaExtra.

(** ** More on the status processor *)

Module StatusExtra.
Import Events Scylla Kafka Status.

Section Processor.
Context {Any : Type} `{PyLib Any}.

Lemma handler_never_raises (v : env * option MessageStatusEventProto) (w : world) :
  (handler v w).1 = Ok ().
Proof. unfold handler. by destruct v.2. Qed.

Lemma handler_log_down (v : env * option MessageStatusEventProto) (w : world) :
  scylla_up v.1 = false →
  messages (handler v w).2 = messages w ∧ published (handler v w).2 = published w.
Proof.
  intros Hdown. unfold handler, process_event, update_and_notify.
  destruct v.2; [|done]. by rewrite Hdown.
Qed.

(** X19: the status consumer commits every event, also one whose update
    failed: the handler catches every exception, so after a run the
    committed position is past the last event; and when the message
    log is down during the whole run, no status is written and nobody
    is notified, yet all the events are committed. *)
Theorem status_events_always_committed
    (msgs : list (message (env * option MessageStatusEventProto))) (w : world)
    (committed : Z) :
  (run msgs w committed).2 = default committed (commit <$> last msgs) ∧
  (Forall (λ m, scylla_up (value m).1 = false) msgs →
   messages (run msgs w committed).1 = messages w ∧
   published (run msgs w committed).1 = published w).
Proof.
  split.
  - revert w committed. induction msgs as [|m rest IH]; intros w committed; [done|].
    unfold run in *. cbn [consume_async].
    pose proof (handler_never_raises (value m) w) as Hok.
    destruct (handler (value m) w) as [[[]|x] w']; [|done].
    rewrite IH, last_cons. by destruct (last rest).
  - revert w committed. induction msgs as [|m rest IH]; intros w committed Hdown; [done|].
    apply Forall_cons in Hdown as [Hm Hrest].
    unfold run in *. cbn [consume_async].
    pose proof (handler_never_raises (value m) w) as Hok.
    pose proof (handler_log_down (value m) w Hm) as [Hmsgs Hpub].
    destruct (handler (value m) w) as [[[]|x] w']; [|done].
    cbn in *. rewrite <- Hmsgs, <- Hpub. by apply IH.
Qed.

(** X20: the author of a message is notified of a receipt exactly when
    the status was written, the pub/sub publish did not fail and the
    receipt comes from somebody else: a receipt by the author is never
    published.  The notification goes to the channel
    ["user:<sender>"], once, and its JSON text loads back to the
    dictionary with the type [STATUS_UPDATE], the ids, the status and
    the reader. *)
Theorem status_notifies_author_only (e : env) (ev : MessageStatusEventProto) (w : world) :
  (ps_sender_id ev = ps_user_id ev →
   published (process_event e ev w) = published w) ∧
  (scylla_up e = false ∨ redis_up e = false →
   published (process_event e ev w) = published w) ∧
  (ps_sender_id ev ≠ ps_user_id ev → scylla_up e = true → redis_up e = true →
   ∃ text, published (process_event e ev w)
             = (published w ++ [("user:" +:+ ps_sender_id ev, text)])%list ∧
           json_loads text = Some (notification ev) ∧
           notification ev !! "status" = Some (py_str (ps_status ev)) ∧
           notification ev !! "read_by" = Some (py_str (ps_user_id ev)) ∧
           notification ev !! "type" = Some (py_str "STATUS_UPDATE")).
Proof.
  unfold process_event, update_and_notify. split_and!.
  - intros ->. rewrite String.eqb_refl. by destruct (scylla_up e).
  - intros [-> | ->]; [done|].
    destruct (scylla_up e); [|done]. by destruct (negb _).
  - intros Hne%String.eqb_neq -> ->. rewrite Hne. cbn.
    eexists. split_and!; [done|apply json_loads_dumps|done..].
Qed.

End Processor.

Lemma status_events_always_committed_witness :
  messages (run [Message 0 (Env false true, Some (StatusFacts.receipt "READ"))]
              StatusFacts.world1 0).1 = messages StatusFacts.world1 ∧
  (run [Message 0 (Env false true, Some (StatusFacts.receipt "READ"))]
     StatusFacts.world1 0).2 = 1.
Proof.
  destruct (status_events_always_committed
              [Message 0 (Env false true, Some (StatusFacts.receipt "READ"))]
              StatusFacts.world1 0) as [Hcommitted Hlost].
  split; [|exact Hcommitted]. apply Hlost. by repeat constructor.
Defined.

Lemma status_notifies_author_only_witness :
  published (process_event (Env true true) (StatusFacts.receipt "READ") StatusFacts.world1)
    = [("user:alice", json_dumps (notification (StatusFacts.receipt "READ")))].
Proof.
  destruct (status_notifies_author_only (Env true true) (StatusFacts.receipt "READ")
              StatusFacts.world1) as (_ & _ & Hnotified).
  destruct Hnotified as (text & Hpublished & _); [discriminate|reflexivity..|].
  reflexivity.
Defined.

End StatusExtra.

(** ** More on the delivery worker *)

Module DeliveryExtra.
Import Events Scylla Kafka Delivery.

Section Worker.
Context {Any : Type} `{PyLib Any}.
Variable TOPIC_PUSH : string.
Variable model_dump_json : MessageSentEvent Any → string.

Abbreviation deliver := (deliver TOPIC_PUSH model_dump_json).

(** The inbox row of a job. *)
Definition inbox_row_of (e : env) (job : DeliveryJobEventProto) : inbox_row :=
  InboxRow (_to_uuid (pj_recipient_id job)) (scylla_now e)
    (_to_uuid (pj_conversation_id job)) (_to_uuid (pj_message_id job))
    (if 0 <? p_sequence_number (pj_payload job) then p_sequence_number (pj_payload job)
     else -1)
    (p_content (pj_payload job)) (_to_uuid (p_sender_id (pj_payload job))) "PENDING".

Lemma delivery_job_from_proto_fields (job : DeliveryJobEventProto)
    (event : DeliveryJobEvent Any) :
  delivery_job_from_proto job = Some event →
  recipient_id event = pj_recipient_id job ∧
  j_conversation_id event = pj_conversation_id job ∧
  j_message_id event = pj_message_id job ∧
  content (payload event) = p_content (pj_payload job) ∧
  sender_id (payload event) = p_sender_id (pj_payload job) ∧
  sequence_number (payload event)
    = (if 0 <? p_sequence_number (pj_payload job)
       then Some (p_sequence_number (pj_payload job)) else None).
Proof.
  unfold delivery_job_from_proto, message_sent_from_proto.
  destruct (if str_truthy _ then _ else _) as [att|]; [|done].
  cbn. by intros [= <-].
Qed.

(** X21: the inbox write comes first and does not look at the channel.
    For a job that parses, when the message log is up the recipient's
    inbox gains exactly one row, with status [PENDING], the ids of the
    job and the sequence number of the payload, or -1 when the payload
    carries none (0 or less on the wire), whatever the channel of the
    job and whatever happens to the publish and the push afterwards.
    When the log is down nothing is written, published or pushed.
    Whatever is published goes to the channel ["user:<recipient>"],
    and only after the row was written. *)
Theorem delivery_inbox_first (e : env) (job : DeliveryJobEventProto)
    (event : DeliveryJobEvent Any) (w : world) :
  delivery_job_from_proto job = Some event →
  (scylla_up e = true →
   user_inbox (deliver e (Some job) w).2 = (user_inbox w ++ [inbox_row_of e job])%list) ∧
  (scylla_up e = false →
   user_inbox (deliver e (Some job) w).2 = user_inbox w ∧
   published (deliver e (Some job) w).2 = published w ∧
   pushed (deliver e (Some job) w).2 = pushed w) ∧
  (published (deliver e (Some job) w).2 = published w ∨
   (published (deliver e (Some job) w).2
      = (published w ++ [("user:" +:+ pj_recipient_id job,
                          model_dump_json (payload event))])%list ∧
    user_inbox (deliver e (Some job) w).2 = (user_inbox w ++ [inbox_row_of e job])%list)).
Proof.
  intros Hevent.
  destruct (delivery_job_from_proto_fields job event Hevent)
    as (Hr & Hc & Hm & Hcontent & Hsender & Hseq).
  assert ((if str_truthy (content (payload event)) then content (payload event) else "")
          = p_content (pj_payload job)) as Hor.
  { rewrite Hcontent. by destruct (p_content (pj_payload job)). }
  assert (match sequence_number (payload event) with Some n => n | None => -1 end
          = if 0 <? p_sequence_number (pj_payload job)
            then p_sequence_number (pj_payload job) else -1) as Hnum.
  { rewrite Hseq. by destruct (0 <? _). }
  unfold Delivery.deliver, inbox_row_of. cbn. rewrite Hevent. cbn.
  rewrite Hor, Hnum, Hr, Hc, Hm, Hsender.
  destruct (scylla_up e); split_and!; try done.
  - destruct (redis_reply e) as [n|]; [|done]. cbn.
    destruct (0 <? n); [done|]. by destruct (kafka_up e).
  - destruct (redis_reply e) as [n|]; [|by left]. right.
    destruct (0 <? n); [done|]. by destruct (kafka_up e).
  - by left.
Qed.

End Worker.

Lemma delivery_inbox_first_witness :
  user_inbox (Delivery.deliver "push" DeliveryFacts.dump (DeliveryFacts.env_up None true)
                (Some (Fanout.make_job (FanoutFacts.persisted ["whatsapp"]) "bob" "whatsapp"))
                DeliveryFacts.world0).2
  = [inbox_row_of (DeliveryFacts.env_up None true)
       (Fanout.make_job (FanoutFacts.persisted ["whatsapp"]) "bob" "whatsapp")].
Proof.
  destruct (delivery_inbox_first "push" DeliveryFacts.dump (DeliveryFacts.env_up None true)
              (Fanout.make_job (FanoutFacts.persisted ["whatsapp"]) "bob" "whatsapp")
              {| job_id := pj_job_id (Fanout.make_job (FanoutFacts.persisted ["whatsapp"])
                                        "bob" "whatsapp");
                 j_message_id := "m1"; j_conversation_id := "c1"; recipient_id := "bob";
                 channel := "whatsapp";
                 payload := {| message_id := "m1"; conversation_id := "c1";
                               sender_id := "alice";
                               timestamp := "2025-01-01T00:00:00Z";
                               message_type := "text"; content := "hi";
                               attachments := None; status := "SENT";
                               sequence_number := Some 1;
                               target_channels := ["whatsapp"] |} |}
              DeliveryFacts.world0 eq_refl) as (Hrow & _).
  by apply Hrow.
Defined.

End DeliveryExtra.

(** ** More on the protobuf converter *)

Module ConverterExtra.
Import Events Converter.

Section RoundTrips.
Context {Any : Type} `{PyLib Any}.



End RoundTrips.



End ConverterExtra.

(** ** The socket gateway's connection registry *)

Module GatewayFacts.
Import Gateway.

(** No user is registered with an empty list of sessions. *)
Definition no_empty_entry (active : connections) : Prop :=
  ∀ u, active !! u ≠ Some [].

Lemma remove_first_snoc (ws : websocket) (l : list websocket) :
  ws ∉ l → remove_first ws (l ++ [ws]) = l.
Proof.
  induction l as [|x l IH]; intros Hnotin; cbn.
  - by rewrite decide_True.
  - apply not_elem_of_cons in Hnotin as [Hne Hnotin].
    rewrite decide_False by done. by rewrite IH.
Qed.

Lemma no_empty_entry_connect (u : string) (ws : websocket) (active : connections) :
  no_empty_entry active → no_empty_entry (connect u ws active).
Proof.
  intros Hinv v. unfold connect. destruct (decide (u = v)) as [<-|Hne].
  - rewrite lookup_insert_eq. intros [= Hnil]. by destruct (default [] (active !! u)).
  - rewrite lookup_insert_ne by done. apply Hinv.
Qed.

Lemma no_empty_entry_disconnect (u : string) (ws : websocket) (active : connections) :
  no_empty_entry active → no_empty_entry (disconnect u ws active).
Proof.
  intros Hinv v. unfold disconnect.
  destruct (active !! u) as [l|] eqn:Hu; [|apply Hinv].
  destruct (if bool_decide (ws ∈ l) then remove_first ws l else l) as [|x l'].
  - destruct (decide (u = v)) as [<-|Hne].
    + by rewrite lookup_delete_eq.
    + rewrite lookup_delete_ne by done. apply Hinv.
  - destruct (decide (u = v)) as [<-|Hne].
    + by rewrite lookup_insert_eq.
    + rewrite lookup_insert_ne by done. apply Hinv.
Qed.

(** X24: the registry never keeps a user with no session: after any
    history of sessions opening and closing, every registered user has
    at least one session, so the figure reported by [/health] counts
    the users that are connected now. *)
Theorem registry_has_no_empty_entry (cs : list call) (u : string) (l : list websocket) :
  run cs ∅ !! u = Some l → l ≠ [].
Proof.
  assert (∀ a, no_empty_entry a → no_empty_entry (run cs a)) as Hrun.
  { induction cs as [|c cs IH]; intros a Ha; [done|].
    cbn. apply IH. destruct c; [by apply no_empty_entry_connect|].
    by apply no_empty_entry_disconnect. }
  intros Hl ->. by apply (Hrun ∅ (λ v, ltac:(by rewrite lookup_empty)) u).
Qed.

Lemma registry_has_no_empty_entry_witness :
  run [Connect "bob" 1%nat; Connect "bob" 2%nat; Disconnect "bob" 1%nat] ∅ !! "bob" = Some [2%nat] ∧
  [2%nat] ≠ [].
Proof.
  split; [vm_compute; reflexivity|].
  apply (registry_has_no_empty_entry
           [Connect "bob" 1%nat; Connect "bob" 2%nat; Disconnect "bob" 1%nat] "bob" [2%nat]).
  vm_compute. reflexivity.
Defined.

(** X25: closing a session undoes opening it: when the session was not
    already registered for the user, [disconnect] after [connect]
    gives back the registry as it was (the user's entry disappears
    with the last session).  Closing a session that is not registered
    for the user changes nothing, and neither call touches the sessions
    of another user. *)
Theorem disconnect_undoes_connect (u : string) (ws : websocket) (active : connections) :
  no_empty_entry active →
  ws ∉ default [] (active !! u) →
  disconnect u ws (connect u ws active) = active ∧
  disconnect u ws active = active ∧
  (∀ v, v ≠ u → connect u ws active !! v = active !! v ∧
                disconnect u ws active !! v = active !! v).
Proof.
  intros Hinv Hnotin. split_and!.
  - unfold disconnect, connect. rewrite lookup_insert_eq.
    rewrite bool_decide_eq_true_2 by (apply elem_of_app; right; left).
    rewrite remove_first_snoc by done.
    destruct (active !! u) as [l|] eqn:Hu; cbn.
    + destruct l as [|x l]; [by destruct (Hinv u)|].
      rewrite insert_insert_eq. by apply insert_id.
    + rewrite delete_insert_eq. by apply delete_id.
  - unfold disconnect. destruct (active !! u) as [l|] eqn:Hu; [|done]. cbn in Hnotin.
    rewrite bool_decide_eq_false_2 by done.
    destruct l as [|x l]; [by destruct (Hinv u)|]. by apply insert_id.
  - intros v Hne. split.
    + unfold connect. by rewrite lookup_insert_ne.
    + unfold disconnect. destruct (active !! u) as [l|]; [|done].
      destruct (if bool_decide (ws ∈ l) then remove_first ws l else l).
      * by rewrite lookup_delete_ne.
      * by rewrite lookup_insert_ne.
Qed.

Lemma disconnect_undoes_connect_witness :
  disconnect "bob" 2%nat (connect "bob" 2%nat (connect "bob" 1%nat ∅))
    = connect "bob" 1%nat ∅.
Proof.
  destruct (disconnect_undoes_connect "bob" 2%nat (connect "bob" 1%nat ∅)) as [Hundo _].
  - by apply no_empty_entry_connect; intros v; rewrite lookup_empty.
  - vm_compute. intros Hin. apply elem_of_cons in Hin as [Hin|Hin]; [discriminate|].
    by apply elem_of_nil in Hin.
  - exact Hundo.
Defined.

End GatewayFacts.

(** ** From the request to the inbox *)

Module Pipeline.
Import Events Scylla Kafka.

Section Pipeline.
Context {Any : Type} `{PyLib Any} {order : SetOrder}.
Variables TOPIC_PRODUCE TOPIC_PUSH : string.
Variable model_dump_json : MessageSentEvent Any → string.

Lemma send_message_loads (request : @Api.CreateMessageRequest Any) (user now : string)
    (n : Z) :
  1 ≤ n →
  ∃ payload,
    message_sent_from_proto (set_sequence_number n (Api.send_message request user now))
      = Some payload ∧
    sequence_number payload = Some n ∧
    content payload = Api.rq_content request ∧
    sender_id payload = user.
Proof.
  intros Hn. unfold message_sent_from_proto, Api.send_message, message_sent_to_proto. cbn.
  assert ((0 <? n) = true) as -> by lia.
  destruct (Api.rq_attachments request) as [d|]; [destruct (dict_truthy d)|]; cbn.
  - rewrite json_dumps_truthy, json_loads_dumps. cbn. by eexists.
  - by eexists.
  - by eexists.
Qed.

(** X26: the stages compose.  A request sent through the API without
    requested channels, once handled by the ingestion worker with every
    service up against a metadata database reached from the empty one,
    is forwarded with a sequence number of at least 1, the one the
    sequence log holds.  The dispatcher then sends, for each member of
    the conversation other than the author who has the [delivery]
    identity, exactly one job, on the delivery topic; and the delivery
    worker, when the message log is up, writes for that job one inbox
    row of that member with the message id, that sequence number, the
    content and status [PENDING]. *)
Theorem request_reaches_inbox (request : @Api.CreateMessageRequest Any)
    (user now : string) (cs : list Metadata.call) (e : Ingestion.env)
    (w w1 : Ingestion.world) :
  Ingestion.meta w = Metadata.run cs Metadata.empty_db →
  Api.rq_target_channels request = None ∨ Api.rq_target_channels request = Some [] →
  p_message_id (Api.send_message request user now) ∉ Ingestion.processed_ids_cache w →
  Ingestion.process TOPIC_PRODUCE e (Some (Api.send_message request user now)) w
    = (Ok (), w1) →
  ∃ n persisted C,
    persisted = set_sequence_number n (Api.send_message request user now) ∧
    1 ≤ n ∧
    Metadata.message_sequences_log (Ingestion.meta w1)
      !! Uuid.uuid_str (Api.idempotency_key request) = Some (C, n) ∧
    Ingestion.produced w1
      = (Ingestion.produced w
           ++ [Sent TOPIC_PRODUCE (Uuid.uuid_str (Api.rq_conversation_id request))
                 persisted])%list ∧
    ∀ cfg (m : string),
      str_truthy (Fanout.TOPIC_PRODUCE_DELIVERY cfg) = true →
      m ∈ Metadata.get_members (Uuid.uuid_str (Api.rq_conversation_id request))
            (Ingestion.meta w1) →
      m ≠ user →
      is_Some (Metadata.get_user_identities m (Ingestion.meta w1) !! "delivery") →
      filter (λ r, pj_recipient_id (s_value r) = m)
        (Fanout.event_jobs cfg (Ingestion.meta w1) persisted)
      = [Sent (Fanout.TOPIC_PRODUCE_DELIVERY cfg) m
           (Fanout.make_job persisted m "delivery")] ∧
      ∀ (ed : Delivery.env) (wd : Delivery.world),
        Delivery.scylla_up ed = true →
        Delivery.user_inbox
          (Delivery.deliver TOPIC_PUSH model_dump_json ed
             (Some (Fanout.make_job persisted m "delivery")) wd).2
        = (Delivery.user_inbox wd
             ++ [InboxRow (_to_uuid m) (Delivery.scylla_now ed)
                   (_to_uuid (Uuid.uuid_str (Api.rq_conversation_id request)))
                   (_to_uuid (Uuid.uuid_str (Api.idempotency_key request)))
                   n (Api.rq_content request) (_to_uuid user) "PENDING"])%list.
Proof.
  intros Hmeta Hnone Hfresh Hok.
  destruct (IngestionExtra.process_ok_inv TOPIC_PRODUCE e _ w w1 Hfresh Hok)
    as (n & ts & _ & _ & _ & _ & Hseq & _ & _ & Hprod & _).
  cbn in Hseq, Hprod. rewrite Hmeta in Hseq.
  assert (Ingestion.meta w1
          = Metadata.run (cs ++ [Metadata.NextSequence
                                   (Uuid.uuid_str (Api.rq_conversation_id request))
                                   (Uuid.uuid_str (Api.idempotency_key request))])
              Metadata.empty_db) as Hmeta1.
  { unfold Metadata.run. rewrite foldl_app. cbn. fold (Metadata.run cs Metadata.empty_db).
    by rewrite Hseq. }
  destruct (MetadataFacts.sequence_ok_logged _ _ _ _ _ Hseq) as [C HC].
  assert (1 ≤ n) as Hn.
  { pose proof (MetadataFacts.log_inv_run
                  (cs ++ [Metadata.NextSequence
                            (Uuid.uuid_str (Api.rq_conversation_id request))
                            (Uuid.uuid_str (Api.idempotency_key request))])
                  Metadata.empty_db MetadataFacts.log_inv_empty) as [_ Hrange _ _].
    rewrite <- Hmeta1 in Hrange. destruct (Hrange _ _ _ HC) as (c & _ & Hn). lia. }
  exists n, (set_sequence_number n (Api.send_message request user now)), C.
  split_and!; [done|done|done|done|].
  intros cfg m Htopic Hm Hne Hid.
  assert (p_target_channels (set_sequence_number n (Api.send_message request user now))
          = ["delivery"]) as Hch.
  { cbn. by destruct Hnone as [-> | ->]. }
  split.
  - unfold Fanout.event_jobs. apply FanoutFacts.filter_event_jobs_once; try done.
    cbn. rewrite Hmeta1. apply MetadataFacts.get_members_NoDup.
  - intros ed wd Hup.
    destruct (send_message_loads request user now n Hn)
      as (payload & Hpayload & Hnum & Hcontent & Hsender).
    unfold Delivery.deliver, delivery_job_from_proto. cbn. rewrite Hpayload. cbn.
    rewrite Hup, Hnum, Hcontent, Hsender.
    assert ((if str_truthy (Api.rq_content request) then Api.rq_content request else "")
            = Api.rq_content request) as -> by (by destruct (Api.rq_content request)).
    destruct (Delivery.redis_reply ed) as [k|]; [|done]. cbn.
    destruct (0 <? k); [done|]. by destruct (Delivery.kafka_up ed).
Qed.

End Pipeline.

(** Alice and Bob share a private conversation; Alice sends [hi]. *)
Definition chat : Uuid.uuid := 0x11111111111141118111111111111111.

Definition history : list Metadata.call :=
  [ Metadata.UserCreated (Some FanoutFacts.alice_created);
    Metadata.UserCreated (Some MetadataFacts.bob_created);
    Metadata.CreateConversation (Uuid.uuid_str chat) "private" ["alice"; "bob"] ∅ ].

Definition hi : @Api.CreateMessageRequest string :=
  {| Api.idempotency_key := 0x22222222222242228222222222222222;
     Api.rq_conversation_id := chat;
     Api.rq_message_type := "text";
     Api.rq_content := "hi";
     Api.rq_attachments := None;
     Api.rq_target_channels := None |}.

Definition start : Ingestion.world :=
  Ingestion.World (Metadata.run history Metadata.empty_db) ∅ [] [] [].

Lemma request_reaches_inbox_witness :
  ∃ n, 1 ≤ n ∧
    Delivery.user_inbox
      (Delivery.deliver "push" DeliveryFacts.dump (DeliveryFacts.env_up (Some 1) true)
         (Some (Fanout.make_job
                  (set_sequence_number n
                     (Api.send_message hi "alice" "2025-01-01T00:00:00+00:00"))
                  "bob" "delivery"))
         DeliveryFacts.world0).2
    = ([] ++ [InboxRow (_to_uuid "bob") 1735689600
                (_to_uuid (Uuid.uuid_str chat))
                (_to_uuid (Uuid.uuid_str (Api.idempotency_key hi)))
                n "hi" (_to_uuid "alice") "PENDING"])%list.
Proof.
  destruct (request_reaches_inbox (order := first_occurrence_order)
              "persisted" "push" DeliveryFacts.dump hi "alice"
              "2025-01-01T00:00:00+00:00" history (Ingestion.Env true true true) start
              (Ingestion.process "persisted" (Ingestion.Env true true true)
                 (Some (Api.send_message hi "alice" "2025-01-01T00:00:00+00:00"))
                 start).2)
    as (n & persisted & C & -> & Hn & _ & _ & Hjobs).
  - reflexivity.
  - by left.
  - apply not_elem_of_nil.
  - vm_compute. reflexivity.
  - exists n. split; [done|].
    destruct (Hjobs Fanout.default_config "bob") as [_ Hrow].
    + reflexivity.
    + vm_compute. apply list_elem_of_further, list_elem_of_here.
    + done.
    + vm_compute. by eexists.
    + apply (Hrow (DeliveryFacts.env_up (Some 1) true) DeliveryFacts.world0).
      reflexivity.
Defined.

End Pipeline.
